(** * The default binder of echo: a shallow embedding of bind.go

    The binder fills a caller-supplied destination from the path
    parameters, the query string and the body of a request.  The Go code
    walks the destination with package [reflect]; here a destination is a
    pair of a type descriptor ([reflect.Typ]) and a value tree
    ([reflect.Value]), and every function that mutates its argument in Go
    returns the new value next to its result.

    Conventions of the embedding:
    - a Go [map] whose iteration order the code depends on (the
      case-insensitive scan of [bindData] stops at the first hit) is an
      association list without duplicate keys, iterated in list order;
      theorems quantify over every such list;
    - a run ends in [Done] (Go's [nil] error), [Fail e] (a returned
      error) or [Panic] (a run-time panic, e.g. an index out of range);
    - a Go string is the sequence of its bytes, text being UTF-8: the
      white space of Unicode is recognised by its encoding, and the case
      folding of Unicode beyond ASCII is left to the platform;
    - the platform is a 64-bit one ([strconv.IntSize = 64]). *)

From Stdlib Require Import ZArith List String Ascii Bool Lia.
Import ListNotations.

Set Warnings "-register-all".

Local Open Scope string_scope.
Local Open Scope list_scope.
Local Open Scope Z_scope.

(** ** Errors *)

(** Go's [error] values, as far as the binder builds or inspects them.
    The text of a message is kept symbolic: [MsgError e] stands for the
    string [e.Error()]. *)
Inductive error : Type :=
| errorString (s : string)                 (* errors.New(s) *)
| NumError (Func Num : string) (Err : error) (* *strconv.NumError *)
| HTTPError (Code : Z) (Message : message) (Internal : option error)
| XMLUnsupportedTypeError (typ : string)   (* *xml.UnsupportedTypeError *)
| XMLSyntaxError (Msg : string) (Line : Z) (* *xml.SyntaxError *)
| otherError (text : string)               (* any other error value *)
with message : Type :=
| MsgStatusText (code : Z)                 (* http.StatusText(code) *)
| MsgError (e : error)                     (* e.Error() *)
| MsgUnsupportedType (e : error)
    (* Sprintf("Unsupported type error: type=%v, error=%v", e.Type, e.Error()) *)
| MsgSyntax (e : error).
    (* Sprintf("Syntax error: line=%v, error=%v", e.Line, e.Error()) *)

(** How a call ends. *)
Inductive outcome : Type :=
| Done
| Fail (e : error)
| Panic (why : string).

Definition isDone (o : outcome) : bool :=
  match o with Done => true | _ => false end.

(** ** Package strings *)

Module strings.

(** Bytes below [utf8.RuneSelf] are ASCII. *)
Definition isASCII (c : ascii) : bool := Nat.ltb (nat_of_ascii c) 128.

(** The letters A-Z, and the lower case of an ASCII byte. *)
Definition isUpper (c : ascii) : bool :=
  let n := nat_of_ascii c in (Nat.leb 65 n && Nat.leb n 90)%bool.

Definition toLower (c : ascii) : ascii :=
  if isUpper c then ascii_of_nat (nat_of_ascii c + 32) else c.

Section EqualFold.

(** The second loop of [strings.EqualFold], entered at the first
    position where a byte of either string is not ASCII, on what is left
    of the two strings from there: it decodes them rune by rune and
    compares the runes up to the simple case folding of Unicode
    ([unicode.SimpleFold]).  The tables of package [unicode] are left to
    the platform. *)
Variable hasUnicode : string -> string -> bool.

(** [strings.EqualFold]: the first loop compares the strings byte by
    byte as long as both bytes are ASCII, two bytes matching when they
    are equal or are the upper and the lower case of one letter A-Z. *)
Fixpoint EqualFold (s t : string) : bool :=
  match s, t with
  | EmptyString, EmptyString => true
  | String sr s', String tr t' =>
      if negb (isASCII sr && isASCII tr) then hasUnicode s t
      else if Ascii.eqb tr sr then EqualFold s' t'
      else
        let lo := if Nat.ltb (nat_of_ascii tr) (nat_of_ascii sr) then tr else sr in
        let hi := if Nat.ltb (nat_of_ascii tr) (nat_of_ascii sr) then sr else tr in
        if (isUpper lo && Nat.eqb (nat_of_ascii hi) (nat_of_ascii lo + 32))%bool
        then EqualFold s' t'
        else false
  | _, _ => false                       (* len(s) != len(t) *)
  end.

End EqualFold.

(** [strings.Cut(s, sep)] for a one-byte separator: the text before the
    first occurrence of [sep], or all of [s] when there is none. *)
Fixpoint CutBefore (s : string) (sep : ascii) : string :=
  match s with
  | EmptyString => EmptyString
  | String a s' => if Ascii.eqb a sep then EmptyString
                   else String a (CutBefore s' sep)
  end.

(** White space as [unicode.IsSpace] sees it, in the UTF-8 encoding of
    a Go string.  One byte: tab, line feed, vertical tab, form feed,
    carriage return and space. *)
Definition isSpace (c : ascii) : bool :=
  let n := nat_of_ascii c in
  ((Nat.leb 9 n && Nat.leb n 13) || Nat.eqb n 32)%bool.

(** Two bytes: U+0085 (C2 85) and U+00A0 (C2 A0). *)
Definition isSpace2 (a b : ascii) : bool :=
  let a := nat_of_ascii a in
  let b := nat_of_ascii b in
  (Nat.eqb a 194 && (Nat.eqb b 133 || Nat.eqb b 160))%bool.

(** Three bytes: U+1680 (E1 9A 80), U+2000 to U+200A (E2 80 80 to
    E2 80 8A), U+2028 and U+2029 (E2 80 A8, E2 80 A9), U+202F (E2 80 AF),
    U+205F (E2 81 9F) and U+3000 (E3 80 80). *)
Definition isSpace3 (a b c : ascii) : bool :=
  let a := nat_of_ascii a in
  let b := nat_of_ascii b in
  let c := nat_of_ascii c in
  ((Nat.eqb a 225 && Nat.eqb b 154 && Nat.eqb c 128)
   || (Nat.eqb a 226 && Nat.eqb b 128
       && ((Nat.leb 128 c && Nat.leb c 138)
           || Nat.eqb c 168 || Nat.eqb c 169 || Nat.eqb c 175))
   || (Nat.eqb a 226 && Nat.eqb b 129 && Nat.eqb c 159)
   || (Nat.eqb a 227 && Nat.eqb b 128 && Nat.eqb c 128))%bool.

(** [TrimLeftFunc(s, unicode.IsSpace)]: the runes are decoded from the
    left, and the first that is no white space ends the loop.  (Bytes
    that are not the encoding of a rune decode to [RuneError], which is
    no white space.) *)
Fixpoint trimLeft (s : list ascii) : list ascii :=
  match s with
  | [] => []
  | a :: s1 =>
      if isSpace a then trimLeft s1
      else
        match s1 with
        | [] => s
        | b :: s2 =>
            if isSpace2 a b then trimLeft s2
            else
              match s2 with
              | [] => s
              | c :: s3 => if isSpace3 a b c then trimLeft s3 else s
              end
        end
  end.

(** [TrimRightFunc(s, unicode.IsSpace)]: the runes are decoded from
    the right; [s] is the text read backwards. *)
Fixpoint trimBackwards (s : list ascii) : list ascii :=
  match s with
  | [] => []
  | c :: s1 =>
      if isSpace c then trimBackwards s1
      else
        match s1 with
        | [] => s
        | b :: s2 =>
            if isSpace2 b c then trimBackwards s2
            else
              match s2 with
              | [] => s
              | a :: s3 => if isSpace3 a b c then trimBackwards s3 else s
              end
        end
  end.

Definition trimRight (s : list ascii) : list ascii :=
  List.rev (trimBackwards (List.rev s)).

(** [strings.TrimSpace]: the white space of [unicode.IsSpace] is taken
    off at both ends.  (Go strips the ASCII white space first and goes
    on with [TrimFunc] or [TrimRightFunc] at the first byte that is not
    ASCII; the result is that of trimming left, then right.) *)
Definition TrimSpace (s : string) : string :=
  string_of_list_ascii (trimRight (trimLeft (list_ascii_of_string s))).

End strings.

(** ** Package strconv *)

Module strconv.

Definition ErrSyntax : error := errorString "invalid syntax".
Definition ErrRange : error := errorString "value out of range".

Definition IntSize : Z := 64.
Definition maxUint64 : Z := 2 ^ 64 - 1.

Definition digit (c : ascii) : option Z :=
  let n := nat_of_ascii c in
  if (Nat.leb 48 n && Nat.leb n 57)%bool then Some (Z.of_nat n - 48) else None.

(** The digit loop of [ParseUint] in base 10: [n] is the value read so
    far, [maxVal] the largest value of the requested width.  The first
    offending byte decides between a syntax and a range error. *)
Fixpoint parseDigits (maxVal : Z) (s : string) (n : Z) : Z + error :=
  match s with
  | EmptyString => inl n
  | String c s' =>
      match digit c with
      | None => inr ErrSyntax
      | Some d =>
          if n >=? maxUint64 / 10 + 1 then inr ErrRange (* n*10 overflows *)
          else
            let n10 := (n * 10) mod 2 ^ 64 in
            let n1 := (n10 + d) mod 2 ^ 64 in
            if (n1 <? n10) || (n1 >? maxVal) then inr ErrRange (* n+d overflows *)
            else parseDigits maxVal s' n1
      end
  end.

Definition isErrRange (e : error) : bool :=
  match e with errorString m => String.eqb m "value out of range" | _ => false end.

(** The body of [ParseUint(s, 10, bitSize)] ahead of the wrapping of its
    error in a [NumError]: the value Go returns, and [ErrSyntax] or
    [ErrRange] when there is one.  [bitSize] is one of 0, 8, 16, 32, 64
    at every call of the binder. *)
Definition parseUint (s : string) (bitSize : Z) : Z * option error :=
  match s with
  | EmptyString => (0, Some ErrSyntax)
  | _ =>
      let bitSize := if bitSize =? 0 then IntSize else bitSize in
      let maxVal := 2 ^ bitSize - 1 in
      match parseDigits maxVal s 0 with
      | inl n => (n, None)
      | inr e => if isErrRange e then (maxVal, Some e) else (0, Some e)
      end
  end.

Definition wrap (fn s : string) (r : Z * option error) : Z * option error :=
  match r with
  | (n, None) => (n, None)
  | (n, Some e) => (n, Some (NumError fn s e))
  end.

(** [strconv.ParseUint(s, 10, bitSize)]. *)
Definition ParseUint (s : string) (bitSize : Z) : Z * option error :=
  wrap "ParseUint" s (parseUint s bitSize).

(** [strconv.ParseInt(s, 10, bitSize)]: an optional sign, then
    [ParseUint(s, 10, bitSize)], whose range error is passed over (the
    value it returns with it is the largest of the width), then the range
    check of the signed width. *)
Definition ParseInt (s0 : string) (bitSize : Z) : Z * option error :=
  match s0 with
  | EmptyString => (0, Some (NumError "ParseInt" s0 ErrSyntax))
  | String c rest =>
      let neg := Ascii.eqb c "-" in
      let s := if (Ascii.eqb c "+" || Ascii.eqb c "-")%bool then rest else s0 in
      let (un, err) := parseUint s bitSize in
      if match err with Some e => negb (isErrRange e) | None => false end
      then (0, option_map (NumError "ParseInt" s0) err)
      else
        let bitSize := if bitSize =? 0 then IntSize else bitSize in
        let cutoff := 2 ^ (bitSize - 1) in
        if (negb neg && (un >=? cutoff))%bool
        then (cutoff - 1, Some (NumError "ParseInt" s0 ErrRange))
        else if (neg && (un >? cutoff))%bool
        then (- cutoff, Some (NumError "ParseInt" s0 ErrRange))
        else (if neg then - un else un, None)
  end.

(** [strconv.ParseBool]. *)
Definition ParseBool (str : string) : bool * option error :=
  if (String.eqb str "1" || String.eqb str "t" || String.eqb str "T"
      || String.eqb str "TRUE" || String.eqb str "true"
      || String.eqb str "True")%bool
  then (true, None)
  else if (String.eqb str "0" || String.eqb str "f" || String.eqb str "F"
           || String.eqb str "FALSE" || String.eqb str "false"
           || String.eqb str "False")%bool
  then (false, None)
  else (false, Some (NumError "ParseBool" str ErrSyntax)).

End strconv.

(** ** Package mime/multipart *)

Module multipart.

(** An uploaded file as the binder sees it: an opaque handle. *)
Record FileHeader : Type := { Filename : string; Size : Z }.

End multipart.

(** ** Package reflect *)

Module reflect.

Inductive Kind : Type :=
| Invalid | Bool
| Int | Int8 | Int16 | Int32 | Int64
| Uint | Uint8 | Uint16 | Uint32 | Uint64 | Uintptr
| Float32 | Float64 | Complex64 | Complex128
| Array | Chan | Func | Interface | Map | Pointer | Slice | String
| Struct | UnsafePointer.

Definition Kind_eqb (a b : Kind) : bool :=
  match a, b with
  | Invalid, Invalid | Bool, Bool | Int, Int | Int8, Int8 | Int16, Int16
  | Int32, Int32 | Int64, Int64 | Uint, Uint | Uint8, Uint8
  | Uint16, Uint16 | Uint32, Uint32 | Uint64, Uint64 | Uintptr, Uintptr
  | Float32, Float32 | Float64, Float64 | Complex64, Complex64
  | Complex128, Complex128 | Array, Array | Chan, Chan | Func, Func
  | Interface, Interface | Map, Map | Pointer, Pointer | Slice, Slice
  | String, String | Struct, Struct | UnsafePointer, UnsafePointer => true
  | _, _ => false
  end.

(** A [float64] is its IEEE-754 bit pattern; [+0.0] is [0]. *)
Definition float64 : Type := Z.

(** The data of a [reflect.Value].  A nil slice and an empty one are
    both [VSlice []]; a nil map is [VMap None]. *)
Inductive Value : Type :=
| VBool (b : bool)
| VInt (i : Z)
| VUint (u : Z)
| VFloat (f : float64)
| VString (s : string)
| VPtr (pointee : option Value)
| VSlice (elems : list Value)
| VMap (entries : option (list (string * Value)))
| VInterface (dyn : option Value)
| VStruct (fields : list Value)
| VFileHeader (h : multipart.FileHeader)
| VOpaque.

(** The decoding hooks in the method set of [*T]: each acts on the
    receiver and may fail.
    - [UnmarshalParam]  : interface [BindUnmarshaler];
    - [UnmarshalText]   : interface [encoding.TextUnmarshaler];
    - [UnmarshalParams] : interface [bindMultipleUnmarshaler]. *)
Record MethodSet : Type := {
  UnmarshalParam : option (string -> Value -> Value * option error);
  UnmarshalText : option (string -> Value -> Value * option error);
  UnmarshalParams : option (list string -> Value -> Value * option error)
}.

Definition StructTag : Type := list (string * string).

(** A [reflect.Type].  [decl] is the method set of a defined type and
    [None] for a predeclared type or a type literal.  [Basic] is a type
    whose kind is all the binder looks at (not a pointer, slice, map,
    interface or struct).  An interface type carries the number of its
    methods ([Type.NumMethod]): [InterfaceType 0] is [interface{}]. *)
Inductive Typ : Type :=
| Basic (decl : option MethodSet) (k : Kind)
| PtrTo (elem : Typ)
| SliceOf (decl : option MethodSet) (elem : Typ)
| MapOf (decl : option MethodSet) (key elem : Typ)
| InterfaceType (numMethod : nat)
| StructOf (decl : option MethodSet) (fields : list StructField)
| FileHeaderType                      (* multipart.FileHeader *)
with StructField : Type :=
| mkStructField (Name : string) (Type_ : Typ) (Tag : StructTag)
                (Anonymous : bool) (exported : bool).

Definition Name (f : StructField) : string :=
  match f with mkStructField n _ _ _ _ => n end.
Definition Type_ (f : StructField) : Typ :=
  match f with mkStructField _ t _ _ _ => t end.
Definition Tag (f : StructField) : StructTag :=
  match f with mkStructField _ _ g _ _ => g end.
Definition Anonymous (f : StructField) : bool :=
  match f with mkStructField _ _ _ a _ => a end.
(** A field is exported when its [PkgPath] is empty; only then can the
    binder set it ([Value.CanSet]). *)
Definition exported (f : StructField) : bool :=
  match f with mkStructField _ _ _ _ e => e end.

(** [StructTag.Get]. *)
Fixpoint Get (tag : StructTag) (key : string) : string :=
  match tag with
  | [] => EmptyString
  | (k, v) :: rest => if String.eqb k key then v else Get rest key
  end.

(** [Type.Kind]. *)
Definition KindOf (t : Typ) : Kind :=
  match t with
  | Basic _ k => k
  | PtrTo _ => Pointer
  | SliceOf _ _ => Slice
  | MapOf _ _ _ => Map
  | InterfaceType _ => Interface
  | StructOf _ _ => Struct
  | FileHeaderType => Struct
  end.

(** The method set of [*T], as [field.Addr().Interface()] exposes it. *)
Definition methods (t : Typ) : option MethodSet :=
  match t with
  | Basic d _ | SliceOf d _ | MapOf d _ _ | StructOf d _ => d
  | PtrTo _ | InterfaceType _ | FileHeaderType => None
  end.

(** [reflect.Zero]: the zero value of a type. *)
Fixpoint Zero (t : Typ) : Value :=
  match t with
  | Basic _ Bool => VBool false
  | Basic _ (Int | Int8 | Int16 | Int32 | Int64) => VInt 0
  | Basic _ (Uint | Uint8 | Uint16 | Uint32 | Uint64 | Uintptr) => VUint 0
  | Basic _ (Float32 | Float64) => VFloat 0
  | Basic _ String => VString EmptyString
  | Basic _ _ => VOpaque
  | PtrTo _ => VPtr None
  | SliceOf _ _ => VSlice []
  | MapOf _ _ _ => VMap None
  | InterfaceType _ => VInterface None
  | StructOf _ fields =>
      VStruct (map (fun f => match f with mkStructField _ t' _ _ _ => Zero t' end) fields)
  | FileHeaderType =>
      VFileHeader {| multipart.Filename := EmptyString; multipart.Size := 0 |}
  end.

End reflect.

(** ** The request, as the binder observes it *)

(** [map[string][]string]: [url.Values], [http.Header], path parameters. *)
Definition Data : Type := list (string * list string).

(** [map[string][]*multipart.FileHeader]; the handles are not nil. *)
Definition Files : Type := list (string * list multipart.FileHeader).

(** The [interface{}] handed to the binder: Go's [nil], or a pointer to a
    value of type [typ].  (Anything else panics at the first [Elem].) *)
Inductive Destination : Type :=
| DNil
| DPtr (typ : reflect.Typ) (val : reflect.Value).

(** What the binder reads off [echo.Context] and its [*http.Request]. *)
Record Context : Type := {
  ParamNames : list string;
  ParamValues : list string;
  QueryParams : Data;
  Method : string;
  ContentLength : Z;
  ContentType : string;                       (* req.Header.Get(HeaderContentType) *)
  FormParams : Data * option error;           (* c.FormParams() *)
  MultipartForm : (Data * Files) * option error; (* c.MultipartForm(): Value, File *)
  Header : Data
}.

Module http.
Definition MethodGet : string := "GET".
Definition MethodDelete : string := "DELETE".
Definition MethodHead : string := "HEAD".
Definition StatusBadRequest : Z := 400.
Definition StatusUnsupportedMediaType : Z := 415.
End http.

(** Modelled from the spec: the media-type constants of the body dispatch
    are declared in a file of the package that is not at hand (the
    "structured-JSON type", the "XML-family" types, the "URL-encoded form"
    and the "multipart form" of section 4.5); they carry the registered
    names of these media types. *)
Definition MIMEApplicationJSON : string := "application/json".
Definition MIMEApplicationXML : string := "application/xml".
Definition MIMETextXML : string := "text/xml".
Definition MIMEApplicationForm : string := "application/x-www-form-urlencoded".
Definition MIMEMultipartForm : string := "multipart/form-data".

(** Modelled from the spec: [NewHTTPError] and [SetInternal] are declared
    in a file of the package that is not at hand; an error of a phase is
    "wrapped with the underlying cause and reported as a client-class
    error" (section 4.1). *)
Definition NewHTTPError (code : Z) (msg : message) : error :=
  HTTPError code msg None.

Definition SetInternal (he err : error) : error :=
  match he with
  | HTTPError code msg _ => HTTPError code msg (Some err)
  | _ => he
  end.

(** Modelled from the spec: [ErrUnsupportedMediaType] is declared in a
    file of the package that is not at hand; it is the error of the
    "UnsupportedMediaType" class of section 7. *)
Definition ErrUnsupportedMediaType : error :=
  NewHTTPError http.StatusUnsupportedMediaType
               (MsgStatusText http.StatusUnsupportedMediaType).

(** The three messages [bindData] and its helpers create. *)
Definition errNotStruct : error :=
  errorString "binding element must be a struct".
Definition errAnonymousTag : error :=
  errorString "query/param/form tags are not allowed with anonymous struct field".
Definition errFileHeaderStruct : error :=
  errorString "binding to multipart.FileHeader struct is not supported, use pointer to struct".
Definition errUnknownType : error := errorString "unknown type".

(** ** Go maps as association lists *)

Fixpoint lookup {V : Type} (m : list (string * V)) (k : string) : option V :=
  match m with
  | [] => None
  | (k', v) :: rest => if String.eqb k' k then Some v else lookup rest k
  end.

(** [m[k] = v]. *)
Fixpoint store {V : Type} (m : list (string * V)) (k : string) (v : V)
  : list (string * V) :=
  match m with
  | [] => [(k, v)]
  | (k', v') :: rest =>
      if String.eqb k' k then (k, v) :: rest else (k', v') :: store rest k v
  end.

Definition ofError (err : option error) : outcome :=
  match err with None => Done | Some e => Fail e end.

(** ** The binder *)

Section Binder.

(** The second loop of [strings.EqualFold], for text that is not
    ASCII (see [strings.EqualFold]). *)
Variable EqualFoldUnicode : string -> string -> bool.

(** [strconv.ParseFloat(s, bitSize)], left to the platform: the
    correctly rounded value (as a [float64]) or a [*NumError]. *)
Variable ParseFloat : string -> Z -> reflect.float64 * option error.

(** The JSON serializer of the echo instance
    ([c.Echo().JSONSerializer.Deserialize]) and the XML decoder
    ([xml.NewDecoder(req.Body).Decode]) are collaborators: each fills
    the destination from the request body and may fail. *)
Variable JSONDeserialize : Context -> Destination -> Destination * outcome.
Variable XMLDecode : Context -> Destination -> Destination * outcome.

(** *** The type coercer *)

Definition setIntField (value : string) (bitSize : Z) (field : reflect.Value)
  : reflect.Value * outcome :=
  let value := if String.eqb value "" then "0" else value in
  let (intVal, err) := strconv.ParseInt value bitSize in
  match err with
  | None => (reflect.VInt intVal, Done)
  | Some e => (field, Fail e)
  end.

Definition setUintField (value : string) (bitSize : Z) (field : reflect.Value)
  : reflect.Value * outcome :=
  let value := if String.eqb value "" then "0" else value in
  let (uintVal, err) := strconv.ParseUint value bitSize in
  match err with
  | None => (reflect.VUint uintVal, Done)
  | Some e => (field, Fail e)
  end.

Definition setBoolField (value : string) (field : reflect.Value)
  : reflect.Value * outcome :=
  let value := if String.eqb value "" then "false" else value in
  let (boolVal, err) := strconv.ParseBool value in
  match err with
  | None => (reflect.VBool boolVal, Done)
  | Some e => (field, Fail e)
  end.

Definition setFloatField (value : string) (bitSize : Z) (field : reflect.Value)
  : reflect.Value * outcome :=
  let value := if String.eqb value "" then "0.0" else value in
  let (floatVal, err) := ParseFloat value bitSize in
  match err with
  | None => (reflect.VFloat floatVal, Done)
  | Some e => (field, Fail e)
  end.

(** The first lines of both [unmarshalInput(s)ToField]: with
    [valueKind == reflect.Ptr] a nil pointer is given storage and the
    pointee becomes the receiver.  The result is the receiver's type and
    value and the way back to the field; [None] is the panic of
    [IsNil] or [Elem] on a field that is no pointer. *)
Definition receiver (valueKind : reflect.Kind) (t : reflect.Typ)
           (field : reflect.Value)
  : option (reflect.Typ * reflect.Value * (reflect.Value -> reflect.Value)) :=
  if reflect.Kind_eqb valueKind reflect.Pointer then
    match t, field with
    | reflect.PtrTo e, reflect.VPtr None =>
        Some (e, reflect.Zero e, fun x => reflect.VPtr (Some x))
    | reflect.PtrTo e, reflect.VPtr (Some p) =>
        Some (e, p, fun x => reflect.VPtr (Some x))
    | _, _ => None
    end
  else Some (t, field, fun x => x).

(** Both return the field after the call, whether a hook was found
    ([ok]) and how the hook ended. *)
Definition unmarshalInputsToField (valueKind : reflect.Kind)
           (values : list string) (t : reflect.Typ) (field : reflect.Value)
  : reflect.Value * bool * outcome :=
  match receiver valueKind t field with
  | None => (field, false, Panic "reflect: call of IsNil or Elem on a non-pointer")
  | Some (e, p, back) =>
      match reflect.methods e with
      | Some {| reflect.UnmarshalParams := Some unmarshalParams |} =>
          let (p', err) := unmarshalParams values p in
          (back p', true, ofError err)
      | _ => (back p, false, Done)
      end
  end.

Definition unmarshalInputToField (valueKind : reflect.Kind)
           (val : string) (t : reflect.Typ) (field : reflect.Value)
  : reflect.Value * bool * outcome :=
  match receiver valueKind t field with
  | None => (field, false, Panic "reflect: call of IsNil or Elem on a non-pointer")
  | Some (e, p, back) =>
      match reflect.methods e with
      | Some {| reflect.UnmarshalParam := Some unmarshalParam |} =>
          let (p', err) := unmarshalParam val p in
          (back p', true, ofError err)
      | Some {| reflect.UnmarshalText := Some unmarshalText |} =>
          let (p', err) := unmarshalText val p in
          (back p', true, ofError err)
      | _ => (back p, false, Done)
      end
  end.

(** [valueKind] is the kind of [structField] at every call, so the
    type [t] of the field stands for both. *)
Fixpoint setWithProperType (t : reflect.Typ) (val : string)
         (structField : reflect.Value) {struct t} : reflect.Value * outcome :=
  match unmarshalInputToField (reflect.KindOf t) val t structField with
  | (field, true, err) => (field, err)
  | (field, false, Panic why) => (field, Panic why)
  | (field, false, _) =>
      match t with
      | reflect.PtrTo e =>
          match field with
          | reflect.VPtr (Some p) =>
              let (p', err) := setWithProperType e val p in
              (reflect.VPtr (Some p'), err)
          | _ => (field, Panic "reflect: Elem of a nil pointer")
          end
      | _ =>
          match reflect.KindOf t with
          | reflect.Int => setIntField val 0 field
          | reflect.Int8 => setIntField val 8 field
          | reflect.Int16 => setIntField val 16 field
          | reflect.Int32 => setIntField val 32 field
          | reflect.Int64 => setIntField val 64 field
          | reflect.Uint => setUintField val 0 field
          | reflect.Uint8 => setUintField val 8 field
          | reflect.Uint16 => setUintField val 16 field
          | reflect.Uint32 => setUintField val 32 field
          | reflect.Uint64 => setUintField val 64 field
          | reflect.Bool => setBoolField val field
          | reflect.Float32 => setFloatField val 32 field
          | reflect.Float64 => setFloatField val 64 field
          | reflect.String => (reflect.VString val, Done)
          | _ => (field, Fail errUnknownType)
          end
      end
  end.

(** *** Uploaded files *)

Definition isFieldMultipartFile (field : reflect.Typ) : bool * option error :=
  match field with
  | reflect.PtrTo reflect.FileHeaderType
  | reflect.SliceOf None reflect.FileHeaderType
  | reflect.SliceOf None (reflect.PtrTo reflect.FileHeaderType) => (true, None)
  | reflect.FileHeaderType => (true, Some errFileHeaderStruct)
  | _ => (false, None)
  end.

Definition setMultipartFileHeaderTypes (t : reflect.Typ)
           (structField : reflect.Value) (inputFieldName : string)
           (files : Files) : reflect.Value * bool :=
  let fileHeaders := match lookup files inputFieldName with
                     | Some hs => hs | None => [] end in
  match fileHeaders with
  | [] => (structField, false)
  | first :: _ =>
      match t with
      | reflect.SliceOf None (reflect.PtrTo reflect.FileHeaderType) =>
          (reflect.VSlice
             (map (fun h => reflect.VPtr (Some (reflect.VFileHeader h))) fileHeaders),
           true)
      | reflect.SliceOf None reflect.FileHeaderType =>
          (reflect.VSlice (map reflect.VFileHeader fileHeaders), true)
      | reflect.PtrTo reflect.FileHeaderType =>
          (reflect.VPtr (Some (reflect.VFileHeader first)), true)
      | _ => (structField, false)
      end
  end.

(** *** The field walker *)

Section bindData.

Variable data : Data.
Variable tag : string.
Variable dataFiles : Files.

(** [inputValue, exists := data[inputFieldName]], then the
    case-insensitive scan over the keys when the key is absent. *)
Fixpoint scanFold (m : Data) (inputFieldName : string) : option (list string) :=
  match m with
  | [] => None
  | (k, v) :: rest =>
      if strings.EqualFold EqualFoldUnicode k inputFieldName then Some v
      else scanFold rest inputFieldName
  end.

Definition resolve (inputFieldName : string) : option (list string) :=
  match lookup data inputFieldName with
  | Some inputValue => Some inputValue
  | None => scanFold data inputFieldName
  end.

(** Whether [Value.SetMapIndex] takes a [string] for a key or an
    element of type [t]: the value must be assignable to [t], so [t] is
    [string] itself (a defined string type is another type), or an
    interface type that [string] implements, which is one without
    methods. *)
Definition assignableString (t : reflect.Typ) : bool :=
  match t with
  | reflect.Basic None reflect.String => true
  | reflect.InterfaceType O => true
  | _ => false
  end.

(** Whether it takes a [[]string]: [t] is a slice type whose element
    type is [string] itself (a defined slice type as well, [[]string]
    being a type literal), or an interface type without methods. *)
Definition assignableStrings (t : reflect.Typ) : bool :=
  match t with
  | reflect.SliceOf _ (reflect.Basic None reflect.String) => true
  | reflect.InterfaceType O => true
  | _ => false
  end.

(** The loop over [data] that fills a map destination with keys of
    type [key] and elements of type [elem].  [v[0]] is evaluated ahead
    of the call of [SetMapIndex], which panics when the key or the
    element is not assignable. *)
Fixpoint bindMapEntries (key elem : reflect.Typ) (m : Data)
         (entries : list (string * reflect.Value))
  : list (string * reflect.Value) * outcome :=
  match m with
  | [] => (entries, Done)
  | (k, v) :: rest =>
      if reflect.Kind_eqb (reflect.KindOf elem) reflect.String then
        match v with
        | [] => (entries, Panic "index out of range [0] with length 0")
        | v0 :: _ =>
            if (assignableString key && assignableString elem)%bool
            then bindMapEntries key elem rest (store entries k (reflect.VString v0))
            else (entries, Panic "reflect.Value.SetMapIndex: value is not assignable")
        end
      else if reflect.Kind_eqb (reflect.KindOf elem) reflect.Interface then
        match v with
        | [] => (entries, Panic "index out of range [0] with length 0")
        | v0 :: _ =>
            if (assignableString key && assignableString elem)%bool
            then bindMapEntries key elem rest
                   (store entries k (reflect.VInterface (Some (reflect.VString v0))))
            else (entries, Panic "reflect.Value.SetMapIndex: value is not assignable")
        end
      else
        if (assignableString key && assignableStrings elem)%bool
        then bindMapEntries key elem rest
               (store entries k (reflect.VSlice (map reflect.VString v)))
        else (entries, Panic "reflect.Value.SetMapIndex: value is not assignable")
  end.

(** The slice branch: one fresh element per input value, each set by
    [setWithProperType]; the first failure ends the loop. *)
Fixpoint bindSlice (sliceOf : reflect.Typ) (inputValue : list string)
  : list reflect.Value * outcome :=
  match inputValue with
  | [] => ([], Done)
  | v :: rest =>
      match setWithProperType sliceOf v (reflect.Zero sliceOf) with
      | (e, Done) =>
          let (es, err) := bindSlice sliceOf rest in (e :: es, err)
      | (e, err) => ([e], err)
      end
  end.

(** Lines 285-375 of the loop body: the field has a name.  [kind0] is
    [typeField.Type.Kind()], [ft] and [fv] are the type and the value
    of [structField]. *)
Definition bindNamed (kind0 : reflect.Kind) (inputFieldName : string)
           (ft : reflect.Typ) (fv : reflect.Value)
  : reflect.Value * outcome :=
  match resolve inputFieldName with
  | None => (fv, Done)
  | Some inputValue =>
      match unmarshalInputsToField kind0 inputValue ft fv with
      | (fv, true, err) => (fv, err)
      | (fv, false, Panic why) => (fv, Panic why)
      | (fv, false, _) =>
          match inputValue with
          | [] => (fv, Panic "index out of range [0] with length 0")
          | first :: _ =>
              match unmarshalInputToField kind0 first ft fv with
              | (fv, true, err) => (fv, err)
              | (fv, false, Panic why) => (fv, Panic why)
              | (fv, false, _) =>
                  (* a pointer is followed once *)
                  let target :=
                    if reflect.Kind_eqb (reflect.KindOf ft) reflect.Pointer then
                      match ft, fv with
                      | reflect.PtrTo e, reflect.VPtr (Some p) =>
                          Some (e, p, fun x => reflect.VPtr (Some x))
                      | _, _ => None
                      end
                    else Some (ft, fv, fun x => x) in
                  match target with
                  | None => (fv, Panic "reflect: Elem of a nil pointer")
                  | Some (reflect.SliceOf d sliceOf, _, back) =>
                      match bindSlice sliceOf inputValue with
                      | (slice, Done) => (back (reflect.VSlice slice), Done)
                      | (_, err) => (fv, err)
                      end
                  | Some (ft', fv', back) =>
                      let (fv'', err) := setWithProperType ft' first fv' in
                      (back fv'', err)
                  end
              end
          end
      end
  end.

(** Lines 232-375 of the loop body, from the [CanSet] test on: [ft]
    and [fv] are the type and the value of [structField], which is the
    field itself or, for an embedded pointer, what it points to.
    [nested] is the recursive call of [bindData] on
    [structField.Addr().Interface()].  [Done] moves on to the next
    field; anything else leaves [bindData]. *)
Definition bindStructField
           (nested : reflect.Value -> reflect.Value * outcome)
           (typeField : reflect.StructField)
           (ft : reflect.Typ) (fv : reflect.Value)
  : reflect.Value * outcome :=
  if negb (reflect.exported typeField) then (fv, Done) (* !CanSet *)
  else
    let structFieldKind := reflect.KindOf ft in
    let inputFieldName := reflect.Get (reflect.Tag typeField) tag in
    if (reflect.Anonymous typeField
        && reflect.Kind_eqb structFieldKind reflect.Struct
        && negb (String.eqb inputFieldName ""))%bool
    then (fv, Fail errAnonymousTag)
    else if String.eqb inputFieldName "" then
      let isBindUnmarshaler :=
        match reflect.methods ft with
        | Some {| reflect.UnmarshalParam := Some _ |} => true
        | _ => false
        end in
      if (negb isBindUnmarshaler
          && reflect.Kind_eqb structFieldKind reflect.Struct)%bool
      then nested fv
      else (fv, Done)
    else
      let hasFiles := match dataFiles with [] => false | _ => true end in
      let files :=
        if hasFiles then
          match isFieldMultipartFile ft with
          | (_, Some err) => inr (Fail err)
          | (true, None) =>
              match setMultipartFileHeaderTypes ft fv inputFieldName dataFiles with
              | (fv', true) => inl (Some fv')
              | (_, false) => inl None
              end
          | (false, None) => inl None
          end
        else inl None in
      match files with
      | inr err => (fv, err)
      | inl (Some fv') => (fv', Done)
      | inl None =>
          bindNamed (reflect.KindOf (reflect.Type_ typeField))
                    inputFieldName ft fv
      end.

(** One turn of the loop over the fields of a struct destination
    (lines 218-375); [self] is [bindData] itself.  An embedded pointer
    is followed first; when it is nil, [structField] is the zero Value
    and [CanSet] fails. *)
Definition bindField
           (self : reflect.Typ -> reflect.Value -> reflect.Value * outcome)
           (typeField : reflect.StructField) (field : reflect.Value)
  : reflect.Value * outcome :=
  if reflect.Anonymous typeField then
    match reflect.Type_ typeField with
    | reflect.PtrTo e =>
        match field with
        | reflect.VPtr (Some p) =>
            let (p', err) := bindStructField (self e) typeField e p in
            (reflect.VPtr (Some p'), err)
        | _ => (field, Done)   (* !CanSet *)
        end
    | _ => bindStructField (self (reflect.Type_ typeField)) typeField
                           (reflect.Type_ typeField) field
    end
  else bindStructField (self (reflect.Type_ typeField)) typeField
                       (reflect.Type_ typeField) field.

(** The loop [for i := 0; i < typ.NumField(); i++]. *)
Section fields.
Variable self : reflect.Typ -> reflect.Value -> reflect.Value * outcome.

Fixpoint bindFields (typeFields : list reflect.StructField)
         (fields : list reflect.Value)
  : list reflect.Value * outcome :=
  match typeFields, fields with
  | typeField :: typeFields', field :: fields' =>
      match bindField self typeField field with
      | (field', Done) =>
          let (rest, err) := bindFields typeFields' fields' in
          (field' :: rest, err)
      | (field', err) => (field' :: fields', err)
      end
  | [], _ => (fields, Done)
  | _ :: _, [] => (fields, Panic "reflect: Field index out of range")
  end.
End fields.

Definition noData : bool :=
  match data, dataFiles with [], [] => true | _, _ => false end.

Definition isStringMap (typ : reflect.Typ) : bool :=
  match typ with
  | reflect.MapOf _ key _ => reflect.Kind_eqb (reflect.KindOf key) reflect.String
  | _ => false
  end.

(** The map branch of [bindData] (lines 167-201). *)
Definition bindMap (typ : reflect.Typ) (val : reflect.Value)
  : reflect.Value * outcome :=
  match typ with
  | reflect.MapOf _ key elem =>
      let k := reflect.KindOf elem in
      let isElemInterface := reflect.Kind_eqb k reflect.Interface in
      let isElemString := reflect.Kind_eqb k reflect.String in
      let isElemSliceOfStrings :=
        match elem with
        | reflect.SliceOf _ e => reflect.Kind_eqb (reflect.KindOf e) reflect.String
        | _ => false
        end in
      if negb (isElemSliceOfStrings || isElemString || isElemInterface)
      then (val, Done)
      else
        match val with
        | reflect.VMap m =>
            let entries := match m with None => [] | Some es => es end in
            let (entries', err) := bindMapEntries key elem data entries in
            (reflect.VMap (Some entries'), err)
        | _ => (val, Panic "reflect: call of IsNil on a value that is no map")
        end
  | _ => (val, Done)
  end.

(** [bindData] on the value a non-nil destination points to. *)
Fixpoint bindValue (typ : reflect.Typ) (val : reflect.Value) {struct typ}
  : reflect.Value * outcome :=
  if noData then (val, Done)
  else if isStringMap typ then bindMap typ val
  else if negb (reflect.Kind_eqb (reflect.KindOf typ) reflect.Struct) then
    if (String.eqb tag "param" || String.eqb tag "query"
        || String.eqb tag "header")%bool
    then (val, Done)
    else (val, Fail errNotStruct)
  else
    match typ, val with
    | reflect.StructOf _ typeFields, reflect.VStruct fields =>
        let (fields', err) :=
          (fix loop (tfs : list reflect.StructField) (fs : list reflect.Value)
             : list reflect.Value * outcome :=
             match tfs, fs with
             | typeField :: tfs', field :: fs' =>
                 match bindField bindValue typeField field with
                 | (field', Done) =>
                     let (rest, err) := loop tfs' fs' in (field' :: rest, err)
                 | (field', err) => (field' :: fs', err)
                 end
             | [], _ => (fs, Done)
             | _ :: _, [] => (fs, Panic "reflect: Field index out of range")
             end) typeFields fields in
        (reflect.VStruct fields', err)
    | reflect.FileHeaderType, _ =>
        (* multipart.FileHeader: no field has a tag or a struct type *)
        (val, Done)
    | _, _ => (val, Panic "reflect: Field of a value that is no struct")
    end.

(** [DefaultBinder.bindData]. *)
Definition bindData (destination : Destination) : Destination * outcome :=
  match destination with
  | DNil => (DNil, Done)
  | DPtr typ val =>
      let (val', err) := bindValue typ val in (DPtr typ val', err)
  end.

End bindData.

(** *** The phases *)

(** The wrapping of a phase's error:
    [NewHTTPError(http.StatusBadRequest, err.Error()).SetInternal(err)]. *)
Definition badRequest (err : error) : error :=
  SetInternal (NewHTTPError http.StatusBadRequest (MsgError err)) err.

Definition wrapBadRequest (o : outcome) : outcome :=
  match o with
  | Fail err => Fail (badRequest err)
  | _ => o
  end.

(** [params[name] = []string{values[i]}] for every name; [None] when
    [values] is shorter than [names] (index out of range). *)
Fixpoint pathParams (names values : list string) (params : Data) : option Data :=
  match names with
  | [] => Some params
  | name :: names' =>
      match values with
      | [] => None
      | value :: values' => pathParams names' values' (store params name [value])
      end
  end.

Definition BindPathParams (c : Context) (i : Destination) : Destination * outcome :=
  match pathParams (ParamNames c) (ParamValues c) [] with
  | None => (i, Panic "index out of range")
  | Some params =>
      let (i', err) := bindData params "param" [] i in
      (i', wrapBadRequest err)
  end.

Definition BindQueryParams (c : Context) (i : Destination) : Destination * outcome :=
  let (i', err) := bindData (QueryParams c) "query" [] i in
  (i', wrapBadRequest err).

Definition BindHeaders (c : Context) (i : Destination) : Destination * outcome :=
  let (i', err) := bindData (Header c) "header" [] i in
  (i', wrapBadRequest err).

Definition isHTTPError (e : error) : bool :=
  match e with HTTPError _ _ _ => true | _ => false end.

Definition BindBody (c : Context) (i : Destination) : Destination * outcome :=
  if ContentLength c =? 0 then (i, Done)
  else
    let base := strings.CutBefore (ContentType c) ";" in
    let mediatype := strings.TrimSpace base in
    if String.eqb mediatype MIMEApplicationJSON then
      match JSONDeserialize c i with
      | (i', Fail err) =>
          if isHTTPError err then (i', Fail err) else (i', Fail (badRequest err))
      | r => r
      end
    else if (String.eqb mediatype MIMEApplicationXML
             || String.eqb mediatype MIMETextXML)%bool then
      match XMLDecode c i with
      | (i', Fail err) =>
          match err with
          | XMLUnsupportedTypeError _ =>
              (i', Fail (SetInternal (NewHTTPError http.StatusBadRequest
                                                   (MsgUnsupportedType err)) err))
          | XMLSyntaxError _ _ =>
              (i', Fail (SetInternal (NewHTTPError http.StatusBadRequest
                                                   (MsgSyntax err)) err))
          | _ => (i', Fail (badRequest err))
          end
      | r => r
      end
    else if String.eqb mediatype MIMEApplicationForm then
      match FormParams c with
      | (_, Some err) => (i, Fail (badRequest err))
      | (params, None) =>
          let (i', err) := bindData params "form" [] i in
          (i', wrapBadRequest err)
      end
    else if String.eqb mediatype MIMEMultipartForm then
      match MultipartForm c with
      | (_, Some err) => (i, Fail (badRequest err))
      | ((value, file), None) =>
          let (i', err) := bindData value "form" file i in
          (i', wrapBadRequest err)
      end
    else (i, Fail ErrUnsupportedMediaType).

(** Only GET, DELETE and HEAD requests have their query bound. *)
Definition bindsQuery (method : string) : bool :=
  (String.eqb method http.MethodGet || String.eqb method http.MethodDelete
   || String.eqb method http.MethodHead)%bool.

(** [DefaultBinder.Bind]: path parameters, query parameters, body. *)
Definition Bind (i : Destination) (c : Context) : Destination * outcome :=
  match BindPathParams c i with
  | (i1, Done) =>
      let method := Method c in
      if bindsQuery method then
        match BindQueryParams c i1 with
        | (i2, Done) => BindBody c i2
        | r => r
        end
      else BindBody c i1
  | r => r
  end.


(** *** Vocabulary of the properties *)

(** The primitive kinds: the cases of the [switch] in
    [setWithProperType] other than [reflect.Ptr]. *)
Definition primitive (k : reflect.Kind) : bool :=
  match k with
  | reflect.Int | reflect.Int8 | reflect.Int16 | reflect.Int32 | reflect.Int64
  | reflect.Uint | reflect.Uint8 | reflect.Uint16 | reflect.Uint32 | reflect.Uint64
  | reflect.Bool | reflect.Float32 | reflect.Float64 | reflect.String => true
  | _ => false
  end.

(** Whether the loop body looks at the uploaded files for a field of
    type [ft]: there are files and the type is file-handle shaped. *)
Definition usesFiles (dataFiles : Files) (ft : reflect.Typ) : bool :=
  match dataFiles with
  | [] => false
  | _ => fst (isFieldMultipartFile ft)
  end.

(** The media type [BindBody] dispatches on. *)
Definition mediatype (c : Context) : string :=
  strings.TrimSpace (strings.CutBefore (ContentType c) ";").

(** A request that differs from [c] in its query parameters only. *)
Definition withQueryParams (c : Context) (q : Data) : Context :=
  {| ParamNames := ParamNames c; ParamValues := ParamValues c;
     QueryParams := q; Method := Method c;
     ContentLength := ContentLength c; ContentType := ContentType c;
     FormParams := FormParams c; MultipartForm := MultipartForm c;
     Header := Header c |}.

(** A declaration without decoding hooks. *)
Definition noHooks (decl : option reflect.MethodSet) : bool :=
  match decl with
  | None => true
  | Some {| reflect.UnmarshalParam := None; reflect.UnmarshalText := None;
            reflect.UnmarshalParams := None |} => true
  | Some _ => false
  end.

(** An embedded field whose [structField] is of kind struct: a struct,
    or a pointer to one that is not nil. *)
Definition embedsStruct (typeField : reflect.StructField) (field : reflect.Value)
  : bool :=
  match reflect.Type_ typeField, field with
  | reflect.PtrTo e, reflect.VPtr (Some _) =>
      reflect.Kind_eqb (reflect.KindOf e) reflect.Struct
  | reflect.PtrTo _, _ => false
  | t, _ => reflect.Kind_eqb (reflect.KindOf t) reflect.Struct
  end.

(** *** Sample destinations and requests *)

(** A stand-in for [strconv.ParseFloat] that reads the literal [0.0]
    and nothing else. *)
Definition sampleParseFloat (s : string) (bitSize : Z)
  : reflect.float64 * option error :=
  if String.eqb s "0.0" then (0, None)
  else (0, Some (NumError "ParseFloat" s strconv.ErrSyntax)).

(** A decoder that leaves the destination alone. *)
Definition sampleDecode (c : Context) (i : Destination) : Destination * outcome :=
  (i, Done).

Definition tInt : reflect.Typ := reflect.Basic None reflect.Int.
Definition tString : reflect.Typ := reflect.Basic None reflect.String.

(** [struct { A string `query:"a"` }] *)
Definition tInner : reflect.Typ :=
  reflect.StructOf None
    [reflect.mkStructField "A" tString [("query", "a")] false true].

(** [struct { B string `query:"b"`; Inner `query:"inner"` }] *)
Definition tOuter : reflect.Typ :=
  reflect.StructOf None
    [reflect.mkStructField "B" tString [("query", "b")] false true;
     reflect.mkStructField "Inner" tInner [("query", "inner")] true true].

(** [struct { ID int `param:"id" query:"id" form:"id"` }] *)
Definition fID : reflect.StructField :=
  reflect.mkStructField "ID" tInt
    [("param", "id"); ("query", "id"); ("form", "id")] false true.
Definition tUser : reflect.Typ := reflect.StructOf None [fID].

(** [POST /users/5?id=7] with the URL-encoded body [id=1]; the form
    values are those of the body followed by those of the URL. *)
Definition samplePost : Context :=
  {| ParamNames := ["id"]; ParamValues := ["5"];
     QueryParams := [("id", ["7"])]; Method := "POST";
     ContentLength := 4;
     ContentType := "application/x-www-form-urlencoded; charset=utf-8";
     FormParams := ([("id", ["1"; "7"])], None);
     MultipartForm := (([], []), None); Header := [] |}.

(** [GET /users/5?id=7], no body. *)
Definition sampleGet : Context :=
  {| ParamNames := ["id"]; ParamValues := ["5"];
     QueryParams := [("id", ["7"])]; Method := "GET";
     ContentLength := 0; ContentType := "";
     FormParams := ([("id", ["7"])], None);
     MultipartForm := (([], []), None); Header := [] |}.

(** A request with a content type the binder does not know and a body
    of [len] bytes. *)
Definition sampleOctets (len : Z) : Context :=
  {| ParamNames := []; ParamValues := [];
     QueryParams := []; Method := "POST";
     ContentLength := len; ContentType := "application/octet-stream";
     FormParams := ([], None);
     MultipartForm := (([], []), None); Header := [] |}.

(** [Count int `query:"count"`], [N []int `query:"n"`],
    [Name string `header:"x-name"`]. *)
Definition fCount : reflect.StructField :=
  reflect.mkStructField "Count" tInt [("query", "count")] false true.
Definition fN : reflect.StructField :=
  reflect.mkStructField "N" (reflect.SliceOf None tInt) [("query", "n")] false true.
Definition fName : reflect.StructField :=
  reflect.mkStructField "Name" tString [("header", "x-name")] false true.

(** [Files []*multipart.FileHeader `form:"files"`] and
    [Avatar multipart.FileHeader `form:"avatar"`], and one uploaded file. *)
Definition fFiles : reflect.StructField :=
  reflect.mkStructField "Files"
    (reflect.SliceOf None (reflect.PtrTo reflect.FileHeaderType))
    [("form", "files")] false true.
Definition fAvatar : reflect.StructField :=
  reflect.mkStructField "Avatar" reflect.FileHeaderType
    [("form", "avatar")] false true.
Definition sampleUpload : multipart.FileHeader :=
  {| multipart.Filename := "me.png"; multipart.Size := 3 |}.

(** What the loop over [data] stores under a key of a map destination
    whose elements are of kind [elem]: the first value for strings and
    for [interface{}], all the values for slices of strings.  [None] is
    the index out of range of [v[0]]. *)
Definition mapEntry (elem : reflect.Kind) (v : list string) : option reflect.Value :=
  if reflect.Kind_eqb elem reflect.String then
    match v with [] => None | v0 :: _ => Some (reflect.VString v0) end
  else if reflect.Kind_eqb elem reflect.Interface then
    match v with
    | [] => None
    | v0 :: _ => Some (reflect.VInterface (Some (reflect.VString v0)))
    end
  else Some (reflect.VSlice (map reflect.VString v)).

(** Whether [SetMapIndex] takes what the loop over [data] hands to it:
    a [string] as the key, and as the element a [string] or, for a map
    of slices, a [[]string]. *)
Definition settable (key elem : reflect.Typ) : bool :=
  (assignableString key
   && if reflect.Kind_eqb (reflect.KindOf elem) reflect.String then
        assignableString elem
      else if reflect.Kind_eqb (reflect.KindOf elem) reflect.Interface then
        assignableString elem
      else assignableStrings elem)%bool.

(** [map[string]string], [map[string]int] and [map[string][]string]
    with two entries of old. *)
Definition tStringMap : reflect.Typ := reflect.MapOf None tString tString.
Definition tIntMap : reflect.Typ := reflect.MapOf None tString tInt.
Definition tSliceMap : reflect.Typ :=
  reflect.MapOf None tString (reflect.SliceOf None tString).
Definition sampleEntries : list (string * reflect.Value) :=
  [("lang", reflect.VString "en"); ("id", reflect.VString "0")].

(** The integer kinds with their sign and the width the coercer parses
    them at ([int] and [uint] at [strconv.IntSize]). *)
Definition intWidth (k : reflect.Kind) : option (bool * Z) :=
  match k with
  | reflect.Int => Some (true, strconv.IntSize)
  | reflect.Int8 => Some (true, 8)
  | reflect.Int16 => Some (true, 16)
  | reflect.Int32 => Some (true, 32)
  | reflect.Int64 => Some (true, 64)
  | reflect.Uint => Some (false, strconv.IntSize)
  | reflect.Uint8 => Some (false, 8)
  | reflect.Uint16 => Some (false, 16)
  | reflect.Uint32 => Some (false, 32)
  | reflect.Uint64 => Some (false, 64)
  | _ => None
  end.

(** The types the coercer has no case for: without a decoding hook,
    neither primitive, nor a pointer, nor a slice. *)
Definition unsupported (t : reflect.Typ) : bool :=
  match t with
  | reflect.Basic d k =>
      (noHooks d && negb (primitive k)
       && negb (reflect.Kind_eqb k reflect.Pointer))%bool
  | reflect.MapOf d _ _ => noHooks d
  | reflect.StructOf d _ => noHooks d
  | reflect.InterfaceType _ | reflect.FileHeaderType => true
  | reflect.PtrTo _ | reflect.SliceOf _ _ => false
  end.

(** What a pointer field points to when a hook or the coercer gets hold
    of it: its pointee, or fresh storage when it is nil. *)
Definition pointee (e : reflect.Typ) (p : option reflect.Value) : reflect.Value :=
  match p with Some v => v | None => reflect.Zero e end.

(** [type IDs []string] with the three hooks: [UnmarshalParams] keeps
    all the values, [UnmarshalParam] the one it is given, and
    [UnmarshalText] fails. *)
Definition sampleHooks : reflect.MethodSet :=
  {| reflect.UnmarshalParam :=
       Some (fun param _ => (reflect.VSlice [reflect.VString param], None));
     reflect.UnmarshalText :=
       Some (fun text receiver => (receiver, Some (otherError "no text")));
     reflect.UnmarshalParams :=
       Some (fun params _ => (reflect.VSlice (map reflect.VString params), None)) |}.
Definition tIDs : reflect.Typ := reflect.SliceOf (Some sampleHooks) tString.
Definition fIDs : reflect.StructField :=
  reflect.mkStructField "IDs" tIDs [("query", "ids")] false true.

(** [Age *int `query:"age"`], [Meta map[string]string `query:"meta"`]
    and [Portrait *multipart.FileHeader `form:"portrait"`]. *)
Definition fAge : reflect.StructField :=
  reflect.mkStructField "Age" (reflect.PtrTo tInt) [("query", "age")] false true.
Definition fMeta : reflect.StructField :=
  reflect.mkStructField "Meta" tStringMap [("query", "meta")] false true.
Definition fPortrait : reflect.StructField :=
  reflect.mkStructField "Portrait" (reflect.PtrTo reflect.FileHeaderType)
                        [("form", "portrait")] false true.

(** Induction over a type and the types of its fields. *)
Section Typ_fields_ind.
Variable P : reflect.Typ -> Prop.
Hypothesis HBasic : forall d k, P (reflect.Basic d k).
Hypothesis HPtrTo : forall e, P e -> P (reflect.PtrTo e).
Hypothesis HSliceOf : forall d e, P e -> P (reflect.SliceOf d e).
Hypothesis HMapOf : forall d key e, P key -> P e -> P (reflect.MapOf d key e).
Hypothesis HInterface : forall n, P (reflect.InterfaceType n).
Hypothesis HStructOf :
  forall d fields, Forall (fun f => P (reflect.Type_ f)) fields ->
                   P (reflect.StructOf d fields).
Hypothesis HFileHeader : P reflect.FileHeaderType.

Fixpoint Typ_fields_ind (t : reflect.Typ) : P t :=
  match t with
  | reflect.Basic d k => HBasic d k
  | reflect.PtrTo e => HPtrTo e (Typ_fields_ind e)
  | reflect.SliceOf d e => HSliceOf d e (Typ_fields_ind e)
  | reflect.MapOf d key e => HMapOf d key e (Typ_fields_ind key) (Typ_fields_ind e)
  | reflect.InterfaceType n => HInterface n
  | reflect.StructOf d fields =>
      HStructOf d fields
        ((fix all (fs : list reflect.StructField)
           : Forall (fun f => P (reflect.Type_ f)) fs :=
            match fs with
            | [] => Forall_nil _
            | f :: fs' =>
                Forall_cons f
                  (match f return P (reflect.Type_ f) with
                   | reflect.mkStructField _ ft _ _ _ => Typ_fields_ind ft
                   end)
                  (all fs')
            end) fields)
  | reflect.FileHeaderType => HFileHeader
  end.
End Typ_fields_ind.

(** A map type whose entries [SetMapIndex] can take from the data: the
    key type is [string] itself, and the element type is [string],
    [interface{}] or a slice of [string]; or else the elements are of a
    kind the map branch does not fill.  (A string or an [interface]
    kind of another type is not assignable from a [string].) *)
Definition fillable (key elem : reflect.Typ) : bool :=
  match elem with
  | reflect.Basic None reflect.String | reflect.InterfaceType O
  | reflect.SliceOf _ (reflect.Basic None reflect.String) =>
      match key with reflect.Basic None reflect.String => true | _ => false end
  | reflect.SliceOf _ e => negb (reflect.Kind_eqb (reflect.KindOf e) reflect.String)
  | _ => negb (reflect.Kind_eqb (reflect.KindOf elem) reflect.String
               || reflect.Kind_eqb (reflect.KindOf elem) reflect.Interface)
  end.

(** A value has the shape of its type, as far as the walker looks at
    it: a pointer value under a pointer type, a struct value with a
    field for every field of a struct type, a map value under a map type
    with string keys.  The types are those of Go: [Basic] stands for no
    pointer, slice, map, interface or struct; an embedded pointer points
    to a struct (the other embedded pointers are the matter of another
    property); a map with string keys is [fillable]. *)
Fixpoint shaped (t : reflect.Typ) (v : reflect.Value) {struct t} : bool :=
  match t with
  | reflect.Basic _ k =>
      negb (reflect.Kind_eqb k reflect.Pointer || reflect.Kind_eqb k reflect.Struct
            || reflect.Kind_eqb k reflect.Slice || reflect.Kind_eqb k reflect.Map
            || reflect.Kind_eqb k reflect.Interface)
  | reflect.PtrTo e =>
      match v with
      | reflect.VPtr (Some x) => shaped e x
      | reflect.VPtr None => shaped e (reflect.Zero e)
      | _ => false
      end
  | reflect.SliceOf _ e => shaped e (reflect.Zero e)
  | reflect.MapOf _ key elem =>
      if reflect.Kind_eqb (reflect.KindOf key) reflect.String
      then (fillable key elem && match v with reflect.VMap _ => true | _ => false end)%bool
      else true
  | reflect.InterfaceType _ => true
  | reflect.StructOf _ fields =>
      match v with
      | reflect.VStruct vs =>
          (fix all (fs : list reflect.StructField) (xs : list reflect.Value) : bool :=
             match fs, xs with
             | [], [] => true
             | f :: fs', x :: xs' =>
                 match f with
                 | reflect.mkStructField _ ft _ anon _ =>
                     ((if anon
                       then match ft with
                            | reflect.PtrTo e =>
                                reflect.Kind_eqb (reflect.KindOf e) reflect.Struct
                            | _ => true
                            end
                       else true)
                      && shaped ft x && all fs' xs')%bool
                 end
             | _, _ => false
             end) fields vs
      | _ => false
      end
  | reflect.FileHeaderType => true
  end.

(** The fields of [shaped], one at a time. *)
Definition shapedField (f : reflect.StructField) (x : reflect.Value) : bool :=
  ((if reflect.Anonymous f
    then match reflect.Type_ f with
         | reflect.PtrTo e => reflect.Kind_eqb (reflect.KindOf e) reflect.Struct
         | _ => true
         end
    else true)
   && shaped (reflect.Type_ f) x)%bool.

(** Every key has a value, as in the maps [net/url] and [net/http]
    build. *)
Definition valued (data : Data) : Prop :=
  forall k v, In (k, v) data -> v <> [].

(** ASCII text, and its lower case. *)
Fixpoint asciiText (s : string) : bool :=
  match s with
  | EmptyString => true
  | String a s' => (strings.isASCII a && asciiText s')%bool
  end.
Fixpoint lowered (s : string) : string :=
  match s with
  | EmptyString => EmptyString
  | String a s' => String (strings.toLower a) (lowered s')
  end.

(** A stand-in for the second loop of [strings.EqualFold], which ASCII
    text does not reach. *)
Definition sampleFold (s t : string) : bool := String.eqb s t.

(** A string that is one white-space rune of [unicode.IsSpace], and the
    text that a list of them makes. *)
Definition whiteSpace (w : string) : bool :=
  match list_ascii_of_string w with
  | [a] => strings.isSpace a
  | [a; b] => strings.isSpace2 a b
  | [a; b; c] => strings.isSpace3 a b c
  | _ => false
  end.
Definition joined (ws : list string) : string := fold_right append "" ws.
Definition spaces (ws : list string) : list ascii :=
  List.concat (map list_ascii_of_string ws).

(** The byte can begin the encoding of a rune. *)
Definition leads (f : ascii) : bool :=
  (Nat.ltb (nat_of_ascii f) 128 || Nat.leb 194 (nat_of_ascii f))%bool.

(** A no-break space (U+00A0), and the request of [samplePost] with
    white space around its media type:
    [" application/x-www-form-urlencoded<tab><U+00A0>; charset=utf-8"]. *)
Definition nbsp : string :=
  String (ascii_of_nat 194) (String (ascii_of_nat 160) "").
Definition tab : string := String (ascii_of_nat 9) "".
Definition samplePadded : Context :=
  {| ParamNames := ["id"]; ParamValues := ["5"];
     QueryParams := [("id", ["7"])]; Method := "POST";
     ContentLength := 4;
     ContentType :=
       append (joined [" "])
         (append "application/x-www-form-urlencoded"
            (append (joined [tab; nbsp]) "; charset=utf-8"));
     FormParams := ([("id", ["1"; "7"])], None);
     MultipartForm := (([], []), None);
     Header := [] |}.

(** * Properties *)

(** ** The loop over the fields *)

Lemma bindValue_struct data tag dataFiles d typeFields fields :
  noData data dataFiles = false ->
  bindValue data tag dataFiles (reflect.StructOf d typeFields) (reflect.VStruct fields)
  = let (fields', err) :=
      bindFields data tag dataFiles (bindValue data tag dataFiles) typeFields fields in
    (reflect.VStruct fields', err).
Proof.
  intros Hno. simpl. rewrite Hno. reflexivity.
Qed.

Section loop.
Variables (data : Data) (tag : string) (dataFiles : Files).
Variable self : reflect.Typ -> reflect.Value -> reflect.Value * outcome.

Let step := bindField data tag dataFiles self.
Let walk := bindFields data tag dataFiles self.

(** A failing run keeps every field in place: the result has the
    length of the input. *)
Lemma bindFields_length typeFields : forall fields fields' err,
  walk typeFields fields = (fields', err) -> List.length fields' = List.length fields.
Proof.
  unfold walk.
  induction typeFields as [|tf tfs IH]; intros [|f fs] fs' err; simpl;
    try (intros E; inversion E; reflexivity).
  destruct (bindField data tag dataFiles self tf f) as [f' o].
  destruct o.
  - destruct (bindFields data tag dataFiles self tfs fs) as [r e] eqn:E.
    intros E'; inversion E'; subst. simpl. f_equal. eapply IH; eauto.
  - intros E; inversion E; reflexivity.
  - intros E; inversion E; reflexivity.
Qed.

(** The loop reaches a field once the fields declared before it have
    been bound without error, and stops at the first failure. *)
Lemma bindFields_app pre : forall vpre typeField post field vpost,
  List.length pre = List.length vpre ->
  walk (pre ++ typeField :: post) (vpre ++ field :: vpost)
  = match walk pre vpre with
    | (vpre', Done) =>
        match step typeField field with
        | (field', Done) =>
            let (vpost', err) := walk post vpost in
            (vpre' ++ field' :: vpost', err)
        | (field', err) => (vpre' ++ field' :: vpost, err)
        end
    | (vpre', err) => (vpre' ++ field :: vpost, err)
    end.
Proof.
  unfold walk, step.
  induction pre as [|tf pre IH]; intros [|v vpre] typeField post field vpost Hlen;
    simpl in Hlen; try discriminate.
  - simpl. destruct (bindField data tag dataFiles self typeField field) as [f' []];
      try reflexivity.
  - simpl. destruct (bindField data tag dataFiles self tf v) as [v' []];
      try reflexivity.
    rewrite IH by (injection Hlen; auto).
    destruct (bindFields data tag dataFiles self pre vpre) as [vpre' []];
      try reflexivity.
    destruct (bindField data tag dataFiles self typeField field) as [f' []];
      try reflexivity.
    destruct (bindFields data tag dataFiles self post vpost); reflexivity.
Qed.

(** After a run without error every field holds what its own turn of
    the loop left in it. *)
Lemma bindFields_Done_nth typeFields : forall fields fields' n typeField,
  walk typeFields fields = (fields', Done) ->
  nth_error typeFields n = Some typeField ->
  exists field field',
    nth_error fields n = Some field
    /\ step typeField field = (field', Done)
    /\ nth_error fields' n = Some field'.
Proof.
  unfold walk, step.
  induction typeFields as [|tf tfs IH]; intros fields fields' n typeField Hw Hn.
  - destruct n; discriminate.
  - destruct fields as [|f fs]; simpl in Hw; [discriminate|].
    destruct (bindField data tag dataFiles self tf f) as [f' o] eqn:Ef.
    destruct o; try discriminate.
    destruct (bindFields data tag dataFiles self tfs fs) as [r e] eqn:Er.
    inversion Hw; subst.
    destruct n as [|n]; simpl in Hn.
    + inversion Hn; subst. exists f, f'. auto.
    + destruct (IH _ _ _ _ Er Hn) as (x & x' & ? & ? & ?).
      exists x, x'. auto.
Qed.
End loop.

(** ** One turn of the loop *)

Lemma isFieldMultipartFile_false ft :
  fst (isFieldMultipartFile ft) = false -> isFieldMultipartFile ft = (false, None).
Proof.
  destruct ft as [? ?|e|[?|] e|? ? ?| |? ?|]; simpl; try discriminate; try reflexivity;
    destruct e as [? ?|e'|? ?|? ? ?| |? ?|]; simpl; try discriminate; try reflexivity;
    destruct e'; simpl; try discriminate; reflexivity.
Qed.

Section turn.
Variables (data : Data) (tag : string) (dataFiles : Files).
Variable self : reflect.Typ -> reflect.Value -> reflect.Value * outcome.

(** A named field that is no embedded one and takes no uploaded file
    is bound from the values its name resolves to. *)
Lemma bindField_named typeField field name :
  reflect.Anonymous typeField = false ->
  reflect.exported typeField = true ->
  reflect.Get (reflect.Tag typeField) tag = name ->
  name <> "" ->
  usesFiles dataFiles (reflect.Type_ typeField) = false ->
  bindField data tag dataFiles self typeField field
  = bindNamed data (reflect.KindOf (reflect.Type_ typeField)) name
              (reflect.Type_ typeField) field.
Proof.
  intros Hanon Hexp Htag Hname Hfiles.
  unfold bindField, bindStructField. rewrite Hanon, Hexp, Htag. simpl.
  apply String.eqb_neq in Hname. rewrite Hname.
  unfold usesFiles in Hfiles.
  destruct dataFiles as [|df dfs]; [reflexivity|].
  rewrite (isFieldMultipartFile_false _ Hfiles). reflexivity.
Qed.

(** Without a hook, a field of a primitive kind is coerced from the
    first value. *)
Lemma bindNamed_primitive d k name first rest field :
  noHooks d = true ->
  primitive k = true ->
  resolve data name = Some (first :: rest) ->
  bindNamed data k name (reflect.Basic d k) field
  = setWithProperType (reflect.Basic d k) first field.
Proof.
  intros Hd Hk Hres. unfold bindNamed. rewrite Hres.
  destruct d as [[[?|] [?|] [?|]]|]; try discriminate Hd;
    destruct k; try discriminate Hk; cbn; try reflexivity;
    match goal with
    | |- (let (_, _) := ?x in _) = _ => destruct x; reflexivity
    end.
Qed.

Lemma bindNamed_absent kind0 name ft fv :
  resolve data name = None -> bindNamed data kind0 name ft fv = (fv, Done).
Proof. intros H. unfold bindNamed. rewrite H. reflexivity. Qed.
End turn.

(** A successful coercion of a primitive does not look at the old
    value of the field. *)
Lemma setWithProperType_primitive_fresh d k val field field' :
  noHooks d = true ->
  primitive k = true ->
  setWithProperType (reflect.Basic d k) val field = (field', Done) ->
  forall other, setWithProperType (reflect.Basic d k) val other = (field', Done).
Proof.
  intros Hd Hk H other.
  destruct d as [[[?|] [?|] [?|]]|]; try discriminate Hd;
    destruct k; try discriminate Hk; simpl in *;
    unfold setIntField, setUintField, setBoolField, setFloatField in *;
    repeat match goal with
           | H : context [let (_, _) := ?x in _] |- _ => destruct x as [? [?|]]
           end;
    try discriminate; assumption.
Qed.

(** Every turn of the loop that [bindData] takes on a struct: the
    fields before the one at hand have been bound, then the field's own
    turn decides whether the loop goes on. *)
Lemma bindData_at data tag dataFiles d pre typeField post vpre field vpost
      vpre' field' err :
  noData data dataFiles = false ->
  List.length pre = List.length vpre ->
  bindFields data tag dataFiles (bindValue data tag dataFiles) pre vpre
  = (vpre', Done) ->
  bindField data tag dataFiles (bindValue data tag dataFiles) typeField field
  = (field', err) ->
  bindData data tag dataFiles
           (DPtr (reflect.StructOf d (pre ++ typeField :: post))
                 (reflect.VStruct (vpre ++ field :: vpost)))
  = if isDone err then
      let (vpost', err') :=
        bindFields data tag dataFiles (bindValue data tag dataFiles) post vpost in
      (DPtr (reflect.StructOf d (pre ++ typeField :: post))
            (reflect.VStruct (vpre' ++ field' :: vpost')), err')
    else
      (DPtr (reflect.StructOf d (pre ++ typeField :: post))
            (reflect.VStruct (vpre' ++ field' :: vpost)), err).
Proof.
  intros Hno Hlen Hpre Hturn.
  unfold bindData. rewrite bindValue_struct by assumption.
  rewrite bindFields_app by assumption. rewrite Hpre, Hturn.
  destruct err; simpl; try reflexivity.
  destruct (bindFields data tag dataFiles (bindValue data tag dataFiles) post vpost);
    reflexivity.
Qed.

(** A struct that [bindData] has bound without error holds, in every
    field, what the field's own turn of the loop left there. *)
Lemma bindData_Done_nth data tag dataFiles d typeFields fields fields' n typeField :
  noData data dataFiles = false ->
  bindData data tag dataFiles
           (DPtr (reflect.StructOf d typeFields) (reflect.VStruct fields))
  = (DPtr (reflect.StructOf d typeFields) (reflect.VStruct fields'), Done) ->
  nth_error typeFields n = Some typeField ->
  exists field field',
    nth_error fields n = Some field
    /\ bindField data tag dataFiles (bindValue data tag dataFiles) typeField field
       = (field', Done)
    /\ nth_error fields' n = Some field'.
Proof.
  intros Hno Hb Hn. unfold bindData in Hb.
  rewrite bindValue_struct in Hb by assumption.
  destruct (bindFields data tag dataFiles (bindValue data tag dataFiles)
                       typeFields fields) as [fs' err] eqn:E.
  inversion Hb; subst.
  eapply bindFields_Done_nth; eauto.
Qed.

(** ** The guard of [bindData] *)

Lemma guard_returns_destination tag destination :
  bindData [] tag [] destination = (destination, Done).
Proof.
  destruct destination as [|typ val]; [reflexivity|].
  unfold bindData. destruct typ; reflexivity.
Qed.

(** C10.  When the value map and the file map are both empty, or the
    destination is nil, [bindData] returns success at once and the
    destination is what it was: this holds for every destination, of
    whatever shape, so neither the check of embedded fields with a tag
    nor the check of bare file handles is run. *)
Theorem bindData_without_data :
  (forall tag destination,
      bindData [] tag [] destination = (destination, Done))
  /\ (forall data tag dataFiles,
         bindData data tag dataFiles DNil = (DNil, Done)).
Proof.
  split.
  - intros tag destination. apply guard_returns_destination.
  - reflexivity.
Qed.

(** C9, amended.  When the destination root is neither a struct nor a
    string-keyed map and the value map or the file map is not empty,
    [bindData] under the tag key "form" returns the error "binding
    element must be a struct", whereas under the tag keys "param",
    "query" and "header" it returns success; the destination is not
    mutated in either case. *)
Theorem bindData_non_struct_root data dataFiles typ val :
  noData data dataFiles = false ->
  isStringMap typ = false ->
  reflect.KindOf typ <> reflect.Struct ->
  bindData data "form" dataFiles (DPtr typ val) = (DPtr typ val, Fail errNotStruct)
  /\ (forall tag, In tag ["param"; "query"; "header"] ->
                  bindData data tag dataFiles (DPtr typ val) = (DPtr typ val, Done)).
Proof.
  intros Hno Hmap Hkind.
  assert (Hk : reflect.Kind_eqb (reflect.KindOf typ) reflect.Struct = false).
  { destruct (reflect.KindOf typ); try reflexivity. contradiction Hkind; reflexivity. }
  assert (E : forall tag,
    bindValue data tag dataFiles typ val
    = if (String.eqb tag "param" || String.eqb tag "query" || String.eqb tag "header")%bool
      then (val, Done) else (val, Fail errNotStruct)).
  { intros tag. destruct typ; simpl in *; rewrite Hno; try rewrite Hmap;
      try rewrite Hk; try discriminate Hk; reflexivity. }
  split.
  - unfold bindData. rewrite E. reflexivity.
  - intros tag Hin. unfold bindData. rewrite E.
    simpl in Hin. destruct Hin as [<-|[<-|[<-|[]]]]; reflexivity.
Qed.

(** ** The body phase *)

Lemma zero_length_body_is_noop c i :
  ContentLength c = 0 -> BindBody c i = (i, Done).
Proof.
  intros H. unfold BindBody. rewrite H. reflexivity.
Qed.

(** A body that is there is turned down when its media type is none of
    the five the binder knows. *)
Lemma BindBody_unknown_media_type c i :
  ContentLength c <> 0 ->
  ~ In (mediatype c)
       [MIMEApplicationJSON; MIMEApplicationXML; MIMETextXML;
        MIMEApplicationForm; MIMEMultipartForm] ->
  BindBody c i = (i, Fail ErrUnsupportedMediaType).
Proof.
  intros Hlen Hmt. unfold BindBody. apply Z.eqb_neq in Hlen. rewrite Hlen.
  fold (mediatype c).
  repeat match goal with
         | |- context [String.eqb (mediatype c) ?m] =>
             let E := fresh "E" in
             destruct (String.eqb (mediatype c) m) eqn:E;
             [apply String.eqb_eq in E; exfalso; apply Hmt; rewrite E; simpl; tauto|]
         end.
  reflexivity.
Qed.

(** C8.  A request whose body has length zero is bound by [BindBody]
    with success and without a change of the destination, whatever the
    declared content type. *)
Theorem BindBody_empty_body c i :
  ContentLength c = 0 -> BindBody c i = (i, Done).
Proof.
  intros H. unfold BindBody. rewrite H. reflexivity.
Qed.

(** ** Embedded fields *)

Lemma bindField_embedded_tag data tag dataFiles self typeField field :
  reflect.Anonymous typeField = true ->
  reflect.exported typeField = true ->
  embedsStruct typeField field = true ->
  reflect.Get (reflect.Tag typeField) tag <> "" ->
  bindField data tag dataFiles self typeField field = (field, Fail errAnonymousTag).
Proof.
  intros Hanon Hexp Hemb Htag. apply String.eqb_neq in Htag.
  unfold bindField, bindStructField, embedsStruct in *. rewrite Hanon, Hexp.
  destruct (reflect.Type_ typeField) eqn:Et; simpl in *;
    try discriminate;
    try (rewrite ?Hemb, Htag; reflexivity).
  destruct field as [| | | | |[p|]| | | | | |]; try discriminate.
  rewrite Hemb, Htag. reflexivity.
Qed.

(** C3, amended.  Let a struct destination have an exported embedded
    field of kind struct (a struct, or a pointer to one that is not nil)
    that carries a tag for the active tag key, and let the value map or
    the file map be non-empty.  Then [bindData] fails, whether or not
    any key of the sources matches: with the error "tags are not allowed
    with anonymous struct field" when the fields declared before the
    embedded one bind without error, and with the failure of the first
    of those otherwise.  The embedded field and the fields declared
    after it are not mutated; the fields before it hold what their
    binding left in them. *)
Theorem bindData_embedded_tag_fails
        data tag dataFiles d pre typeField post vpre field vpost :
  noData data dataFiles = false ->
  List.length pre = List.length vpre ->
  reflect.Anonymous typeField = true ->
  reflect.exported typeField = true ->
  embedsStruct typeField field = true ->
  reflect.Get (reflect.Tag typeField) tag <> "" ->
  exists vpre' err,
    bindFields data tag dataFiles (bindValue data tag dataFiles) pre vpre
    = (vpre', err)
    /\ bindData data tag dataFiles
                (DPtr (reflect.StructOf d (pre ++ typeField :: post))
                      (reflect.VStruct (vpre ++ field :: vpost)))
       = (DPtr (reflect.StructOf d (pre ++ typeField :: post))
               (reflect.VStruct (vpre' ++ field :: vpost)),
          if isDone err then Fail errAnonymousTag else err).
Proof.
  intros Hno Hlen Hanon Hexp Hemb Htag.
  destruct (bindFields data tag dataFiles (bindValue data tag dataFiles) pre vpre)
    as [vpre' err] eqn:Epre.
  exists vpre', err. split; [reflexivity|].
  unfold bindData. rewrite bindValue_struct by assumption.
  rewrite bindFields_app by assumption. rewrite Epre.
  rewrite bindField_embedded_tag by assumption.
  destruct err; reflexivity.
Qed.

(** ** Primitive fields *)

Lemma setWithProperType_empty d k field :
  ParseFloat "0.0" 32 = (0, None) ->
  ParseFloat "0.0" 64 = (0, None) ->
  noHooks d = true ->
  primitive k = true ->
  setWithProperType (reflect.Basic d k) "" field = (reflect.Zero (reflect.Basic d k), Done).
Proof.
  intros H32 H64 Hd Hk.
  destruct d as [[[?|] [?|] [?|]]|]; try discriminate Hd;
    destruct k; try discriminate Hk; cbn;
    unfold setFloatField; cbn; rewrite ?H32, ?H64; reflexivity.
Qed.

Lemma usesFiles_Basic dataFiles d k : usesFiles dataFiles (reflect.Basic d k) = false.
Proof. destruct dataFiles; reflexivity. Qed.

(** C4.  A field of a primitive kind (a signed or unsigned integer of
    any width, a boolean, a floating-point number, a string) whose type
    has no decoding hook: the empty string is coerced to the zero value
    of the kind without error; hence a field whose name resolves to a
    key with an empty first value ends as the zero value, whereas a field
    whose name resolves to no key is left as it was.  Both are stated
    for one turn of the loop and for a struct that [bindData] has bound.
    [strconv.ParseFloat] belongs to the platform and is known to read
    "0.0" as [+0]. *)
Theorem empty_value_binds_zero d k :
  ParseFloat "0.0" 32 = (0, None) ->
  ParseFloat "0.0" 64 = (0, None) ->
  noHooks d = true ->
  primitive k = true ->
  (forall field,
      setWithProperType (reflect.Basic d k) "" field
      = (reflect.Zero (reflect.Basic d k), Done))
  /\ (forall data tag dataFiles self typeField field name,
         reflect.Type_ typeField = reflect.Basic d k ->
         reflect.Anonymous typeField = false ->
         reflect.exported typeField = true ->
         reflect.Get (reflect.Tag typeField) tag = name ->
         name <> "" ->
         (forall rest,
             resolve data name = Some ("" :: rest) ->
             bindField data tag dataFiles self typeField field
             = (reflect.Zero (reflect.Basic d k), Done))
         /\ (resolve data name = None ->
             bindField data tag dataFiles self typeField field = (field, Done)))
  /\ (forall data tag dataFiles sd typeFields fields fields' n typeField name,
         bindData data tag dataFiles
                  (DPtr (reflect.StructOf sd typeFields) (reflect.VStruct fields))
         = (DPtr (reflect.StructOf sd typeFields) (reflect.VStruct fields'), Done) ->
         nth_error typeFields n = Some typeField ->
         reflect.Type_ typeField = reflect.Basic d k ->
         reflect.Anonymous typeField = false ->
         reflect.exported typeField = true ->
         reflect.Get (reflect.Tag typeField) tag = name ->
         name <> "" ->
         (forall rest,
             resolve data name = Some ("" :: rest) ->
             nth_error fields' n = Some (reflect.Zero (reflect.Basic d k)))
         /\ (resolve data name = None ->
             nth_error fields' n = nth_error fields n)).
Proof.
  intros H32 H64 Hd Hk.
  assert (Hturn : forall data tag dataFiles self typeField field name,
    reflect.Type_ typeField = reflect.Basic d k ->
    reflect.Anonymous typeField = false ->
    reflect.exported typeField = true ->
    reflect.Get (reflect.Tag typeField) tag = name ->
    name <> "" ->
    (forall rest,
        resolve data name = Some ("" :: rest) ->
        bindField data tag dataFiles self typeField field
        = (reflect.Zero (reflect.Basic d k), Done))
    /\ (resolve data name = None ->
        bindField data tag dataFiles self typeField field = (field, Done))).
  { intros data tag dataFiles self typeField field name Ht Hanon Hexp Htag Hname.
    assert (E : bindField data tag dataFiles self typeField field
                = bindNamed data k name (reflect.Basic d k) field).
    { rewrite (bindField_named data tag dataFiles self typeField field name);
        try assumption.
      - rewrite Ht. reflexivity.
      - rewrite Ht. apply usesFiles_Basic. }
    split.
    - intros rest Hres. rewrite E.
      rewrite (bindNamed_primitive data d k name "" rest) by assumption.
      apply setWithProperType_empty; assumption.
    - intros Hres. rewrite E. apply bindNamed_absent. assumption. }
  split; [|split].
  - intros field. apply setWithProperType_empty; assumption.
  - exact Hturn.
  - intros data tag dataFiles sd typeFields fields fields' n typeField name
           Hb Hn Ht Hanon Hexp Htag Hname.
    destruct (noData data dataFiles) eqn:Hno.
    + (* the guard: nothing is bound *)
      assert (data = []) as -> by (destruct data; [reflexivity|discriminate]).
      assert (dataFiles = []) as -> by (destruct dataFiles; [reflexivity|discriminate]).
      pose proof (guard_returns_destination tag
        (DPtr (reflect.StructOf sd typeFields) (reflect.VStruct fields))) as H.
      split; [intros rest Hres; discriminate Hres|].
      intros _. rewrite Hb in H. inversion H; subst. reflexivity.
    + destruct (bindData_Done_nth _ _ _ _ _ _ _ _ _ Hno Hb Hn)
        as (field & field' & Hf & Hstep & Hf').
      destruct (Hturn data tag dataFiles (bindValue data tag dataFiles)
                      typeField field name Ht Hanon Hexp Htag Hname) as [Hz Ha].
      split.
      * intros rest Hres. rewrite (Hz rest Hres) in Hstep.
        inversion Hstep; subst. assumption.
      * intros Hres. rewrite (Ha Hres) in Hstep.
        inversion Hstep; subst. congruence.
Qed.

(** ** Slice fields *)

Lemma resolve_Some_noData data dataFiles name inputValue :
  resolve data name = Some inputValue -> noData data dataFiles = false.
Proof. destruct data; [discriminate|reflexivity]. Qed.

Section slices.
Variable sliceOf : reflect.Typ.

Let coerce (val : string) : reflect.Value * outcome :=
  setWithProperType sliceOf val (reflect.Zero sliceOf).

Lemma bindSlice_ok inputValue :
  (forall val, In val inputValue -> snd (coerce val) = Done) ->
  bindSlice sliceOf inputValue = (map (fun val => fst (coerce val)) inputValue, Done).
Proof.
  unfold coerce.
  induction inputValue as [|v rest IH]; intros H; simpl; [reflexivity|].
  pose proof (H v (or_introl eq_refl)) as Hv.
  destruct (setWithProperType sliceOf v (reflect.Zero sliceOf)) as [e o].
  simpl in Hv; subst o.
  rewrite IH by (intros; apply H; right; assumption). reflexivity.
Qed.

Lemma bindSlice_fail pre : forall val post err,
  (forall x, In x pre -> snd (coerce x) = Done) ->
  snd (coerce val) = err ->
  err <> Done ->
  snd (bindSlice sliceOf (pre ++ val :: post)) = err.
Proof.
  unfold coerce.
  induction pre as [|v pre IH]; intros val post err Hpre Hval Herr; simpl.
  - destruct (setWithProperType sliceOf val (reflect.Zero sliceOf)) as [e o].
    simpl in Hval; subst o. destruct err; try reflexivity. contradiction.
  - pose proof (Hpre v (or_introl eq_refl)) as Hv.
    destruct (setWithProperType sliceOf v (reflect.Zero sliceOf)) as [e o].
    simpl in Hv; subst o.
    specialize (IH val post err (fun x Hx => Hpre x (or_intror Hx)) Hval Herr).
    destruct (bindSlice sliceOf (pre ++ val :: post)). assumption.
Qed.

(** Without a hook on the slice type, a slice field is rebuilt from
    all the values. *)
Lemma bindNamed_slice data d name inputValue field :
  noHooks d = true ->
  resolve data name = Some inputValue ->
  inputValue <> [] ->
  bindNamed data reflect.Slice name (reflect.SliceOf d sliceOf) field
  = match bindSlice sliceOf inputValue with
    | (slice, Done) => (reflect.VSlice slice, Done)
    | (_, err) => (field, err)
    end.
Proof.
  intros Hd Hres Hne. unfold bindNamed. rewrite Hres.
  destruct inputValue as [|first rest]; [contradiction|].
  destruct d as [[[?|] [?|] [?|]]|]; try discriminate Hd; reflexivity.
Qed.
End slices.

(** C5.  A slice field whose type has no decoding hook, bound from a
    key with the values [inputValue] (at least one): when every value is
    coerced without error, the field becomes a slice of as many elements
    as there are values, the element at each index being the coercion,
    by [setWithProperType] on a fresh element, of the value at that
    index; when the coercion of some value fails, the field is left as
    it was and the failure of the first such value is what the turn, and
    with it [bindData], returns. *)
Theorem slice_field_binds_every_value
        data tag dataFiles typeField field name d sliceOf inputValue :
  reflect.Type_ typeField = reflect.SliceOf d sliceOf ->
  noHooks d = true ->
  reflect.Anonymous typeField = false ->
  reflect.exported typeField = true ->
  reflect.Get (reflect.Tag typeField) tag = name ->
  name <> "" ->
  usesFiles dataFiles (reflect.SliceOf d sliceOf) = false ->
  resolve data name = Some inputValue ->
  inputValue <> [] ->
  (forall self,
      (forall val, In val inputValue ->
                   snd (setWithProperType sliceOf val (reflect.Zero sliceOf)) = Done) ->
      exists slice,
        bindField data tag dataFiles self typeField field
        = (reflect.VSlice slice, Done)
        /\ List.length slice = List.length inputValue
        /\ forall j val,
            nth_error inputValue j = Some val ->
            nth_error slice j
            = Some (fst (setWithProperType sliceOf val (reflect.Zero sliceOf))))
  /\ (forall self pre val post err,
         inputValue = pre ++ val :: post ->
         (forall x, In x pre ->
                    snd (setWithProperType sliceOf x (reflect.Zero sliceOf)) = Done) ->
         snd (setWithProperType sliceOf val (reflect.Zero sliceOf)) = err ->
         err <> Done ->
         bindField data tag dataFiles self typeField field = (field, err))
  /\ (forall sd before after vbefore vafter vbefore' pre val post err,
         List.length before = List.length vbefore ->
         bindFields data tag dataFiles (bindValue data tag dataFiles) before vbefore
         = (vbefore', Done) ->
         inputValue = pre ++ val :: post ->
         (forall x, In x pre ->
                    snd (setWithProperType sliceOf x (reflect.Zero sliceOf)) = Done) ->
         snd (setWithProperType sliceOf val (reflect.Zero sliceOf)) = err ->
         err <> Done ->
         bindData data tag dataFiles
                  (DPtr (reflect.StructOf sd (before ++ typeField :: after))
                        (reflect.VStruct (vbefore ++ field :: vafter)))
         = (DPtr (reflect.StructOf sd (before ++ typeField :: after))
                 (reflect.VStruct (vbefore' ++ field :: vafter)), err)).
Proof.
  intros Ht Hd Hanon Hexp Htag Hname Hfiles Hres Hne.
  assert (E : forall self,
    bindField data tag dataFiles self typeField field
    = match bindSlice sliceOf inputValue with
      | (slice, Done) => (reflect.VSlice slice, Done)
      | (_, err) => (field, err)
      end).
  { intros self.
    rewrite (bindField_named data tag dataFiles self typeField field name);
      try assumption; rewrite Ht; [|assumption].
    apply bindNamed_slice; assumption. }
  assert (Hfail : forall self pre val post err,
    inputValue = pre ++ val :: post ->
    (forall x, In x pre ->
               snd (setWithProperType sliceOf x (reflect.Zero sliceOf)) = Done) ->
    snd (setWithProperType sliceOf val (reflect.Zero sliceOf)) = err ->
    err <> Done ->
    bindField data tag dataFiles self typeField field = (field, err)).
  { intros self pre val post err Hsplit Hpre Hval Herr.
    rewrite E, Hsplit.
    pose proof (bindSlice_fail sliceOf pre val post err Hpre Hval Herr) as Hs.
    destruct (bindSlice sliceOf (pre ++ val :: post)) as [sl o].
    simpl in Hs; subst o. destruct err; try reflexivity. contradiction. }
  split; [|split].
  - intros self Hall. rewrite E, bindSlice_ok by assumption.
    eexists; split; [reflexivity|]. split.
    + apply length_map.
    + intros j val Hj. rewrite nth_error_map, Hj. reflexivity.
  - exact Hfail.
  - intros sd before after vbefore vafter vbefore' pre val post err
           Hlen Hbefore Hsplit Hpre Hval Herr.
    rewrite (bindData_at data tag dataFiles sd before typeField after vbefore
                         field vafter vbefore' field err);
      try assumption.
    + destruct err; try reflexivity. contradiction.
    + eapply resolve_Some_noData; eassumption.
    + eapply Hfail; eassumption.
Qed.

(** ** Name resolution *)

Lemma scanFold_first pre : forall k inputValue post name,
  (forall k' v', In (k', v') pre ->
                 strings.EqualFold EqualFoldUnicode k' name = false) ->
  strings.EqualFold EqualFoldUnicode k name = true ->
  scanFold (pre ++ (k, inputValue) :: post) name = Some inputValue.
Proof.
  induction pre as [|[k0 v0] pre IH]; intros k inputValue post name Hpre Hk; simpl.
  - rewrite Hk. reflexivity.
  - rewrite (Hpre k0 v0 (or_introl eq_refl)).
    apply IH; [|assumption]. intros k' v' Hin. apply (Hpre k' v'). right. assumption.
Qed.

Lemma resolve_no_match data name :
  lookup data name = None ->
  (forall k v, In (k, v) data ->
               strings.EqualFold EqualFoldUnicode k name = false) ->
  resolve data name = None.
Proof.
  unfold resolve. intros ->.
  induction data as [|[k0 v0] data IH]; intros H; [reflexivity|].
  simpl. rewrite (H k0 v0 (or_introl eq_refl)).
  apply IH. intros k v Hin. apply (H k v). right. assumption.
Qed.

(** On ASCII bytes the first loop of [strings.EqualFold] compares the
    lower case of the two. *)
Lemma fold_byte a b :
  strings.isASCII a = true ->
  strings.isASCII b = true ->
  (if Ascii.eqb b a then true
   else
     let lo := if Nat.ltb (nat_of_ascii b) (nat_of_ascii a) then b else a in
     let hi := if Nat.ltb (nat_of_ascii b) (nat_of_ascii a) then a else b in
     (strings.isUpper lo && Nat.eqb (nat_of_ascii hi) (nat_of_ascii lo + 32))%bool)
  = Ascii.eqb (strings.toLower a) (strings.toLower b).
Proof.
  unfold strings.isASCII. intros Ha Hb.
  apply Nat.ltb_lt in Ha. apply Nat.ltb_lt in Hb.
  assert (Hnat : forall x y, Ascii.eqb x y = Nat.eqb (nat_of_ascii x) (nat_of_ascii y)).
  { intros x y. destruct (Ascii.eqb x y) eqn:E.
    - apply Ascii.eqb_eq in E. subst. symmetry. apply Nat.eqb_refl.
    - symmetry. apply Nat.eqb_neq. intros H. apply Ascii.eqb_neq in E. apply E.
      rewrite <- (ascii_nat_embedding x), <- (ascii_nat_embedding y), H. reflexivity. }
  assert (Hlow : forall x, (nat_of_ascii x < 128)%nat ->
            nat_of_ascii (strings.toLower x)
            = if strings.isUpper x then (nat_of_ascii x + 32)%nat else nat_of_ascii x).
  { intros x Hx. unfold strings.toLower. destruct (strings.isUpper x); [|reflexivity].
    apply nat_ascii_embedding. lia. }
  rewrite !Hnat, (Hlow a Ha), (Hlow b Hb).
  unfold strings.isUpper. cbv zeta. clear Hnat Hlow.
  destruct (Nat.ltb (nat_of_ascii b) (nat_of_ascii a)) eqn:Hlt;
    [apply Nat.ltb_lt in Hlt|apply Nat.ltb_ge in Hlt];
    revert Ha Hb Hlt;
    generalize (nat_of_ascii a); generalize (nat_of_ascii b);
    intros y x Ha Hb Hlt;
    repeat match goal with
           | |- context [Nat.leb ?p ?q] => destruct (Nat.leb_spec p q)
           end; cbn [andb];
    repeat match goal with
           | |- context [Nat.eqb ?p ?q] => destruct (Nat.eqb_spec p q)
           end; try reflexivity; lia.
Qed.

Lemma EqualFold_ascii s : forall t,
  asciiText s = true ->
  asciiText t = true ->
  strings.EqualFold EqualFoldUnicode s t = String.eqb (lowered s) (lowered t).
Proof.
  induction s as [|a s IH]; intros [|b t] Hs Ht; try reflexivity.
  simpl in Hs, Ht.
  apply Bool.andb_true_iff in Hs. destruct Hs as [Ha Hs].
  apply Bool.andb_true_iff in Ht. destruct Ht as [Hb Ht].
  cbn [strings.EqualFold lowered String.eqb]. rewrite Ha, Hb. cbn [andb negb].
  rewrite <- (fold_byte a b Ha Hb), IH by assumption.
  destruct (Ascii.eqb b a); [reflexivity|].
  cbv zeta. destruct (_ && _)%bool; reflexivity.
Qed.

(** C6.  The name of a tagged field is resolved against the value map
    by an exact lookup first; when there is no such key, by a scan that
    takes the first key that [strings.EqualFold] matches with the name,
    which on ASCII text is equality up to the case of the letters; and
    when no key matches either way, the field is skipped: its turn of the
    loop ends without error and leaves the field as it was.  A string
    field whose name resolves is bound to the first value of the key
    found.  (The field takes no uploaded file: there are no files, or its
    type is not file-handle shaped.) *)
Theorem field_name_resolution data name :
  (forall inputValue,
      lookup data name = Some inputValue -> resolve data name = Some inputValue)
  /\ (forall pre k inputValue post,
         lookup data name = None ->
         data = pre ++ (k, inputValue) :: post ->
         (forall k' v', In (k', v') pre ->
                        strings.EqualFold EqualFoldUnicode k' name = false) ->
         strings.EqualFold EqualFoldUnicode k name = true ->
         resolve data name = Some inputValue)
  /\ (lookup data name = None ->
      (forall k v, In (k, v) data ->
                   strings.EqualFold EqualFoldUnicode k name = false) ->
      resolve data name = None)
  /\ (forall k,
         asciiText k = true ->
         asciiText name = true ->
         strings.EqualFold EqualFoldUnicode k name
         = String.eqb (lowered k) (lowered name))
  /\ (forall tag dataFiles self typeField field,
         reflect.Anonymous typeField = false ->
         reflect.exported typeField = true ->
         reflect.Get (reflect.Tag typeField) tag = name ->
         name <> "" ->
         usesFiles dataFiles (reflect.Type_ typeField) = false ->
         (resolve data name = None ->
          bindField data tag dataFiles self typeField field = (field, Done))
         /\ (forall d first rest,
                reflect.Type_ typeField = reflect.Basic d reflect.String ->
                noHooks d = true ->
                resolve data name = Some (first :: rest) ->
                bindField data tag dataFiles self typeField field
                = (reflect.VString first, Done))).
Proof.
  split; [|split; [|split; [|split]]].
  - intros inputValue H. unfold resolve. rewrite H. reflexivity.
  - intros pre k inputValue post Hlook Hsplit Hpre Hk.
    unfold resolve. rewrite Hlook, Hsplit. apply scanFold_first; assumption.
  - apply resolve_no_match.
  - intros k. apply EqualFold_ascii.
  - intros tag dataFiles self typeField field Hanon Hexp Htag Hname Hfiles.
    rewrite (bindField_named data tag dataFiles self typeField field name)
      by assumption.
    split.
    + apply bindNamed_absent.
    + intros d first rest Ht Hd Hres. rewrite Ht. simpl.
      rewrite (bindNamed_primitive data d reflect.String name first rest)
        by (assumption || reflexivity).
      destruct d as [[[?|] [?|] [?|]]|]; try discriminate Hd; reflexivity.
Qed.

(** ** Uploaded files *)

(** C7, amended.  In a multipart binding (tag key "form") with
    uploaded files at hand, take an exported field with a name that is no
    embedded one.  Typed [[]*multipart.FileHeader], with no uploaded file
    under its name and no form value its name resolves to, the field is
    left as it was, a zero-length slice in a fresh destination, and the
    turn ends without error.  (With a form value under its name the
    field goes on to the coercion of values, which fails.)  Typed
    [multipart.FileHeader], the turn fails with the error "binding to
    multipart.FileHeader struct is not supported", whether or not a file
    was uploaded under the field's name. *)
Theorem multipart_file_fields data dataFiles self typeField field name :
  dataFiles <> [] ->
  reflect.Anonymous typeField = false ->
  reflect.exported typeField = true ->
  reflect.Get (reflect.Tag typeField) "form" = name ->
  name <> "" ->
  (reflect.Type_ typeField
   = reflect.SliceOf None (reflect.PtrTo reflect.FileHeaderType) ->
   lookup dataFiles name = None \/ lookup dataFiles name = Some [] ->
   resolve data name = None ->
   bindField data "form" dataFiles self typeField field = (field, Done)
   /\ (field = reflect.Zero (reflect.Type_ typeField) ->
       bindField data "form" dataFiles self typeField field
       = (reflect.VSlice [], Done)))
  /\ (reflect.Type_ typeField = reflect.FileHeaderType ->
      bindField data "form" dataFiles self typeField field
      = (field, Fail errFileHeaderStruct)).
Proof.
  intros Hfiles Hanon Hexp Htag Hname. apply String.eqb_neq in Hname.
  destruct dataFiles as [|df dfs]; [contradiction|].
  split.
  - intros Ht Hup Hres.
    assert (E : bindField data "form" (df :: dfs) self typeField field = (field, Done)).
    { unfold bindField, bindStructField. rewrite Hanon, Hexp, Htag, Ht, Hname.
      cbn [negb andb reflect.KindOf reflect.Kind_eqb isFieldMultipartFile].
      unfold setMultipartFileHeaderTypes.
      destruct Hup as [Hup|Hup]; rewrite Hup;
        apply bindNamed_absent; assumption. }
    split; [exact E|].
    intros Hz. rewrite E, Hz, Ht. reflexivity.
  - intros Ht. unfold bindField, bindStructField.
    rewrite Hanon, Hexp, Htag, Ht, Hname. reflexivity.
Qed.

(** ** The order of the phases *)

Lemma bindData_type data tag dataFiles typ val i err :
  bindData data tag dataFiles (DPtr typ val) = (i, err) ->
  exists val', i = DPtr typ val'.
Proof.
  unfold bindData. destruct (bindValue data tag dataFiles typ val) as [val' o].
  intros E; inversion E. eauto.
Qed.

Lemma BindPathParams_type c typ val i err :
  BindPathParams c (DPtr typ val) = (i, err) -> exists val', i = DPtr typ val'.
Proof.
  unfold BindPathParams.
  destruct (pathParams (ParamNames c) (ParamValues c) []) as [params|].
  - destruct (bindData params "param" [] (DPtr typ val)) as [i' o] eqn:E.
    intros E'; inversion E'; subst. eapply bindData_type; eassumption.
  - intros E; inversion E. eauto.
Qed.

Lemma BindQueryParams_type c typ val i err :
  BindQueryParams c (DPtr typ val) = (i, err) -> exists val', i = DPtr typ val'.
Proof.
  unfold BindQueryParams.
  destruct (bindData (QueryParams c) "query" [] (DPtr typ val)) as [i' o] eqn:E.
  intros E'; inversion E'; subst. eapply bindData_type; eassumption.
Qed.

(** The body phase of a request with a URL-encoded form. *)
Lemma BindBody_form c i params :
  ContentLength c <> 0 ->
  mediatype c = MIMEApplicationForm ->
  FormParams c = (params, None) ->
  BindBody c i
  = let (i', err) := bindData params "form" [] i in (i', wrapBadRequest err).
Proof.
  intros Hlen Hmt Hform. unfold BindBody.
  apply Z.eqb_neq in Hlen. rewrite Hlen.
  unfold mediatype in Hmt. rewrite Hmt, Hform. reflexivity.
Qed.

(** A phase that ends without error has overwritten every primitive
    field whose name, under the tag key of the phase, is a key of the
    phase's values: the field holds the coercion of the key's first
    value, whatever it held before. *)
Lemma bindData_overwrites data tag sd typeFields val fields' n typeField
      d k name first rest :
  bindData data tag [] (DPtr (reflect.StructOf sd typeFields) val)
  = (DPtr (reflect.StructOf sd typeFields) (reflect.VStruct fields'), Done) ->
  nth_error typeFields n = Some typeField ->
  reflect.Type_ typeField = reflect.Basic d k ->
  noHooks d = true ->
  primitive k = true ->
  reflect.Anonymous typeField = false ->
  reflect.exported typeField = true ->
  reflect.Get (reflect.Tag typeField) tag = name ->
  name <> "" ->
  lookup data name = Some (first :: rest) ->
  exists bound,
    (forall old, setWithProperType (reflect.Basic d k) first old = (bound, Done))
    /\ nth_error fields' n = Some bound.
Proof.
  intros Hphase Hn Ht Hd Hk Hanon Hexp Htag Hname Hlook.
  assert (Hres : resolve data name = Some (first :: rest))
    by (unfold resolve; rewrite Hlook; reflexivity).
  assert (Hno : noData data [] = false)
    by (eapply resolve_Some_noData; eassumption).
  assert (exists fields, val = reflect.VStruct fields) as [fields ->].
  { destruct val; try (unfold bindData in Hphase; simpl in Hphase;
                        rewrite Hno in Hphase; discriminate Hphase). eauto. }
  destruct (bindData_Done_nth _ _ _ _ _ _ _ _ _ Hno Hphase Hn)
    as (field & field' & Hf & Hstep & Hf').
  rewrite (bindField_named data tag [] _ typeField field name) in Hstep;
    try assumption; try reflexivity.
  rewrite Ht in Hstep. simpl in Hstep.
  rewrite (bindNamed_primitive data d k name first rest) in Hstep by assumption.
  exists field'. split; [|assumption].
  eapply setWithProperType_primitive_fresh; eassumption.
Qed.

(** C1.  [Bind] runs the path phase, then the query phase (for the
    methods that have one), then the body phase, each on the destination
    the phase before it left, and stops at the first phase that fails.
    So the later phase has the last word on a field.  After a successful
    [Bind] of a request with a URL-encoded form, a primitive field whose
    "form" name is a key of the form holds the coercion of that key's
    first value, whatever the path and query phases had bound to it; and
    after a successful [Bind] of a GET, DELETE or HEAD request without a
    body, a primitive field whose "query" name is a key of the query holds
    the coercion of that key's first value, whatever the path phase had
    bound to it. *)
Theorem Bind_phases_in_order_last_wins i c :
  Bind i c
  = match BindPathParams c i with
    | (i1, Done) =>
        match (if bindsQuery (Method c) then BindQueryParams c i1 else (i1, Done)) with
        | (i2, Done) => BindBody c i2
        | r => r
        end
    | r => r
    end
  /\ (forall sd typeFields fields fields' n typeField d k name params first rest,
         i = DPtr (reflect.StructOf sd typeFields) (reflect.VStruct fields) ->
         nth_error typeFields n = Some typeField ->
         reflect.Type_ typeField = reflect.Basic d k ->
         noHooks d = true ->
         primitive k = true ->
         reflect.Anonymous typeField = false ->
         reflect.exported typeField = true ->
         reflect.Get (reflect.Tag typeField) "form" = name ->
         name <> "" ->
         ContentLength c <> 0 ->
         mediatype c = MIMEApplicationForm ->
         FormParams c = (params, None) ->
         lookup params name = Some (first :: rest) ->
         Bind i c
         = (DPtr (reflect.StructOf sd typeFields) (reflect.VStruct fields'), Done) ->
         exists bound,
           (forall old,
               setWithProperType (reflect.Basic d k) first old = (bound, Done))
           /\ nth_error fields' n = Some bound)
  /\ (forall sd typeFields fields fields' n typeField d k name first rest,
         i = DPtr (reflect.StructOf sd typeFields) (reflect.VStruct fields) ->
         nth_error typeFields n = Some typeField ->
         reflect.Type_ typeField = reflect.Basic d k ->
         noHooks d = true ->
         primitive k = true ->
         reflect.Anonymous typeField = false ->
         reflect.exported typeField = true ->
         reflect.Get (reflect.Tag typeField) "query" = name ->
         name <> "" ->
         bindsQuery (Method c) = true ->
         ContentLength c = 0 ->
         lookup (QueryParams c) name = Some (first :: rest) ->
         Bind i c
         = (DPtr (reflect.StructOf sd typeFields) (reflect.VStruct fields'), Done) ->
         exists bound,
           (forall old,
               setWithProperType (reflect.Basic d k) first old = (bound, Done))
           /\ nth_error fields' n = Some bound).
Proof.
  assert (Horder : Bind i c
    = match BindPathParams c i with
      | (i1, Done) =>
          match (if bindsQuery (Method c) then BindQueryParams c i1 else (i1, Done)) with
          | (i2, Done) => BindBody c i2
          | r => r
          end
      | r => r
      end).
  { unfold Bind. destruct (BindPathParams c i) as [i1 []]; try reflexivity.
    destruct (bindsQuery (Method c)); reflexivity. }
  split; [exact Horder|split].
  - intros sd typeFields fields fields' n typeField d k name params first rest
           Hi Hn Ht Hd Hk Hanon Hexp Htag Hname Hlen Hmt Hform Hlook Hbind.
    rewrite Horder in Hbind. subst i.
    (* the destination the body phase starts from *)
    assert (Hbody : exists val2,
      BindBody c (DPtr (reflect.StructOf sd typeFields) val2)
      = (DPtr (reflect.StructOf sd typeFields) (reflect.VStruct fields'), Done)).
    { destruct (BindPathParams c _) as [i1 o1] eqn:E1.
      destruct (BindPathParams_type _ _ _ _ _ E1) as [val1 ->].
      destruct o1; try discriminate Hbind.
      destruct (bindsQuery (Method c)).
      - destruct (BindQueryParams c _) as [i2 o2] eqn:E2.
        destruct (BindQueryParams_type _ _ _ _ _ E2) as [val2 ->].
        destruct o2; try discriminate Hbind. eauto.
      - eauto. }
    destruct Hbody as [val2 Hbody].
    rewrite (BindBody_form _ _ params) in Hbody by assumption.
    destruct (bindData params "form" [] _) as [i' err] eqn:Eform.
    inversion Hbody; subst i'. destruct err; try discriminate. clear Hbody.
    eapply bindData_overwrites; eassumption.
  - intros sd typeFields fields fields' n typeField d k name first rest
           Hi Hn Ht Hd Hk Hanon Hexp Htag Hname Hq Hlen Hlook Hbind.
    rewrite Horder, Hq in Hbind. subst i.
    destruct (BindPathParams c _) as [i1 o1] eqn:E1.
    destruct (BindPathParams_type _ _ _ _ _ E1) as [val1 ->].
    destruct o1; try discriminate Hbind.
    destruct (BindQueryParams c _) as [i2 o2] eqn:E2.
    destruct o2; try discriminate Hbind.
    rewrite zero_length_body_is_noop in Hbind by assumption.
    inversion Hbind; subst i2. clear Hbind.
    unfold BindQueryParams in E2.
    destruct (bindData (QueryParams c) "query" [] _) as [i' err] eqn:Equery.
    inversion E2; subst i'. destruct err; try discriminate.
    eapply bindData_overwrites; eassumption.
Qed.

Lemma bindsQuery_false method :
  method <> http.MethodGet -> method <> http.MethodDelete ->
  method <> http.MethodHead -> bindsQuery method = false.
Proof.
  intros Hg Hd Hh. unfold bindsQuery.
  apply String.eqb_neq in Hg, Hd, Hh. rewrite Hg, Hd, Hh. reflexivity.
Qed.

Lemma bindsQuery_true method :
  method = http.MethodGet \/ method = http.MethodDelete \/ method = http.MethodHead ->
  bindsQuery method = true.
Proof. intros [ -> | [ -> | -> ] ]; reflexivity. Qed.

(** C2.  For a request whose method is none of GET, DELETE and HEAD,
    [Bind] is the path phase followed by the body phase: the query phase
    is not run, whatever the query parameters are, and (as long as the
    body decoders do not read the query themselves) a change of the
    query parameters does not change the result.  For GET, DELETE and
    HEAD the query phase runs between the two. *)
Theorem Bind_query_phase_only_for_get_delete_head i c :
  (Method c <> http.MethodGet ->
   Method c <> http.MethodDelete ->
   Method c <> http.MethodHead ->
   Bind i c
   = match BindPathParams c i with
     | (i1, Done) => BindBody c i1
     | r => r
     end
   /\ forall q,
       JSONDeserialize (withQueryParams c q) = JSONDeserialize c ->
       XMLDecode (withQueryParams c q) = XMLDecode c ->
       Bind i (withQueryParams c q) = Bind i c)
  /\ (Method c = http.MethodGet \/ Method c = http.MethodDelete
      \/ Method c = http.MethodHead ->
      Bind i c
      = match BindPathParams c i with
        | (i1, Done) =>
            match BindQueryParams c i1 with
            | (i2, Done) => BindBody c i2
            | r => r
            end
        | r => r
        end).
Proof.
  split.
  - intros Hg Hd Hh. pose proof (bindsQuery_false _ Hg Hd Hh) as Hq.
    split.
    + unfold Bind. rewrite Hq. reflexivity.
    + intros q Hjson Hxml. unfold Bind.
      change (Method (withQueryParams c q)) with (Method c). rewrite Hq.
      change (BindPathParams (withQueryParams c q) i) with (BindPathParams c i).
      destruct (BindPathParams c i) as [i1 []]; try reflexivity.
      unfold BindBody. rewrite Hjson, Hxml. reflexivity.
  - intros Hm. unfold Bind. rewrite (bindsQuery_true _ Hm). reflexivity.
Qed.

(** ** Map destinations *)

Lemma lookup_store_eq {V : Type} (m : list (string * V)) k v :
  lookup (store m k v) k = Some v.
Proof.
  induction m as [|[k0 v0] m IH]; simpl.
  - rewrite String.eqb_refl. reflexivity.
  - destruct (String.eqb k0 k) eqn:E; simpl.
    + rewrite String.eqb_refl. reflexivity.
    + rewrite E. exact IH.
Qed.

Lemma lookup_store_ne {V : Type} (m : list (string * V)) k k' v :
  k <> k' -> lookup (store m k v) k' = lookup m k'.
Proof.
  intros Hne. induction m as [|[k0 v0] m IH]; simpl.
  - apply String.eqb_neq in Hne. rewrite Hne. reflexivity.
  - destruct (String.eqb k0 k) eqn:E; simpl.
    + apply String.eqb_eq in E. subst k0.
      apply String.eqb_neq in Hne. rewrite Hne. reflexivity.
    + destruct (String.eqb k0 k'); [reflexivity|exact IH].
Qed.

Lemma lookup_None_notin {V : Type} (m : list (string * V)) k :
  lookup m k = None <-> ~ In k (map fst m).
Proof.
  induction m as [|[k0 v0] m IH]; simpl.
  - split; [intros _ []|reflexivity].
  - destruct (String.eqb k0 k) eqn:E.
    + apply String.eqb_eq in E. split; [discriminate|]. intros H. exfalso. auto.
    + apply String.eqb_neq in E. rewrite IH. split.
      * intros H [H1|H1]; [contradiction|auto].
      * intros H H1. apply H. right. assumption.
Qed.

Lemma bindMapEntries_cons key elem k v rest entries :
  bindMapEntries key elem ((k, v) :: rest) entries
  = match mapEntry (reflect.KindOf elem) v with
    | Some x =>
        if settable key elem
        then bindMapEntries key elem rest (store entries k x)
        else (entries, Panic "reflect.Value.SetMapIndex: value is not assignable")
    | None => (entries, Panic "index out of range [0] with length 0")
    end.
Proof.
  unfold mapEntry, settable. simpl.
  destruct (reflect.Kind_eqb (reflect.KindOf elem) reflect.String);
    [destruct v; reflexivity|].
  destruct (reflect.Kind_eqb (reflect.KindOf elem) reflect.Interface);
    [destruct v; reflexivity|].
  reflexivity.
Qed.

(** The loop stores an entry under every key, and touches no other. *)
Lemma bindMapEntries_Done key elem m : forall entries,
  settable key elem = true ->
  (forall k v, In (k, v) m -> mapEntry (reflect.KindOf elem) v <> None) ->
  NoDup (map fst m) ->
  exists entries',
    bindMapEntries key elem m entries = (entries', Done)
    /\ (forall k v, In (k, v) m ->
                    lookup entries' k = mapEntry (reflect.KindOf elem) v)
    /\ (forall k, ~ In k (map fst m) -> lookup entries' k = lookup entries k).
Proof.
  induction m as [|[k v] rest IH]; intros entries Hset Hall Hnd.
  - exists entries. simpl. repeat split; auto. intros k v [].
  - rewrite bindMapEntries_cons, Hset.
    destruct (mapEntry (reflect.KindOf elem) v) as [x|] eqn:Ex;
      [|exfalso; apply (Hall k v); [left; reflexivity|assumption]].
    inversion Hnd as [|? ? Hk Hnd']; subst.
    destruct (IH (store entries k x) Hset
                 (fun k' v' Hin => Hall k' v' (or_intror Hin)) Hnd')
      as (entries' & Hrun & Hin & Hout).
    exists entries'. split; [assumption|]. split.
    + intros k' v' [E|Hin'].
      * inversion E; subst. rewrite (Hout k' Hk), Ex. apply lookup_store_eq.
      * apply Hin. assumption.
    + intros k' Hk'. simpl in Hk'.
      rewrite Hout by (intros H; apply Hk'; right; assumption).
      apply lookup_store_ne. intros E. apply Hk'. left. assumption.
Qed.

(** The loop over the keys never returns an error. *)
Lemma bindMapEntries_no_Fail key elem m : forall entries e,
  snd (bindMapEntries key elem m entries) <> Fail e.
Proof.
  induction m as [|[k v] rest IH]; intros entries e.
  - discriminate.
  - rewrite bindMapEntries_cons.
    destruct (mapEntry (reflect.KindOf elem) v); [|discriminate].
    destruct (settable key elem); [apply IH|discriminate].
Qed.

Lemma bindData_map data tag dataFiles d key elem val :
  data <> [] ->
  reflect.KindOf key = reflect.String ->
  bindData data tag dataFiles (DPtr (reflect.MapOf d key elem) val)
  = let (val', err) := bindMap data (reflect.MapOf d key elem) val in
    (DPtr (reflect.MapOf d key elem) val', err).
Proof.
  intros Hdata Hkey. unfold bindData. simpl.
  destruct data; [contradiction|]. simpl. rewrite Hkey. reflexivity.
Qed.

(** The entries of a map with string keys after the binding, by the
    kind of its elements: what the loop over the data hands to
    [SetMapIndex], which takes it. *)
Lemma bindMap_takes_every_key data tag dataFiles d key elem m0 :
  data <> [] ->
  reflect.KindOf key = reflect.String ->
  settable key elem = true ->
  NoDup (map fst data) ->
  (reflect.KindOf elem = reflect.String ->
   (forall k v, In (k, v) data -> v <> []) ->
   exists entries',
     bindData data tag dataFiles (DPtr (reflect.MapOf d key elem) (reflect.VMap m0))
     = (DPtr (reflect.MapOf d key elem) (reflect.VMap (Some entries')), Done)
     /\ (forall k v0 rest, In (k, v0 :: rest) data ->
                           lookup entries' k = Some (reflect.VString v0))
     /\ (forall k, lookup data k = None ->
                   lookup entries' k
                   = lookup (match m0 with None => [] | Some es => es end) k))
  /\ (reflect.KindOf elem = reflect.Interface ->
      (forall k v, In (k, v) data -> v <> []) ->
      exists entries',
        bindData data tag dataFiles (DPtr (reflect.MapOf d key elem) (reflect.VMap m0))
        = (DPtr (reflect.MapOf d key elem) (reflect.VMap (Some entries')), Done)
        /\ (forall k v0 rest,
               In (k, v0 :: rest) data ->
               lookup entries' k
               = Some (reflect.VInterface (Some (reflect.VString v0))))
        /\ (forall k, lookup data k = None ->
                      lookup entries' k
                      = lookup (match m0 with None => [] | Some es => es end) k))
  /\ (forall de e,
         elem = reflect.SliceOf de e ->
         reflect.KindOf e = reflect.String ->
         exists entries',
           bindData data tag dataFiles (DPtr (reflect.MapOf d key elem) (reflect.VMap m0))
           = (DPtr (reflect.MapOf d key elem) (reflect.VMap (Some entries')), Done)
           /\ (forall k v, In (k, v) data ->
                           lookup entries' k
                           = Some (reflect.VSlice (map reflect.VString v)))
           /\ (forall k, lookup data k = None ->
                         lookup entries' k
                         = lookup (match m0 with None => [] | Some es => es end) k)).
Proof.
  intros Hdata Hkey Hset Hnd.
  assert (Hrun : forall old,
    (forall k v, In (k, v) data -> mapEntry (reflect.KindOf elem) v <> None) ->
    exists entries',
      bindMapEntries key elem data old = (entries', Done)
      /\ (forall k v, In (k, v) data ->
                      lookup entries' k = mapEntry (reflect.KindOf elem) v)
      /\ (forall k, lookup data k = None -> lookup entries' k = lookup old k)).
  { intros old Hall.
    destruct (bindMapEntries_Done key elem data old Hset Hall Hnd)
      as (entries' & Hr & Hin & Hout).
    exists entries'. repeat split; try assumption.
    intros k Hk. apply Hout. apply lookup_None_notin. assumption. }
  split; [|split].
  - intros Helem Hne. rewrite bindData_map by assumption.
    unfold bindMap. rewrite Helem. simpl.
    rewrite ?Bool.orb_true_r. simpl.
    destruct (Hrun (match m0 with None => [] | Some es => es end))
      as (entries' & Hr & Hin & Hout).
    { intros k v Hv. unfold mapEntry. rewrite Helem. simpl.
      destruct v; [exfalso; eapply Hne; eauto|discriminate]. }
    rewrite Hr.
    exists entries'. repeat split; try assumption.
    intros k v0 rest Hv. rewrite (Hin _ _ Hv). unfold mapEntry. rewrite Helem.
    reflexivity.
  - intros Helem Hne. rewrite bindData_map by assumption.
    unfold bindMap. rewrite Helem. simpl.
    rewrite ?Bool.orb_true_r. simpl.
    destruct (Hrun (match m0 with None => [] | Some es => es end))
      as (entries' & Hr & Hin & Hout).
    { intros k v Hv. unfold mapEntry. rewrite Helem. simpl.
      destruct v; [exfalso; eapply Hne; eauto|discriminate]. }
    rewrite Hr.
    exists entries'. repeat split; try assumption.
    intros k v0 rest Hv. rewrite (Hin _ _ Hv). unfold mapEntry. rewrite Helem.
    reflexivity.
  - intros de e -> He. rewrite bindData_map by assumption.
    unfold bindMap. simpl. rewrite He. simpl.
    destruct (Hrun (match m0 with None => [] | Some es => es end))
      as (entries' & Hr & Hin & Hout).
    { intros k v Hv. discriminate. }
    simpl in Hr. rewrite Hr.
    exists entries'. split; [reflexivity|]. split; assumption.
Qed.

(** X1.  Binding into [map[string]string], [map[string]interface{}]
    or [map[string][]string] (the maps of Go having each key once): every
    key of the data ends in the map, with the first of its values when the
    elements are strings or [interface{}], with all its values, in their
    order, when the elements are slices of strings; the keys that are not
    in the data keep their entries, and a nil map is given storage.  The
    tag key plays no part. *)
Theorem map_destination_takes_every_key data tag dataFiles d m0 :
  data <> [] ->
  NoDup (map fst data) ->
  ((forall k v, In (k, v) data -> v <> []) ->
   exists entries',
     bindData data tag dataFiles
              (DPtr (reflect.MapOf d (reflect.Basic None reflect.String)
                                   (reflect.Basic None reflect.String))
                    (reflect.VMap m0))
     = (DPtr (reflect.MapOf d (reflect.Basic None reflect.String)
                            (reflect.Basic None reflect.String))
             (reflect.VMap (Some entries')), Done)
     /\ (forall k v0 rest, In (k, v0 :: rest) data ->
                           lookup entries' k = Some (reflect.VString v0))
     /\ (forall k, lookup data k = None ->
                   lookup entries' k
                   = lookup (match m0 with None => [] | Some es => es end) k))
  /\ ((forall k v, In (k, v) data -> v <> []) ->
      exists entries',
        bindData data tag dataFiles
                 (DPtr (reflect.MapOf d (reflect.Basic None reflect.String)
                                      (reflect.InterfaceType 0))
                       (reflect.VMap m0))
        = (DPtr (reflect.MapOf d (reflect.Basic None reflect.String)
                               (reflect.InterfaceType 0))
                (reflect.VMap (Some entries')), Done)
        /\ (forall k v0 rest,
               In (k, v0 :: rest) data ->
               lookup entries' k
               = Some (reflect.VInterface (Some (reflect.VString v0))))
        /\ (forall k, lookup data k = None ->
                      lookup entries' k
                      = lookup (match m0 with None => [] | Some es => es end) k))
  /\ (forall de,
         exists entries',
           bindData data tag dataFiles
                    (DPtr (reflect.MapOf d (reflect.Basic None reflect.String)
                                         (reflect.SliceOf de
                                            (reflect.Basic None reflect.String)))
                          (reflect.VMap m0))
           = (DPtr (reflect.MapOf d (reflect.Basic None reflect.String)
                                  (reflect.SliceOf de
                                     (reflect.Basic None reflect.String)))
                   (reflect.VMap (Some entries')), Done)
           /\ (forall k v, In (k, v) data ->
                           lookup entries' k
                           = Some (reflect.VSlice (map reflect.VString v)))
           /\ (forall k, lookup data k = None ->
                         lookup entries' k
                         = lookup (match m0 with None => [] | Some es => es end) k)).
Proof.
  intros Hdata Hnd.
  split; [|split].
  - intros Hne.
    exact (proj1 (bindMap_takes_every_key data tag dataFiles d
                    (reflect.Basic None reflect.String)
                    (reflect.Basic None reflect.String) m0
                    Hdata eq_refl eq_refl Hnd) eq_refl Hne).
  - intros Hne.
    exact (proj1 (proj2 (bindMap_takes_every_key data tag dataFiles d
                           (reflect.Basic None reflect.String)
                           (reflect.InterfaceType 0) m0
                           Hdata eq_refl eq_refl Hnd)) eq_refl Hne).
  - intros de.
    exact (proj2 (proj2 (bindMap_takes_every_key data tag dataFiles d
                           (reflect.Basic None reflect.String)
                           (reflect.SliceOf de (reflect.Basic None reflect.String))
                           m0 Hdata eq_refl eq_refl Hnd))
                 de (reflect.Basic None reflect.String) eq_refl eq_refl).
Qed.

(** X2.  Binding into a map with string keys never returns an error,
    under whatever tag key: a map whose elements are neither strings, nor
    [interface{}], nor slices of strings is left as it is, with success,
    also under the tag key "form". *)
Theorem map_destination_never_fails data tag dataFiles typ val :
  isStringMap typ = true ->
  (forall e, snd (bindData data tag dataFiles (DPtr typ val)) <> Fail e)
  /\ (forall d key elem,
         typ = reflect.MapOf d key elem ->
         reflect.KindOf elem <> reflect.String ->
         reflect.KindOf elem <> reflect.Interface ->
         (forall de e, elem = reflect.SliceOf de e ->
                       reflect.KindOf e <> reflect.String) ->
         bindData data tag dataFiles (DPtr typ val) = (DPtr typ val, Done)).
Proof.
  intros Hmap.
  destruct typ as [| | |d key elem| | |]; try discriminate Hmap.
  simpl in Hmap.
  assert (E : bindData data tag dataFiles (DPtr (reflect.MapOf d key elem) val)
              = if noData data dataFiles then (DPtr (reflect.MapOf d key elem) val, Done)
                else let (val', err) := bindMap data (reflect.MapOf d key elem) val in
                     (DPtr (reflect.MapOf d key elem) val', err)).
  { unfold bindData. simpl. rewrite Hmap.
    destruct (noData data dataFiles); [reflexivity|].
    destruct (bindMap data (reflect.MapOf d key elem) val); reflexivity. }
  split.
  - intros e. rewrite E. destruct (noData data dataFiles); [discriminate|].
    unfold bindMap.
    destruct (negb _); [discriminate|].
    destruct val; try discriminate.
    pose proof (bindMapEntries_no_Fail key elem data
                  (match entries with None => [] | Some es => es end) e) as H.
    destruct (bindMapEntries _ _ _ _). exact H.
  - intros d' key' elem' Ht Hs Hi Hsl. inversion Ht; subst d' key' elem'.
    rewrite E. destruct (noData data dataFiles); [reflexivity|].
    unfold bindMap.
    assert (Hk : forall k, reflect.KindOf elem <> k ->
                           reflect.Kind_eqb (reflect.KindOf elem) k = false).
    { intros k Hk. destruct (reflect.KindOf elem), k; try reflexivity;
        contradiction Hk; reflexivity. }
    rewrite (Hk _ Hs), (Hk _ Hi).
    assert (Hsl' : match elem with
                   | reflect.SliceOf _ e =>
                       reflect.Kind_eqb (reflect.KindOf e) reflect.String
                   | _ => false
                   end = false).
    { destruct elem as [| |de e| | | |]; try reflexivity.
      specialize (Hsl de e eq_refl).
      destruct (reflect.KindOf e); try reflexivity. contradiction Hsl; reflexivity. }
    rewrite Hsl'. reflexivity.
Qed.

(** X18.  A map with string keys that the map branch fills but whose
    key or element type does not take a [string] (a defined string type
    as key or element, an interface with methods, a slice of a defined
    string type) makes [bindData] panic as soon as there is a key in the
    data: at [v[0]] when the first key has no value, at [SetMapIndex]
    otherwise.  Nothing is stored; a nil map has been given storage. *)
Theorem unassignable_map_panics data tag dataFiles d key elem m0 :
  data <> [] ->
  reflect.KindOf key = reflect.String ->
  reflect.KindOf elem = reflect.String
  \/ reflect.KindOf elem = reflect.Interface
  \/ (exists de e, elem = reflect.SliceOf de e
                   /\ reflect.KindOf e = reflect.String) ->
  settable key elem = false ->
  exists why,
    bindData data tag dataFiles (DPtr (reflect.MapOf d key elem) (reflect.VMap m0))
    = (DPtr (reflect.MapOf d key elem)
            (reflect.VMap (Some (match m0 with None => [] | Some es => es end))),
       Panic why).
Proof.
  intros Hdata Hkey Hsup Hset.
  rewrite bindData_map by assumption. unfold bindMap.
  assert (Hgo : negb (match elem with
                      | reflect.SliceOf _ e =>
                          reflect.Kind_eqb (reflect.KindOf e) reflect.String
                      | _ => false
                      end
                      || reflect.Kind_eqb (reflect.KindOf elem) reflect.String
                      || reflect.Kind_eqb (reflect.KindOf elem) reflect.Interface)
                = false).
  { destruct Hsup as [H|[H|(de & e & -> & H)]].
    - rewrite H. rewrite Bool.orb_true_r. reflexivity.
    - rewrite H. rewrite !Bool.orb_true_r. reflexivity.
    - rewrite H. reflexivity. }
  rewrite Hgo.
  destruct data as [|[k v] rest]; [contradiction|].
  rewrite bindMapEntries_cons, Hset.
  destruct (mapEntry (reflect.KindOf elem) v); eauto.
Qed.

(** ** Path parameters *)

Lemma pathParams_acc names : forall values params params',
  pathParams names values params = Some params' ->
  forall name,
    (~ In name names -> lookup params' name = lookup params name)
    /\ (In name names ->
        exists v, lookup params' name = Some [v]
                  /\ In (name, v) (combine names values)).
Proof.
  induction names as [|n ns IH]; intros values params params' Hrun name.
  - simpl in Hrun. inversion Hrun; subst. split; [reflexivity|intros []].
  - destruct values as [|v vs]; [discriminate Hrun|]. simpl in Hrun.
    destruct (IH _ _ _ Hrun name) as [Hout Hin]. split.
    + intros Hn. rewrite Hout by (intros H; apply Hn; right; assumption).
      apply lookup_store_ne. intros E. apply Hn. left. assumption.
    + intros Hn. destruct (in_dec string_dec name ns) as [Hns|Hns].
      * destruct (Hin Hns) as (v' & Hl & Hc). exists v'. split; [assumption|].
        right. assumption.
      * destruct Hn as [E|Hn]; [subst n|contradiction].
        exists v. split; [|left; reflexivity].
        rewrite (Hout Hns). apply lookup_store_eq.
Qed.

Lemma pathParams_None names : forall values params,
  pathParams names values params = None
  <-> (List.length values < List.length names)%nat.
Proof.
  induction names as [|n ns IH]; intros values params; simpl.
  - split; [discriminate|]. intros H. inversion H.
  - destruct values as [|v vs]; simpl.
    + split; [intros _; apply Nat.lt_0_succ|reflexivity].
    + rewrite IH. split; intros H; [apply -> Nat.succ_lt_mono|apply Nat.succ_lt_mono];
        assumption.
Qed.

Lemma combine_NoDup_fst (names : list string) : forall (values : list string) name v1 v2,
  NoDup names ->
  In (name, v1) (combine names values) ->
  In (name, v2) (combine names values) ->
  v1 = v2.
Proof.
  induction names as [|n ns IH]; intros values name v1 v2 Hnd H1 H2.
  - destruct H1.
  - destruct values as [|v vs]; [destruct H1|].
    inversion Hnd as [|? ? Hn Hnd']; subst. simpl in H1, H2.
    destruct H1 as [E1|H1], H2 as [E2|H2].
    + congruence.
    + inversion E1; subst. exfalso. apply Hn. eapply in_combine_l; eassumption.
    + inversion E2; subst. exfalso. apply Hn. eapply in_combine_l; eassumption.
    + eapply IH; eassumption.
Qed.

Lemma nth_error_combine (names : list string) : forall (values : list string) i name v,
  nth_error names i = Some name ->
  nth_error values i = Some v ->
  In (name, v) (combine names values).
Proof.
  induction names as [|n ns IH]; intros values i name v Hn Hv.
  - destruct i; discriminate.
  - destruct values as [|v0 vs]; [destruct i; discriminate|].
    destruct i as [|i]; simpl in *.
    + inversion Hn; inversion Hv; subst. left. reflexivity.
    + right. eapply IH; eassumption.
Qed.

(** X3.  The values of the path phase.  When the context has fewer
    path values than names, building the map panics (index out of range)
    and nothing is bound.  Otherwise the map has exactly the names as
    keys and exactly one value under each, the value of an occurrence of
    the name among the parameters; when no name occurs twice, the value
    at the name's own position. *)
Theorem path_params_one_value_per_name names values :
  (pathParams names values [] = None
   <-> (List.length values < List.length names)%nat)
  /\ (forall c i,
         ParamNames c = names -> ParamValues c = values ->
         (List.length values < List.length names)%nat ->
         exists why, BindPathParams c i = (i, Panic why))
  /\ (forall params,
         pathParams names values [] = Some params ->
         (forall name, ~ In name names -> lookup params name = None)
         /\ (forall name, In name names ->
                          exists v, lookup params name = Some [v]
                                    /\ In (name, v) (combine names values))
         /\ (NoDup names ->
             forall i name v,
               nth_error names i = Some name ->
               nth_error values i = Some v ->
               lookup params name = Some [v])).
Proof.
  split; [apply pathParams_None|split].
  - intros c i Hn Hv Hlt. unfold BindPathParams. rewrite Hn, Hv.
    rewrite (proj2 (pathParams_None names values []) Hlt). eauto.
  - intros params Hrun. split; [|split].
    + intros name Hn. apply (proj1 (pathParams_acc _ _ _ _ Hrun name) Hn).
    + intros name Hn. apply (proj2 (pathParams_acc _ _ _ _ Hrun name) Hn).
    + intros Hnd i name v Hi Hv.
      destruct (proj2 (pathParams_acc _ _ _ _ Hrun name)
                      (nth_error_In _ _ Hi)) as (v' & Hl & Hc).
      rewrite Hl. f_equal. f_equal.
      eapply combine_NoDup_fst; try eassumption.
      eapply nth_error_combine; eassumption.
Qed.

(** ** The errors of the phases *)

Lemma wrapBadRequest_Fail o e :
  wrapBadRequest o = Fail e -> exists cause, o = Fail cause /\ e = badRequest cause.
Proof. destruct o; simpl; intros H; inversion H. eauto. Qed.

Lemma BindBody_Fail c i i' e :
  BindBody c i = (i', Fail e) ->
  e = ErrUnsupportedMediaType
  \/ (exists cause msg, e = HTTPError http.StatusBadRequest msg (Some cause))
  \/ (JSONDeserialize c i = (i', Fail e) /\ isHTTPError e = true).
Proof.
  unfold BindBody.
  destruct (ContentLength c =? 0); [discriminate|].
  destruct (String.eqb _ MIMEApplicationJSON).
  { destruct (JSONDeserialize c i) as [i0 [|err|why]] eqn:E; try discriminate.
    destruct (isHTTPError err) eqn:Eh; intros H; inversion H; subst.
    - right. right. split; [reflexivity|assumption].
    - right. left. unfold badRequest. simpl. eauto. }
  destruct (_ || _)%bool.
  { destruct (XMLDecode c i) as [i0 [|err|why]]; try discriminate.
    destruct err; intros H; inversion H; subst; right; left;
      unfold badRequest; simpl; eauto. }
  destruct (String.eqb _ MIMEApplicationForm).
  { destruct (FormParams c) as [params [err|]].
    - intros H; inversion H; subst. right. left. unfold badRequest. simpl. eauto.
    - destruct (bindData params "form" [] i) as [i0 o].
      intros H; inversion H; subst.
      destruct (wrapBadRequest_Fail _ _ H2) as (cause & _ & ->).
      right. left. unfold badRequest. simpl. eauto. }
  destruct (String.eqb _ MIMEMultipartForm).
  { destruct (MultipartForm c) as [[value file] [err|]].
    - intros H; inversion H; subst. right. left. unfold badRequest. simpl. eauto.
    - destruct (bindData value "form" file i) as [i0 o].
      intros H; inversion H; subst.
      destruct (wrapBadRequest_Fail _ _ H2) as (cause & _ & ->).
      right. left. unfold badRequest. simpl. eauto. }
  intros H; inversion H; subst. left. reflexivity.
Qed.

(** X4.  Whatever goes wrong, an error that [Bind] returns is an HTTP
    error: the "unsupported media type" error of the body dispatch, or a
    "bad request" error that carries the underlying error as its internal
    one, or an HTTP error the JSON deserializer returned, which is passed
    on as it is.  The same holds for the header phase, whose errors are
    bad requests around the error of [bindData]. *)
Theorem Bind_errors_are_HTTP_errors c :
  (forall i i' e,
      Bind i c = (i', Fail e) ->
      e = ErrUnsupportedMediaType
      \/ (exists cause msg, e = HTTPError http.StatusBadRequest msg (Some cause))
      \/ (exists i0, JSONDeserialize c i0 = (i', Fail e) /\ isHTTPError e = true))
  /\ (forall i i' e,
         BindHeaders c i = (i', Fail e) ->
         exists cause,
           bindData (Header c) "header" [] i = (i', Fail cause)
           /\ e = HTTPError http.StatusBadRequest (MsgError cause) (Some cause)).
Proof.
  split.
  - intros i i' e. unfold Bind.
    destruct (BindPathParams c i) as [i1 o1] eqn:E1.
    assert (Hphase : forall o e0, wrapBadRequest o = Fail e0 ->
      exists cause msg, e0 = HTTPError http.StatusBadRequest msg (Some cause)).
    { intros o e0 H. destruct (wrapBadRequest_Fail _ _ H) as (cause & _ & ->).
      unfold badRequest. simpl. eauto. }
    destruct o1 as [|e1|why].
    + assert (Hbody : forall i2, BindBody c i2 = (i', Fail e) ->
        e = ErrUnsupportedMediaType
        \/ (exists cause msg, e = HTTPError http.StatusBadRequest msg (Some cause))
        \/ (exists i0, JSONDeserialize c i0 = (i', Fail e) /\ isHTTPError e = true)).
      { intros i2 H. destruct (BindBody_Fail _ _ _ _ H) as [H1|[H1|H1]]; eauto. }
      destruct (bindsQuery (Method c)); [|apply Hbody].
      destruct (BindQueryParams c i1) as [i2 o2] eqn:E2.
      destruct o2 as [|e2|why]; [apply Hbody| |discriminate].
      intros H; inversion H; subst. right. left.
      unfold BindQueryParams in E2.
      destruct (bindData (QueryParams c) "query" [] i1) as [i0 o].
      inversion E2. eapply Hphase; eassumption.
    + intros H; inversion H; subst. right. left.
      unfold BindPathParams in E1.
      destruct (pathParams (ParamNames c) (ParamValues c) []); [|discriminate].
      destruct (bindData d "param" [] i) as [i0 o].
      inversion E1. eapply Hphase; eassumption.
    + discriminate.
  - intros i i' e. unfold BindHeaders.
    destruct (bindData (Header c) "header" [] i) as [i0 o].
    intros H; inversion H; subst.
    destruct (wrapBadRequest_Fail _ _ H2) as (cause & -> & ->).
    exists cause. split; reflexivity.
Qed.

(** ** What the walk leaves alone *)

(** Whatever the outcome of the loop, a field holds what it held or
    what its own turn left in it. *)
Lemma bindFields_nth_any data tag dataFiles self typeFields :
  forall fields fields' err n typeField field,
    bindFields data tag dataFiles self typeFields fields = (fields', err) ->
    nth_error typeFields n = Some typeField ->
    nth_error fields n = Some field ->
    nth_error fields' n = Some field
    \/ exists field' err',
        bindField data tag dataFiles self typeField field = (field', err')
        /\ nth_error fields' n = Some field'.
Proof.
  induction typeFields as [|tf tfs IH]; intros fields fields' err n typeField field Hw Hn Hf.
  - destruct n; discriminate.
  - destruct fields as [|f fs]; [destruct n; discriminate|]. simpl in Hw.
    destruct (bindField data tag dataFiles self tf f) as [f' o] eqn:Ef.
    destruct n as [|n]; simpl in Hn, Hf.
    + inversion Hn; inversion Hf; subst. right. exists f', o. split; [assumption|].
      destruct o; [destruct (bindFields data tag dataFiles self tfs fs)|..];
        inversion Hw; reflexivity.
    + destruct o.
      * destruct (bindFields data tag dataFiles self tfs fs) as [r e] eqn:Er.
        inversion Hw; subst. simpl. eapply IH; eassumption.
      * inversion Hw; subst. left. assumption.
      * inversion Hw; subst. left. assumption.
Qed.

(** X5.  The fields [bindData] never touches, in a run of whatever
    outcome: a field that is not exported; an embedded pointer that is
    nil (it is not given storage, so nothing below it is bound); a field
    without a tag for the active tag key whose kind is not struct; and a
    field without such a tag whose type has the [UnmarshalParam] hook. *)
Theorem bindData_leaves_alone
        data tag dataFiles sd typeFields fields fields' err n typeField :
  bindData data tag dataFiles
           (DPtr (reflect.StructOf sd typeFields) (reflect.VStruct fields))
  = (DPtr (reflect.StructOf sd typeFields) (reflect.VStruct fields'), err) ->
  nth_error typeFields n = Some typeField ->
  reflect.exported typeField = false
  \/ (reflect.Anonymous typeField = true
      /\ (exists e, reflect.Type_ typeField = reflect.PtrTo e)
      /\ nth_error fields n = Some (reflect.VPtr None))
  \/ (reflect.Anonymous typeField = false
      /\ reflect.Get (reflect.Tag typeField) tag = ""
      /\ reflect.KindOf (reflect.Type_ typeField) <> reflect.Struct)
  \/ (reflect.Anonymous typeField = false
      /\ reflect.Get (reflect.Tag typeField) tag = ""
      /\ exists ms h, reflect.methods (reflect.Type_ typeField) = Some ms
                      /\ reflect.UnmarshalParam ms = Some h) ->
  nth_error fields' n = nth_error fields n.
Proof.
  intros Hb Hn Hwhy.
  destruct (noData data dataFiles) eqn:Hno.
  { assert (data = []) as -> by (destruct data; [reflexivity|discriminate]).
    assert (dataFiles = []) as -> by (destruct dataFiles; [reflexivity|discriminate]).
    rewrite guard_returns_destination in Hb. inversion Hb; subst. reflexivity. }
  unfold bindData in Hb. rewrite bindValue_struct in Hb by assumption.
  destruct (bindFields data tag dataFiles (bindValue data tag dataFiles)
                       typeFields fields) as [fs' o] eqn:Ew.
  inversion Hb; subst fs' o. clear Hb.
  pose proof (bindFields_length _ _ _ _ _ _ _ _ Ew) as Hlen.
  destruct (nth_error fields n) as [field|] eqn:Hf.
  - assert (Hturn : forall self,
      bindField data tag dataFiles self typeField field = (field, Done)).
    { intros self. unfold bindField, bindStructField.
      destruct Hwhy as [Hexp|[(Hanon & [e He] & Hnil)|[(Hanon & Htag & Hk)|(Hanon & Htag & Hh)]]].
      - rewrite Hexp. simpl.
        destruct (reflect.Anonymous typeField); [|reflexivity].
        destruct (reflect.Type_ typeField); try reflexivity.
        destruct field as [| | | | |[p|]| | | | | |]; reflexivity.
      - rewrite Hanon, He. inversion Hnil; subst. reflexivity.
      - rewrite Hanon, Htag.
        assert (Hk' : reflect.Kind_eqb (reflect.KindOf (reflect.Type_ typeField))
                                       reflect.Struct = false).
        { destruct (reflect.KindOf (reflect.Type_ typeField)); try reflexivity.
          contradiction Hk; reflexivity. }
        rewrite Hk'. rewrite !Bool.andb_false_r.
        destruct (negb (reflect.exported typeField)); reflexivity.
      - rewrite Hanon, Htag. destruct Hh as (ms & h & Hms & Hh).
        rewrite Hms. destruct ms as [up ut ups]. simpl in Hh. subst up. simpl.
        destruct (negb (reflect.exported typeField)); reflexivity. }
    destruct (bindFields_nth_any _ _ _ _ _ _ _ _ _ _ _ Ew Hn Hf)
      as [H|(field' & err' & Hstep & H)]; [assumption|].
    rewrite Hturn in Hstep. inversion Hstep; subst. assumption.
  - apply nth_error_None in Hf. apply nth_error_None. rewrite Hlen. assumption.
Qed.

(** ** The coercer *)

(** X6.  A conversion that fails writes nothing: when a field whose
    type is no pointer and has no decoding hook cannot be coerced, the
    field is what it was; so is a field of such a type, bound by name,
    after its turn of the loop has failed. *)
Theorem failed_conversion_writes_nothing t val field field' e :
  reflect.KindOf t <> reflect.Pointer ->
  noHooks (reflect.methods t) = true ->
  (setWithProperType t val field = (field', Fail e) -> field' = field)
  /\ (forall data tag dataFiles self typeField name first rest,
         reflect.Type_ typeField = t ->
         (forall d e', t <> reflect.SliceOf d e') ->
         reflect.Anonymous typeField = false ->
         reflect.exported typeField = true ->
         reflect.Get (reflect.Tag typeField) tag = name ->
         name <> "" ->
         usesFiles dataFiles t = false ->
         resolve data name = Some (first :: rest) ->
         bindField data tag dataFiles self typeField field = (field', Fail e) ->
         field' = field).
Proof.
  intros Hk Hh.
  assert (Hset : forall v f f' e0,
    setWithProperType t v f = (f', Fail e0) -> f' = f).
  { intros v f f' e0.
    destruct t as [d k|el|d el|d ke el| |d fs|]; simpl in Hh;
      try (contradiction Hk; reflexivity);
      try (destruct d as [[[?|] [?|] [?|]]|]; try discriminate Hh);
      try (simpl; intros H; inversion H; reflexivity).
    all: destruct k; simpl;
      unfold setIntField, setUintField, setBoolField, setFloatField;
      try (contradiction Hk; reflexivity);
      repeat match goal with
             | |- context [let (_, _) := ?x in _] => destruct x as [? [?|]]
             end;
      intros H; inversion H; reflexivity. }
  split; [apply Hset|].
  intros data tag dataFiles self typeField name first rest
         Ht Hns Hanon Hexp Htag Hname Hfiles Hres.
  rewrite (bindField_named data tag dataFiles self typeField field name)
    by (try assumption; rewrite Ht; assumption).
  rewrite Ht. unfold bindNamed. rewrite Hres.
  assert (Hke : reflect.Kind_eqb (reflect.KindOf t) reflect.Pointer = false).
  { destruct (reflect.KindOf t); try reflexivity. contradiction Hk; reflexivity. }
  unfold unmarshalInputsToField, unmarshalInputToField, receiver. rewrite Hke.
  assert (Hm : reflect.methods t = None
               \/ reflect.methods t
                  = Some {| reflect.UnmarshalParam := None;
                            reflect.UnmarshalText := None;
                            reflect.UnmarshalParams := None |}).
  { destruct (reflect.methods t) as [[[?|] [?|] [?|]]|]; try discriminate Hh; auto. }
  destruct Hm as [Hm|Hm]; rewrite Hm.
  all: destruct t as [d k|el|d el|d ke el| |d fs|];
    try (exfalso; eapply Hns; reflexivity);
    destruct (setWithProperType _ first field) as [f' o] eqn:Es;
    intros H; inversion H; subst; eapply Hset; eassumption.
Qed.

(** ** Integers at their declared width *)

Lemma parseDigits_bounds maxVal s : forall n r,
  0 <= n <= maxVal ->
  strconv.parseDigits maxVal s n = inl r ->
  0 <= r <= maxVal.
Proof.
  induction s as [|c s IH]; intros n r Hn; cbn [strconv.parseDigits].
  - intros H; inversion H; subst. assumption.
  - destruct (strconv.digit c) as [dg|]; [|discriminate].
    destruct (n >=? strconv.maxUint64 / 10 + 1); [discriminate|].
    set (n10 := (n * 10) mod 2 ^ 64). set (n1 := (n10 + dg) mod 2 ^ 64).
    destruct (n1 <? n10) eqn:E1; [discriminate|].
    destruct (n1 >? maxVal) eqn:E2; [discriminate|]. simpl.
    apply IH. split.
    + apply Z.mod_pos_bound. reflexivity.
    + rewrite Z.gtb_ltb in E2. apply Z.ltb_ge in E2. assumption.
Qed.

Lemma parseUint_bounds s bitSize n err :
  0 < bitSize ->
  strconv.parseUint s bitSize = (n, err) ->
  0 <= n /\ (err = None -> n <= 2 ^ bitSize - 1).
Proof.
  intros Hb. unfold strconv.parseUint.
  assert (Hne : (bitSize =? 0) = false) by (apply Z.eqb_neq; lia).
  assert (Hpow : 0 <= 2 ^ bitSize - 1).
  { pose proof (Z.pow_pos_nonneg 2 bitSize); lia. }
  destruct s as [|c s]; [intros H; inversion H; subst; split; [lia|discriminate]|].
  rewrite Hne.
  destruct (strconv.parseDigits (2 ^ bitSize - 1) (String c s) 0) as [r|e] eqn:E.
  - intros H; inversion H; subst.
    pose proof (parseDigits_bounds _ _ 0 _ (conj (Z.le_refl 0) Hpow) E). lia.
  - destruct (strconv.isErrRange e); intros H; inversion H; subst;
      (split; [lia|discriminate]).
Qed.

Lemma ParseUint_bounds s bitSize n :
  0 < bitSize ->
  strconv.ParseUint s bitSize = (n, None) -> 0 <= n <= 2 ^ bitSize - 1.
Proof.
  intros Hb. unfold strconv.ParseUint, strconv.wrap.
  destruct (strconv.parseUint s bitSize) as [m [e|]] eqn:E; [discriminate|].
  intros H; inversion H; subst.
  destruct (parseUint_bounds _ _ _ _ Hb E) as [H0 H1]. split; auto.
Qed.

Lemma ParseInt_bounds s bitSize n :
  0 < bitSize ->
  strconv.ParseInt s bitSize = (n, None) ->
  - 2 ^ (bitSize - 1) <= n <= 2 ^ (bitSize - 1) - 1.
Proof.
  intros Hb. unfold strconv.ParseInt.
  assert (Hne : (bitSize =? 0) = false) by (apply Z.eqb_neq; lia).
  destruct s as [|c rest]; [discriminate|].
  destruct (strconv.parseUint _ bitSize) as [un err] eqn:E.
  destruct (parseUint_bounds _ bitSize _ _ Hb E) as [Hun _].
  assert (Hgo : (if match err with
                    | Some e => negb (strconv.isErrRange e)
                    | None => false
                    end
                 then (0, option_map (NumError "ParseInt" (String c rest)) err)
                 else
                   (let bitSize0 := if bitSize =? 0 then strconv.IntSize else bitSize in
                    let cutoff := 2 ^ (bitSize0 - 1) in
                    if (negb (Ascii.eqb c "-") && (un >=? cutoff))%bool
                    then (cutoff - 1,
                          Some (NumError "ParseInt" (String c rest) strconv.ErrRange))
                    else if (Ascii.eqb c "-" && (un >? cutoff))%bool
                    then (- cutoff,
                          Some (NumError "ParseInt" (String c rest) strconv.ErrRange))
                    else (if Ascii.eqb c "-" then - un else un, None)))
                = (n, None) ->
                - 2 ^ (bitSize - 1) <= n <= 2 ^ (bitSize - 1) - 1);
    [|exact Hgo].
  destruct err as [e|];
    [destruct (negb (strconv.isErrRange e)); [simpl; discriminate|]|].
  all: rewrite Hne; cbv zeta; set (cutoff := 2 ^ (bitSize - 1));
    assert (Hc : 0 < cutoff) by (apply Z.pow_pos_nonneg; lia);
    destruct (Ascii.eqb c "-"); simpl;
    [ destruct (un >? cutoff) eqn:Eg; [discriminate|];
      intros H; inversion H; subst;
      rewrite Z.gtb_ltb in Eg; apply Z.ltb_ge in Eg; lia
    | destruct (un >=? cutoff) eqn:Eg; [discriminate|];
      intros H; inversion H; subst;
      rewrite Z.geb_leb in Eg; apply Z.leb_gt in Eg; lia ].
Qed.

(** X7.  An integer field that has been bound holds a value of its
    declared width: a signed one of [bits] bits lies between [-2^(bits-1)]
    and [2^(bits-1) - 1], an unsigned one between [0] and [2^bits - 1]
    ([int] and [uint] counting as 64 bits wide).  A value out of that
    range is never written. *)
Theorem bound_integers_fit_their_width d k val field field' signed bits :
  noHooks d = true ->
  intWidth k = Some (signed, bits) ->
  setWithProperType (reflect.Basic d k) val field = (field', Done) ->
  if signed
  then exists n, field' = reflect.VInt n
                 /\ - 2 ^ (bits - 1) <= n <= 2 ^ (bits - 1) - 1
  else exists n, field' = reflect.VUint n /\ 0 <= n <= 2 ^ bits - 1.
Proof.
  intros Hd Hw.
  destruct d as [[[?|] [?|] [?|]]|]; try discriminate Hd.
  all: destruct k; try discriminate Hw; inversion Hw; subst; simpl;
    unfold setIntField, setUintField;
    match goal with
    | |- context [strconv.ParseInt ?s ?b] =>
        destruct (strconv.ParseInt s b) as [n [e|]] eqn:E; [discriminate|];
        intros H; inversion H; subst; exists n; split; [reflexivity|];
        first [ apply (ParseInt_bounds s b n ltac:(reflexivity) E)
              | unfold strconv.ParseInt in E;
                change (0 =? 0) with true in E; cbv iota in E;
                apply (ParseInt_bounds s 64 n ltac:(reflexivity)); exact E ]
    | |- context [strconv.ParseUint ?s ?b] =>
        destruct (strconv.ParseUint s b) as [n [e|]] eqn:E; [discriminate|];
        intros H; inversion H; subst; exists n; split; [reflexivity|];
        first [ apply (ParseUint_bounds s b n ltac:(reflexivity) E)
              | apply (ParseUint_bounds s 64 n ltac:(reflexivity)); exact E ]
    end.
Qed.

(** ** Kinds without a case *)

Lemma Kind_eqb_neq a b : a <> b -> reflect.Kind_eqb a b = false.
Proof. intros H. destruct a, b; try reflexivity; contradiction H; reflexivity. Qed.

Lemma setWithProperType_unsupported t val field :
  unsupported t = true ->
  setWithProperType t val field = (field, Fail errUnknownType).
Proof.
  intros Hu.
  destruct t as [d k|el|d el|d ke el| |d fs|]; simpl in Hu; try discriminate Hu;
    try reflexivity;
    try (destruct d as [[[?|] [?|] [?|]]|]; try discriminate Hu; reflexivity).
  destruct d as [[[?|] [?|] [?|]]|]; try discriminate Hu;
    destruct k; try discriminate Hu; reflexivity.
Qed.

Lemma unsupported_shape t :
  unsupported t = true ->
  reflect.Kind_eqb (reflect.KindOf t) reflect.Pointer = false
  /\ noHooks (reflect.methods t) = true
  /\ (forall d e, t <> reflect.SliceOf d e).
Proof.
  intros Hu.
  destruct t as [d k|el|d el|d ke el| |d fs|]; simpl in Hu; try discriminate Hu;
    simpl; repeat split; try assumption; try reflexivity; try discriminate.
  - apply Bool.andb_true_iff in Hu. destruct Hu as [_ Hu].
    destruct (reflect.Kind_eqb k reflect.Pointer); [discriminate|reflexivity].
  - apply Bool.andb_true_iff in Hu. destruct Hu as [Hu _].
    apply Bool.andb_true_iff in Hu. tauto.
Qed.

Lemma bindNamed_no_hooks data kind0 name t field first rest :
  reflect.Kind_eqb kind0 reflect.Pointer = false ->
  reflect.Kind_eqb (reflect.KindOf t) reflect.Pointer = false ->
  noHooks (reflect.methods t) = true ->
  (forall d e, t <> reflect.SliceOf d e) ->
  resolve data name = Some (first :: rest) ->
  bindNamed data kind0 name t field = setWithProperType t first field.
Proof.
  intros Hk0 Hk Hh Hns Hres. unfold bindNamed. rewrite Hres.
  unfold unmarshalInputsToField, unmarshalInputToField, receiver. rewrite Hk0, Hk.
  assert (Hm : reflect.methods t = None
               \/ reflect.methods t
                  = Some {| reflect.UnmarshalParam := None;
                            reflect.UnmarshalText := None;
                            reflect.UnmarshalParams := None |}).
  { destruct (reflect.methods t) as [[[?|] [?|] [?|]]|]; try discriminate Hh; auto. }
  destruct Hm as [Hm|Hm]; rewrite Hm.
  all: destruct t as [d k|el|d el|d ke el| |d fs|];
    try (exfalso; eapply Hns; reflexivity);
    destruct (setWithProperType _ first field); reflexivity.
Qed.

(** X8.  A field whose type the coercer has no case for (a struct, a
    map, an interface, a channel, a complex number and the like, without
    a decoding hook) cannot be bound from a value: when its name resolves
    to a key, the turn fails with "unknown type" and the field is what it
    was; so does the turn of a slice of such elements. *)
Theorem unsupported_kinds_are_unknown_types
        data tag dataFiles self typeField field name first rest t :
  unsupported t = true ->
  reflect.Anonymous typeField = false ->
  reflect.exported typeField = true ->
  reflect.Get (reflect.Tag typeField) tag = name ->
  name <> "" ->
  resolve data name = Some (first :: rest) ->
  (reflect.Type_ typeField = t ->
   usesFiles dataFiles t = false ->
   bindField data tag dataFiles self typeField field = (field, Fail errUnknownType))
  /\ (forall d,
         reflect.Type_ typeField = reflect.SliceOf d t ->
         noHooks d = true ->
         usesFiles dataFiles (reflect.SliceOf d t) = false ->
         bindField data tag dataFiles self typeField field
         = (field, Fail errUnknownType)).
Proof.
  intros Hu Hanon Hexp Htag Hname Hres.
  destruct (unsupported_shape t Hu) as (Hk & Hh & Hns).
  split.
  - intros Ht Hfiles.
    rewrite (bindField_named data tag dataFiles self typeField field name)
      by (try assumption; rewrite Ht; assumption).
    rewrite Ht.
    rewrite (bindNamed_no_hooks data _ name t field first rest) by assumption.
    apply setWithProperType_unsupported. assumption.
  - intros d Ht Hd Hfiles.
    rewrite (bindField_named data tag dataFiles self typeField field name)
      by (try assumption; rewrite Ht; assumption).
    rewrite Ht. cbn [reflect.KindOf].
    rewrite (bindNamed_slice t data d name (first :: rest) field)
      by (assumption || discriminate).
    simpl. rewrite setWithProperType_unsupported by assumption. reflexivity.
Qed.

(** ** Decoding hooks *)

Lemma usesFiles_hooked dataFiles t ms :
  reflect.methods t = Some ms -> usesFiles dataFiles t = false.
Proof.
  intros Hm. destruct dataFiles; [reflexivity|].
  destruct t as [d k|el|d el|d ke el| |d fs|]; simpl in *; try discriminate Hm;
    try reflexivity.
  subst d. reflexivity.
Qed.

(** X9.  The order of the hooks.  For a named field whose type is no
    pointer: the multi-value hook [UnmarshalParams], when the type has
    it, receives all the values of the key (be they none) and nothing
    else is tried; else [UnmarshalParam] receives the first value; else
    [UnmarshalText] does.  What the hook returns is what the turn
    returns, and the field is what the hook left. *)
Theorem hooks_in_order data tag dataFiles self typeField field name t ms inputValue :
  reflect.Type_ typeField = t ->
  reflect.KindOf t <> reflect.Pointer ->
  reflect.methods t = Some ms ->
  reflect.Anonymous typeField = false ->
  reflect.exported typeField = true ->
  reflect.Get (reflect.Tag typeField) tag = name ->
  name <> "" ->
  resolve data name = Some inputValue ->
  (forall h,
      reflect.UnmarshalParams ms = Some h ->
      bindField data tag dataFiles self typeField field
      = (fst (h inputValue field), ofError (snd (h inputValue field))))
  /\ (forall h first rest,
         reflect.UnmarshalParams ms = None ->
         reflect.UnmarshalParam ms = Some h ->
         inputValue = first :: rest ->
         bindField data tag dataFiles self typeField field
         = (fst (h first field), ofError (snd (h first field))))
  /\ (forall h first rest,
         reflect.UnmarshalParams ms = None ->
         reflect.UnmarshalParam ms = None ->
         reflect.UnmarshalText ms = Some h ->
         inputValue = first :: rest ->
         bindField data tag dataFiles self typeField field
         = (fst (h first field), ofError (snd (h first field)))).
Proof.
  intros Ht Hk Hm Hanon Hexp Htag Hname Hres.
  apply Kind_eqb_neq in Hk.
  assert (E : bindField data tag dataFiles self typeField field
              = bindNamed data (reflect.KindOf t) name t field).
  { rewrite (bindField_named data tag dataFiles self typeField field name);
      try assumption; rewrite Ht; [reflexivity|].
    eapply usesFiles_hooked; eassumption. }
  rewrite E. unfold bindNamed. rewrite Hres.
  unfold unmarshalInputsToField, unmarshalInputToField, receiver. rewrite Hk, Hm.
  destruct ms as [up ut ups]. simpl.
  split; [|split].
  - intros h ->. destruct (h inputValue field). reflexivity.
  - intros h first rest -> -> ->. destruct (h first field). reflexivity.
  - intros h first rest -> -> -> ->. destruct (h first field). reflexivity.
Qed.

(** ** Pointer fields *)

Lemma usesFiles_PtrTo dataFiles e :
  e <> reflect.FileHeaderType -> usesFiles dataFiles (reflect.PtrTo e) = false.
Proof.
  intros He. destruct dataFiles; [reflexivity|].
  destruct e; try reflexivity. contradiction He; reflexivity.
Qed.

(** X10.  A named field that is a pointer is given storage when it is
    nil, and what it points to is bound: by the multi-value hook of the
    pointee's type, with all the values; by the coercer, with the first
    value, when the pointee is primitive; from all the values when the
    pointee is a slice.  The storage stays when the hook or the coercer
    fails: after the turn the pointer is not nil, whatever the outcome. *)
Theorem pointer_fields_get_storage
        data tag dataFiles self typeField p name e inputValue :
  reflect.Type_ typeField = reflect.PtrTo e ->
  reflect.Anonymous typeField = false ->
  reflect.exported typeField = true ->
  reflect.Get (reflect.Tag typeField) tag = name ->
  name <> "" ->
  resolve data name = Some inputValue ->
  (forall ms h,
      reflect.methods e = Some ms ->
      reflect.UnmarshalParams ms = Some h ->
      bindField data tag dataFiles self typeField (reflect.VPtr p)
      = (reflect.VPtr (Some (fst (h inputValue (pointee e p)))),
         ofError (snd (h inputValue (pointee e p)))))
  /\ (forall d k first rest,
         e = reflect.Basic d k ->
         noHooks d = true ->
         primitive k = true ->
         inputValue = first :: rest ->
         bindField data tag dataFiles self typeField (reflect.VPtr p)
         = (reflect.VPtr (Some (fst (setWithProperType e first (pointee e p)))),
            snd (setWithProperType e first (pointee e p))))
  /\ (forall d el first rest,
         e = reflect.SliceOf d el ->
         noHooks d = true ->
         inputValue = first :: rest ->
         bindField data tag dataFiles self typeField (reflect.VPtr p)
         = match bindSlice el inputValue with
           | (slice, Done) => (reflect.VPtr (Some (reflect.VSlice slice)), Done)
           | (_, err) => (reflect.VPtr (Some (pointee e p)), err)
           end).
Proof.
  intros Ht Hanon Hexp Htag Hname Hres.
  assert (E : e <> reflect.FileHeaderType ->
    bindField data tag dataFiles self typeField (reflect.VPtr p)
    = bindNamed data reflect.Pointer name (reflect.PtrTo e) (reflect.VPtr p)).
  { intros He.
    rewrite (bindField_named data tag dataFiles self typeField _ name);
      try assumption; rewrite Ht; [reflexivity|].
    apply usesFiles_PtrTo. assumption. }
  assert (Hrecv : receiver reflect.Pointer (reflect.PtrTo e) (reflect.VPtr p)
                  = Some (e, pointee e p, fun x => reflect.VPtr (Some x))).
  { destruct p; reflexivity. }
  split; [|split].
  - intros ms h Hm Hh.
    rewrite E by (intros ->; discriminate Hm).
    unfold bindNamed. rewrite Hres. unfold unmarshalInputsToField.
    rewrite Hrecv, Hm. destruct ms as [up ut ups]. simpl in Hh. subst ups.
    destruct (h inputValue (pointee e p)). reflexivity.
  - intros d k first rest -> Hd Hk ->.
    rewrite E by discriminate.
    unfold bindNamed. rewrite Hres.
    unfold unmarshalInputsToField, unmarshalInputToField. rewrite Hrecv.
    destruct d as [[[?|] [?|] [?|]]|]; try discriminate Hd;
      cbn -[setWithProperType pointee];
      destruct (setWithProperType _ first (pointee _ p)); reflexivity.
  - intros d el first rest -> Hd ->.
    rewrite E by discriminate.
    unfold bindNamed. rewrite Hres.
    unfold unmarshalInputsToField, unmarshalInputToField. rewrite Hrecv.
    destruct d as [[[?|] [?|] [?|]]|]; try discriminate Hd;
      cbn -[bindSlice pointee];
      destruct (bindSlice el (first :: rest)) as [xs []]; reflexivity.
Qed.

(** ** Uploaded files and form values *)

(** X11.  Uploaded files go first: with a file uploaded under the
    name of a file-handle shaped field, the field takes the files (all of
    them, in their order, for the two slice shapes; the first for the
    single handle) and the form values are not looked at, whatever they
    are and whatever the field held. *)
Theorem uploaded_files_go_first
        data tag dataFiles self typeField field name first rest :
  lookup dataFiles name = Some (first :: rest) ->
  reflect.Anonymous typeField = false ->
  reflect.exported typeField = true ->
  reflect.Get (reflect.Tag typeField) tag = name ->
  name <> "" ->
  (reflect.Type_ typeField
   = reflect.SliceOf None (reflect.PtrTo reflect.FileHeaderType) ->
   bindField data tag dataFiles self typeField field
   = (reflect.VSlice (map (fun h => reflect.VPtr (Some (reflect.VFileHeader h)))
                          (first :: rest)), Done))
  /\ (reflect.Type_ typeField = reflect.SliceOf None reflect.FileHeaderType ->
      bindField data tag dataFiles self typeField field
      = (reflect.VSlice (map reflect.VFileHeader (first :: rest)), Done))
  /\ (reflect.Type_ typeField = reflect.PtrTo reflect.FileHeaderType ->
      bindField data tag dataFiles self typeField field
      = (reflect.VPtr (Some (reflect.VFileHeader first)), Done)).
Proof.
  intros Hup Hanon Hexp Htag Hname. apply String.eqb_neq in Hname.
  assert (Hfiles : dataFiles <> []) by (intros ->; discriminate Hup).
  destruct dataFiles as [|df dfs]; [contradiction|].
  split; [|split]; intros Ht; unfold bindField, bindStructField;
    rewrite Hanon, Hexp, Htag, Ht, Hname;
    cbn [negb andb reflect.KindOf reflect.Kind_eqb isFieldMultipartFile];
    unfold setMultipartFileHeaderTypes; rewrite Hup; reflexivity.
Qed.

(** X12.  A file-handle shaped field cannot be bound from a form
    value: with no file uploaded under its name and a form value its name
    resolves to, the turn fails with "unknown type"; the slices are left
    as they were, the single handle is left pointing to storage. *)
Theorem file_fields_reject_form_values
        data tag dataFiles self typeField name first rest :
  lookup dataFiles name = None \/ lookup dataFiles name = Some [] ->
  reflect.Anonymous typeField = false ->
  reflect.exported typeField = true ->
  reflect.Get (reflect.Tag typeField) tag = name ->
  name <> "" ->
  resolve data name = Some (first :: rest) ->
  (forall field,
      reflect.Type_ typeField
      = reflect.SliceOf None (reflect.PtrTo reflect.FileHeaderType) ->
      bindField data tag dataFiles self typeField field = (field, Fail errUnknownType))
  /\ (forall field,
         reflect.Type_ typeField = reflect.SliceOf None reflect.FileHeaderType ->
         bindField data tag dataFiles self typeField field
         = (field, Fail errUnknownType))
  /\ (forall p,
         reflect.Type_ typeField = reflect.PtrTo reflect.FileHeaderType ->
         bindField data tag dataFiles self typeField (reflect.VPtr p)
         = (reflect.VPtr (Some (pointee reflect.FileHeaderType p)),
            Fail errUnknownType)).
Proof.
  intros Hup Hanon Hexp Htag Hname Hres. apply String.eqb_neq in Hname.
  assert (Hstep : forall ft field,
    reflect.Type_ typeField = ft ->
    isFieldMultipartFile ft = (true, None) ->
    bindField data tag dataFiles self typeField field
    = bindNamed data (reflect.KindOf ft) name ft field).
  { intros ft field Ht Hshape. unfold bindField, bindStructField.
    rewrite Hanon, Hexp, Htag, Ht, Hname.
    assert (Hk : reflect.Kind_eqb (reflect.KindOf ft) reflect.Struct = false).
    { destruct ft as [| [| | | | | |]|[|] [| [| | | | | |]| | | | |]| | | |];
        try discriminate Hshape; reflexivity. }
    rewrite Hk. cbn [negb andb]. rewrite Hshape.
    unfold setMultipartFileHeaderTypes.
    destruct dataFiles; [reflexivity|].
    destruct Hup as [Hup|Hup]; rewrite Hup; reflexivity. }
  split; [|split].
  - intros field Ht. rewrite (Hstep _ _ Ht eq_refl).
    unfold bindNamed. rewrite Hres. reflexivity.
  - intros field Ht. rewrite (Hstep _ _ Ht eq_refl).
    unfold bindNamed. rewrite Hres. reflexivity.
  - intros p Ht. rewrite (Hstep _ _ Ht eq_refl).
    unfold bindNamed. rewrite Hres. destruct p; reflexivity.
Qed.

(** ** Keys without values *)

Lemma bindMapEntries_Panic key elem m : forall entries k,
  (reflect.Kind_eqb (reflect.KindOf elem) reflect.String
   || reflect.Kind_eqb (reflect.KindOf elem) reflect.Interface)%bool = true ->
  In (k, []) m ->
  exists entries' why, bindMapEntries key elem m entries = (entries', Panic why).
Proof.
  induction m as [|[k0 v0] rest IH]; intros entries k Hmode Hin; [destruct Hin|].
  rewrite bindMapEntries_cons. unfold mapEntry.
  destruct Hin as [E|Hin].
  - inversion E; subst.
    destruct (reflect.Kind_eqb (reflect.KindOf elem) reflect.String); [eauto|].
    simpl in Hmode. rewrite Hmode. eauto.
  - assert (Hgo : forall x,
      exists entries' why,
        (if settable key elem
         then bindMapEntries key elem rest (store entries k0 x)
         else (entries, Panic "reflect.Value.SetMapIndex: value is not assignable"))
        = (entries', Panic why)).
    { intros x. destruct (settable key elem); [|eauto]. eapply IH; eassumption. }
    destruct (reflect.Kind_eqb (reflect.KindOf elem) reflect.String).
    + destruct v0; [eauto|]. apply Hgo.
    + simpl in Hmode. rewrite Hmode. destruct v0; [eauto|]. apply Hgo.
Qed.

(** X13.  A key that is there without a value makes the walker index
    out of range: a named field whose type is no pointer and has no
    multi-value hook panics when its name resolves to an empty list of
    values, and so does the binding into a map of strings or of
    [interface{}] whose data has such a key.  (The maps [net/url] and
    [net/http] build have no such key.) *)
Theorem key_without_values_panics data tag dataFiles :
  (forall self typeField field name t,
      reflect.Type_ typeField = t ->
      reflect.KindOf t <> reflect.Pointer ->
      reflect.methods t = None
      \/ (exists ms, reflect.methods t = Some ms
                     /\ reflect.UnmarshalParams ms = None) ->
      reflect.Anonymous typeField = false ->
      reflect.exported typeField = true ->
      reflect.Get (reflect.Tag typeField) tag = name ->
      name <> "" ->
      usesFiles dataFiles t = false ->
      resolve data name = Some [] ->
      exists why,
        bindField data tag dataFiles self typeField field = (field, Panic why))
  /\ (forall d key elem m0 k,
         reflect.KindOf key = reflect.String ->
         reflect.KindOf elem = reflect.String
         \/ reflect.KindOf elem = reflect.Interface ->
         In (k, []) data ->
         exists entries why,
           bindData data tag dataFiles
                    (DPtr (reflect.MapOf d key elem) (reflect.VMap m0))
           = (DPtr (reflect.MapOf d key elem) (reflect.VMap (Some entries)),
              Panic why)).
Proof.
  split.
  - intros self typeField field name t Ht Hk Hm Hanon Hexp Htag Hname Hfiles Hres.
    apply Kind_eqb_neq in Hk.
    rewrite (bindField_named data tag dataFiles self typeField field name)
      by (try assumption; rewrite Ht; assumption).
    rewrite Ht. unfold bindNamed. rewrite Hres.
    unfold unmarshalInputsToField, receiver. rewrite Hk.
    destruct Hm as [Hm|(ms & Hm & Hh)]; rewrite Hm.
    + eauto.
    + destruct ms as [up ut ups]. simpl in Hh. subst ups. eauto.
  - intros d key elem m0 k Hkey Helem Hin.
    assert (Hdata : data <> []) by (intros ->; destruct Hin).
    rewrite bindData_map by assumption. unfold bindMap.
    assert (Hmode : (reflect.Kind_eqb (reflect.KindOf elem) reflect.String
                     || reflect.Kind_eqb (reflect.KindOf elem) reflect.Interface)%bool
                    = true)
      by (destruct Helem as [-> | ->]; reflexivity).
    assert (Hsup : negb (match elem with
                         | reflect.SliceOf _ e =>
                             reflect.Kind_eqb (reflect.KindOf e) reflect.String
                         | _ => false
                         end
                         || reflect.Kind_eqb (reflect.KindOf elem) reflect.String
                         || reflect.Kind_eqb (reflect.KindOf elem) reflect.Interface)
                   = false).
    { rewrite <- Bool.orb_assoc, Hmode, Bool.orb_true_r. reflexivity. }
    rewrite Hsup.
    destruct (bindMapEntries_Panic key elem data
                (match m0 with None => [] | Some es => es end) k Hmode Hin)
      as (entries' & why & Hrun).
    rewrite Hrun. eauto.
Qed.

(** ** The media type *)

Lemma CutBefore_append m sep p :
  strings.CutBefore m sep = m ->
  strings.CutBefore (append m (String sep p)) sep = m.
Proof.
  induction m as [|a m IH]; simpl.
  - rewrite Ascii.eqb_refl. reflexivity.
  - destruct (Ascii.eqb a sep); [discriminate|].
    intros H. inversion H as [H1]. rewrite H1. rewrite (IH H1). reflexivity.
Qed.

Ltac bytes :=
  unfold strings.isSpace, strings.isSpace2, strings.isSpace3, leads in *;
  cbv zeta in *;
  repeat match goal with
         | H : _ = true |- _ =>
             first [ apply Bool.andb_true_iff in H; destruct H
                   | apply Bool.orb_true_iff in H; destruct H
                   | apply Nat.eqb_eq in H
                   | apply Nat.leb_le in H
                   | apply Nat.ltb_lt in H ]
         end;
  repeat match goal with
         | |- _ = false => apply Bool.not_true_iff_false; intro
         | H : _ = true |- _ =>
             first [ apply Bool.andb_true_iff in H; destruct H
                   | apply Bool.orb_true_iff in H; destruct H
                   | apply Nat.eqb_eq in H
                   | apply Nat.leb_le in H
                   | apply Nat.ltb_lt in H ]
         end;
  try lia.

Lemma isSpace2_first a b : strings.isSpace2 a b = true -> strings.isSpace a = false.
Proof. intros H. bytes. Qed.

Lemma isSpace3_first a b c :
  strings.isSpace3 a b c = true ->
  strings.isSpace a = false /\ strings.isSpace2 a b = false.
Proof. intros H. split; bytes. Qed.

Lemma isSpace3_last a b c :
  strings.isSpace3 a b c = true ->
  strings.isSpace c = false /\ strings.isSpace2 b c = false.
Proof. intros H. split; bytes. Qed.

Lemma isSpace2_last a b : strings.isSpace2 a b = true -> strings.isSpace b = false.
Proof. intros H. bytes. Qed.

Lemma leads_no_tail f :
  leads f = true ->
  (forall a, strings.isSpace2 a f = false)
  /\ (forall a c, strings.isSpace3 a f c = false)
  /\ (forall a b, strings.isSpace3 a b f = false).
Proof. intros H. repeat split; intros; bytes. Qed.

Lemma whiteSpace_leads w :
  whiteSpace w = true ->
  exists f rest, list_ascii_of_string w = f :: rest /\ leads f = true.
Proof.
  unfold whiteSpace.
  destruct (list_ascii_of_string w) as [|a [|b [|c [|? ?]]]]; try discriminate;
    intros H; eexists _, _; (split; [reflexivity|]).
  - unfold leads. apply Bool.orb_true_iff. left. apply Nat.ltb_lt. bytes.
  - unfold leads. apply Bool.orb_true_iff. right. apply Nat.leb_le. bytes.
  - unfold leads. apply Bool.orb_true_iff. right. apply Nat.leb_le. bytes.
Qed.

Lemma trimLeft_whiteSpace w x :
  whiteSpace w = true ->
  strings.trimLeft (list_ascii_of_string w ++ x) = strings.trimLeft x.
Proof.
  unfold whiteSpace.
  destruct (list_ascii_of_string w) as [|a [|b [|c [|? ?]]]]; try discriminate;
    intros H; cbn [app strings.trimLeft].
  - rewrite H. reflexivity.
  - rewrite (isSpace2_first _ _ H), H. reflexivity.
  - destruct (isSpace3_first _ _ _ H) as [H1 H2]. rewrite H1, H2, H. reflexivity.
Qed.

Lemma trimBackwards_whiteSpace w x :
  whiteSpace w = true ->
  strings.trimBackwards (List.rev (list_ascii_of_string w) ++ x)
  = strings.trimBackwards x.
Proof.
  unfold whiteSpace.
  destruct (list_ascii_of_string w) as [|a [|b [|c [|? ?]]]]; try discriminate;
    intros H; cbn [List.rev app strings.trimBackwards].
  - rewrite H. reflexivity.
  - rewrite (isSpace2_last _ _ H), H. reflexivity.
  - destruct (isSpace3_last _ _ _ H) as [H1 H2]. rewrite H1, H2, H. reflexivity.
Qed.

Lemma trimLeft_spaces ws x :
  forallb whiteSpace ws = true ->
  strings.trimLeft (spaces ws ++ x) = strings.trimLeft x.
Proof.
  unfold spaces. induction ws as [|w ws IH]; intros H; [reflexivity|].
  simpl in H. apply Bool.andb_true_iff in H. destruct H as [Hw Hws].
  cbn [map List.concat]. rewrite <- app_assoc.
  rewrite trimLeft_whiteSpace by assumption. apply IH. assumption.
Qed.

Lemma trimBackwards_spaces ws : forall y,
  forallb whiteSpace ws = true ->
  strings.trimBackwards (List.rev (spaces ws) ++ y) = strings.trimBackwards y.
Proof.
  unfold spaces. induction ws as [|w ws IH]; intros y H; [reflexivity|].
  simpl in H. apply Bool.andb_true_iff in H. destruct H as [Hw Hws].
  cbn [map List.concat]. rewrite rev_app_distr, <- app_assoc.
  rewrite IH by assumption.
  apply trimBackwards_whiteSpace. assumption.
Qed.

Lemma trimRight_spaces ws x :
  forallb whiteSpace ws = true ->
  strings.trimRight (x ++ spaces ws) = strings.trimRight x.
Proof.
  unfold strings.trimRight. intros H. f_equal.
  rewrite rev_app_distr. apply trimBackwards_spaces. assumption.
Qed.

Lemma spaces_leads ws :
  forallb whiteSpace ws = true ->
  spaces ws = [] \/ exists f x, spaces ws = f :: x /\ leads f = true.
Proof.
  destruct ws as [|w ws]; [left; reflexivity|]. intros H. right.
  simpl in H. apply Bool.andb_true_iff in H. destruct H as [Hw _].
  destruct (whiteSpace_leads _ Hw) as (f & rest & E & Hf).
  unfold spaces. cbn [map List.concat]. rewrite E. simpl. eauto.
Qed.

(** White space after a text does not change what is trimmed on its
    left. *)
Lemma trimLeft_before_spaces ws :
  forallb whiteSpace ws = true ->
  forall n m, (List.length m <= n)%nat ->
    strings.trimLeft (m ++ spaces ws)
    = match strings.trimLeft m with
      | [] => []
      | r => r ++ spaces ws
      end.
Proof.
  intros Hws.
  assert (Hall : strings.trimLeft (spaces ws) = []).
  { rewrite <- (app_nil_r (spaces ws)). rewrite trimLeft_spaces by assumption.
    reflexivity. }
  pose proof (spaces_leads ws Hws) as Hlead.
  induction n as [|n IH]; intros m Hlen.
  { destruct m; [|simpl in Hlen; lia]. simpl. assumption. }
  destruct m as [|a [|b [|c s3]]].
  - simpl. assumption.
  - cbn [app strings.trimLeft].
    destruct (strings.isSpace a); [exact Hall|].
    destruct Hlead as [->|(f & x & -> & Hf)]; [reflexivity|].
    destruct (leads_no_tail f Hf) as (H2 & H3 & _).
    rewrite H2. destruct x; [reflexivity|]. rewrite H3. reflexivity.
  - cbn [app strings.trimLeft].
    destruct (strings.isSpace a).
    { apply (IH [b]). simpl in *. lia. }
    destruct (strings.isSpace2 a b); [exact Hall|].
    destruct Hlead as [->|(f & x & -> & Hf)]; [reflexivity|].
    destruct (leads_no_tail f Hf) as (_ & _ & H3).
    rewrite H3. reflexivity.
  - cbn [app strings.trimLeft].
    destruct (strings.isSpace a).
    { apply (IH (b :: c :: s3)). simpl in *. lia. }
    destruct (strings.isSpace2 a b).
    { apply (IH (c :: s3)). simpl in *. lia. }
    destruct (strings.isSpace3 a b c).
    { apply (IH s3). simpl in *. lia. }
    reflexivity.
Qed.

Lemma trim_spaces ws1 m ws2 :
  forallb whiteSpace ws1 = true ->
  forallb whiteSpace ws2 = true ->
  strings.trimRight (strings.trimLeft (spaces ws1 ++ m ++ spaces ws2))
  = strings.trimRight (strings.trimLeft m).
Proof.
  intros H1 H2. rewrite trimLeft_spaces by assumption.
  rewrite (trimLeft_before_spaces ws2 H2 (List.length m) m (Nat.le_refl _)).
  destruct (strings.trimLeft m) as [|a r] eqn:E; [reflexivity|].
  apply trimRight_spaces. assumption.
Qed.

Lemma list_ascii_of_string_append a b :
  list_ascii_of_string (append a b)
  = list_ascii_of_string a ++ list_ascii_of_string b.
Proof. induction a as [|x a IH]; simpl; [reflexivity|]. rewrite IH. reflexivity. Qed.

Lemma list_ascii_of_joined ws : list_ascii_of_string (joined ws) = spaces ws.
Proof.
  unfold joined, spaces. induction ws as [|w ws IH]; simpl; [reflexivity|].
  rewrite list_ascii_of_string_append, IH. reflexivity.
Qed.

Lemma TrimSpace_joined ws1 m ws2 :
  forallb whiteSpace ws1 = true ->
  forallb whiteSpace ws2 = true ->
  strings.TrimSpace (append (joined ws1) (append m (joined ws2)))
  = strings.TrimSpace m.
Proof.
  intros H1 H2. unfold strings.TrimSpace.
  rewrite !list_ascii_of_string_append, !list_ascii_of_joined.
  rewrite trim_spaces by assumption. reflexivity.
Qed.

Lemma CutBefore_whole_append a b sep :
  strings.CutBefore a sep = a ->
  strings.CutBefore b sep = b ->
  strings.CutBefore (append a b) sep = append a b.
Proof.
  intros Ha Hb. induction a as [|x a IH]; simpl in *; [assumption|].
  destruct (Ascii.eqb x sep); [discriminate|].
  inversion Ha as [Ha']. rewrite Ha'. rewrite (IH Ha'). reflexivity.
Qed.

Lemma semicolon_no_space x :
  Ascii.eqb x ";" = true ->
  strings.isSpace x = false
  /\ (forall b, strings.isSpace2 x b = false) /\ (forall a, strings.isSpace2 a x = false)
  /\ (forall b c, strings.isSpace3 x b c = false)
  /\ (forall a c, strings.isSpace3 a x c = false)
  /\ (forall a b, strings.isSpace3 a b x = false).
Proof.
  intros H. apply Ascii.eqb_eq in H. subst x.
  repeat split; intros;
    unfold strings.isSpace, strings.isSpace2, strings.isSpace3; cbv zeta;
    change (nat_of_ascii ";") with 59%nat;
    repeat match goal with
           | |- context [Nat.eqb 59 ?n] => change (Nat.eqb 59 n) with false
           | |- context [Nat.leb ?n 59] => change (Nat.leb n 59) with false
           | |- context [Nat.leb 59 ?n] => change (Nat.leb 59 n) with false
           end;
    cbn [andb orb]; rewrite ?Bool.andb_false_r; reflexivity.
Qed.

Lemma CutBefore_whiteSpace w :
  whiteSpace w = true -> strings.CutBefore w ";" = w.
Proof.
  unfold whiteSpace.
  destruct w as [|a [|b [|c [|? ?]]]]; simpl; try discriminate; intros H.
  - destruct (Ascii.eqb a ";") eqn:Ea; [|reflexivity].
    destruct (semicolon_no_space a Ea) as (H1 & _). congruence.
  - destruct (Ascii.eqb a ";") eqn:Ea.
    { destruct (semicolon_no_space a Ea) as (_ & H1 & _). rewrite H1 in H. discriminate. }
    destruct (Ascii.eqb b ";") eqn:Eb; [|reflexivity].
    destruct (semicolon_no_space b Eb) as (_ & _ & H1 & _). rewrite H1 in H. discriminate.
  - destruct (Ascii.eqb a ";") eqn:Ea.
    { destruct (semicolon_no_space a Ea) as (_ & _ & _ & H1 & _).
      rewrite H1 in H. discriminate. }
    destruct (Ascii.eqb b ";") eqn:Eb.
    { destruct (semicolon_no_space b Eb) as (_ & _ & _ & _ & H1 & _).
      rewrite H1 in H. discriminate. }
    destruct (Ascii.eqb c ";") eqn:Ec; [|reflexivity].
    destruct (semicolon_no_space c Ec) as (_ & _ & _ & _ & _ & H1).
    rewrite H1 in H. discriminate.
Qed.

Lemma CutBefore_joined ws :
  forallb whiteSpace ws = true -> strings.CutBefore (joined ws) ";" = joined ws.
Proof.
  unfold joined. induction ws as [|w ws IH]; intros H; [reflexivity|].
  simpl in H. apply Bool.andb_true_iff in H. destruct H as [Hw Hws].
  cbn [fold_right]. apply CutBefore_whole_append;
    [apply CutBefore_whiteSpace; assumption|apply IH; assumption].
Qed.

(** X14.  The parameters of a content type play no part in the
    dispatch of the body: what follows the first semicolon is dropped and
    the white space around the type is trimmed (the white space of
    Unicode, in whatever number before and after the type), so that a
    URL-encoded form that declares, say, a charset is bound as a form. *)
Theorem media_type_parameters_are_dropped c ws1 m ws2 p :
  strings.CutBefore m ";" = m ->
  forallb whiteSpace ws1 = true ->
  forallb whiteSpace ws2 = true ->
  ContentType c
  = append (joined ws1) (append m (append (joined ws2) (String ";" p))) ->
  mediatype c = strings.TrimSpace m
  /\ (forall i params,
         strings.TrimSpace m = MIMEApplicationForm ->
         ContentLength c <> 0 ->
         FormParams c = (params, None) ->
         BindBody c i
         = let (i', err) := bindData params "form" [] i in (i', wrapBadRequest err)).
Proof.
  intros Hm H1 H2 Hct.
  assert (E : mediatype c = strings.TrimSpace m).
  { unfold mediatype. rewrite Hct.
    assert (Hsplit : append (joined ws1)
                       (append m (append (joined ws2) (String ";" p)))
                     = append (append (joined ws1) (append m (joined ws2)))
                              (String ";" p)).
    { clear. induction (joined ws1) as [|x a IH]; simpl.
      - induction m as [|y m IHm]; simpl; [reflexivity|]. rewrite IHm. reflexivity.
      - rewrite IH. reflexivity. }
    rewrite Hsplit, CutBefore_append.
    - apply TrimSpace_joined; assumption.
    - apply CutBefore_whole_append; [apply CutBefore_joined; assumption|].
      apply CutBefore_whole_append; [assumption|apply CutBefore_joined; assumption]. }
  split; [exact E|].
  intros i params Hform Hlen Hparams.
  apply BindBody_form; try assumption. rewrite E. assumption.
Qed.

(** ** No panic on well-shaped destinations *)

Ltac split_lets :=
  repeat match goal with
         | |- context [let (_, _) := ?x in _] => destruct x as [? ?]
         | |- context [match ?x with Some _ => _ | None => _ end] =>
             is_var x; destruct x
         | |- context [ofError ?x] => is_var x; destruct x
         end.

Lemma setters_never_panic val field why :
  (forall b, snd (setIntField val b field) <> Panic why)
  /\ (forall b, snd (setUintField val b field) <> Panic why)
  /\ snd (setBoolField val field) <> Panic why
  /\ (forall b, snd (setFloatField val b field) <> Panic why).
Proof.
  unfold setIntField, setUintField, setBoolField, setFloatField.
  repeat split; intros; split_lets; discriminate.
Qed.

Lemma shaped_Basic_kind d k v :
  shaped (reflect.Basic d k) v = true ->
  reflect.Kind_eqb k reflect.Pointer = false
  /\ reflect.Kind_eqb k reflect.Struct = false.
Proof.
  simpl. intros H. apply Bool.negb_true_iff in H.
  destruct (reflect.Kind_eqb k reflect.Pointer); [discriminate|].
  destruct (reflect.Kind_eqb k reflect.Struct); [discriminate|]. split; reflexivity.
Qed.

(** The receiver of a hook is there when the field has the shape of
    its type. *)
Lemma receiver_shaped t v :
  shaped t v = true ->
  exists e p back,
    receiver (reflect.KindOf t) t v = Some (e, p, back)
    /\ shaped e p = true
    /\ ((e = t /\ p = v /\ back = (fun x => x)
         /\ reflect.Kind_eqb (reflect.KindOf t) reflect.Pointer = false)
        \/ (t = reflect.PtrTo e /\ back = (fun x => reflect.VPtr (Some x)))).
Proof.
  intros Hs. unfold receiver.
  destruct t as [d k|e|d e|d key e| |d fs|].
  2: { simpl in *. destruct v as [| | | | |[x|]| | | | | |]; try discriminate Hs;
       eexists _, _, _; (split; [reflexivity|]); split; auto. }
  1: destruct (shaped_Basic_kind _ _ _ Hs) as [Hp _]; simpl; rewrite Hp.
  all: eexists _, v, (fun x => x);
    (split; [reflexivity|]); (split; [assumption|]);
    left; repeat split; assumption.
Qed.

Lemma unmarshalInputToField_shaped t val v :
  shaped t v = true ->
  exists v' ok err,
    unmarshalInputToField (reflect.KindOf t) val t v = (v', ok, err)
    /\ (forall why, err <> Panic why)
    /\ (ok = false ->
        shaped t v' = true
        /\ (forall e, t = reflect.PtrTo e ->
                      exists x, v' = reflect.VPtr (Some x) /\ shaped e x = true)
        /\ (reflect.Kind_eqb (reflect.KindOf t) reflect.Pointer = false -> v' = v)).
Proof.
  intros Hs. unfold unmarshalInputToField.
  destruct (receiver_shaped t v Hs) as (e & p & back & Hr & Hp & Hcase).
  rewrite Hr.
  assert (Hback : shaped t (back p) = true
                  /\ (forall e0, t = reflect.PtrTo e0 ->
                                 exists x, back p = reflect.VPtr (Some x)
                                           /\ shaped e0 x = true)
                  /\ (reflect.Kind_eqb (reflect.KindOf t) reflect.Pointer = false ->
                      back p = v)).
  { destruct Hcase as [(-> & -> & -> & Hk)|(-> & ->)].
    - repeat split; auto. intros e0 ->. discriminate Hk.
    - repeat split; auto.
      + intros e0 E. inversion E; subst. eauto.
      + discriminate. }
  destruct (reflect.methods e) as [[[up|] [ut|] ups]|].
  1,2: destruct (up val p) as [x [er|]]; eexists _, _, _;
    (split; [reflexivity|]); split; try discriminate.
  1: destruct (ut val p) as [x [er|]]; eexists _, _, _;
    (split; [reflexivity|]); split; try discriminate.
  all: eexists _, _, _; (split; [reflexivity|]); split; try discriminate;
    intros _; exact Hback.
Qed.

Lemma unmarshalInputsToField_shaped t values v :
  shaped t v = true ->
  exists v' ok err,
    unmarshalInputsToField (reflect.KindOf t) values t v = (v', ok, err)
    /\ (forall why, err <> Panic why)
    /\ (ok = false -> shaped t v' = true).
Proof.
  intros Hs. unfold unmarshalInputsToField.
  destruct (receiver_shaped t v Hs) as (e & p & back & Hr & Hp & Hcase).
  rewrite Hr.
  assert (Hback : shaped t (back p) = true).
  { destruct Hcase as [(-> & -> & -> & Hk)|(-> & ->)]; assumption. }
  destruct (reflect.methods e) as [[up ut [ups|]]|].
  1: destruct (ups values p) as [x [er|]]; eexists _, _, _;
    (split; [reflexivity|]); split; try discriminate.
  all: eexists _, _, _; (split; [reflexivity|]); split; try discriminate;
    intros _; exact Hback.
Qed.

Lemma setWithProperType_never_panics t : forall val v why,
  shaped t v = true -> snd (setWithProperType t val v) <> Panic why.
Proof.
  induction t as [d k|e IH|d e IH|d key e _ _| |d fs _|] using Typ_fields_ind;
    intros val v why Hs.
  all: destruct (unmarshalInputToField_shaped _ val v Hs)
      as (v' & ok & err & Hu & Herr & Hok).
  - cbn [setWithProperType]. rewrite Hu.
    destruct ok; [apply Herr|].
    destruct err; try (exfalso; eapply Herr; reflexivity);
      destruct (setters_never_panic val v' why) as (Hi & Hui & Hb & Hf);
      destruct k; simpl; auto; discriminate.
  - cbn [setWithProperType]. rewrite Hu.
    destruct ok; [apply Herr|].
    destruct (Hok eq_refl) as (_ & Hx & _).
    destruct (Hx e eq_refl) as (x & -> & Hsx).
    destruct err; try (exfalso; eapply Herr; reflexivity).
    + specialize (IH val x why Hsx).
      destruct (setWithProperType e val x). exact IH.
    + specialize (IH val x why Hsx).
      destruct (setWithProperType e val x). exact IH.
  - cbn [setWithProperType]. rewrite Hu.
    destruct ok; [apply Herr|].
    destruct err; try (exfalso; eapply Herr; reflexivity); discriminate.
  - cbn [setWithProperType]. rewrite Hu.
    destruct ok; [apply Herr|].
    destruct err; try (exfalso; eapply Herr; reflexivity); discriminate.
  - cbn [setWithProperType]. rewrite Hu.
    destruct ok; [apply Herr|].
    destruct err; try (exfalso; eapply Herr; reflexivity); discriminate.
  - cbn [setWithProperType]. rewrite Hu.
    destruct ok; [apply Herr|].
    destruct err; try (exfalso; eapply Herr; reflexivity); discriminate.
  - cbn [setWithProperType]. rewrite Hu.
    destruct ok; [apply Herr|].
    destruct err; try (exfalso; eapply Herr; reflexivity); discriminate.
Qed.

Lemma bindSlice_never_panics el : forall vs why,
  shaped el (reflect.Zero el) = true -> snd (bindSlice el vs) <> Panic why.
Proof.
  induction vs as [|v vs IH]; intros why Hs; simpl; [discriminate|].
  pose proof (setWithProperType_never_panics el v (reflect.Zero el) why Hs) as Hv.
  destruct (setWithProperType el v (reflect.Zero el)) as [x []]; simpl in *;
    try assumption.
  specialize (IH why Hs). destruct (bindSlice el vs). exact IH.
Qed.

Lemma lookup_In {V : Type} (m : list (string * V)) k v :
  lookup m k = Some v -> In (k, v) m.
Proof.
  induction m as [|[k0 v0] m IH]; simpl; [discriminate|].
  destruct (String.eqb k0 k) eqn:E.
  - apply String.eqb_eq in E. intros H. inversion H; subst. left. reflexivity.
  - intros H. right. apply IH. assumption.
Qed.

Lemma resolve_In data name v :
  resolve data name = Some v -> exists k, In (k, v) data.
Proof.
  unfold resolve. destruct (lookup data name) as [x|] eqn:E.
  - intros H. inversion H; subst. exists name. apply lookup_In. assumption.
  - clear E. induction data as [|[k0 v0] data IH]; simpl; [discriminate|].
    destruct (strings.EqualFold EqualFoldUnicode k0 name).
    + intros H. inversion H; subst. exists k0. left. reflexivity.
    + intros H. destruct (IH H) as [k Hk]. exists k. right. assumption.
Qed.

Lemma shaped_Pointer_kind t v :
  shaped t v = true ->
  reflect.Kind_eqb (reflect.KindOf t) reflect.Pointer = true ->
  exists e, t = reflect.PtrTo e.
Proof.
  intros Hs Hk. destruct t; try discriminate Hk; eauto.
  destruct (shaped_Basic_kind _ _ _ Hs) as [Hp _]. simpl in Hk. congruence.
Qed.

Lemma bindNamed_never_panics data name t v why :
  valued data ->
  shaped t v = true ->
  snd (bindNamed data (reflect.KindOf t) name t v) <> Panic why.
Proof.
  intros Hval Hs. unfold bindNamed.
  destruct (resolve data name) as [inputValue|] eqn:Hres; [|discriminate].
  destruct (resolve_In _ _ _ Hres) as [k Hin]. pose proof (Hval _ _ Hin) as Hne.
  destruct (unmarshalInputsToField_shaped t inputValue v Hs)
    as (v1 & ok1 & err1 & Hu1 & Herr1 & Hok1).
  rewrite Hu1. destruct ok1; [apply Herr1|]. specialize (Hok1 eq_refl).
  assert (Hgo : snd (match inputValue with
                     | [] => (v1, Panic "index out of range [0] with length 0")
                     | first :: _ =>
                         match unmarshalInputToField (reflect.KindOf t) first t v1 with
                         | (fv, true, err) => (fv, err)
                         | (fv, false, Panic why0) => (fv, Panic why0)
                         | (fv, false, _) =>
                             let target :=
                               if reflect.Kind_eqb (reflect.KindOf t) reflect.Pointer then
                                 match t, fv with
                                 | reflect.PtrTo e, reflect.VPtr (Some p) =>
                                     Some (e, p, fun x => reflect.VPtr (Some x))
                                 | _, _ => None
                                 end
                               else Some (t, fv, fun x => x) in
                             match target with
                             | None => (fv, Panic "reflect: Elem of a nil pointer")
                             | Some (reflect.SliceOf d sliceOf, _, back) =>
                                 match bindSlice sliceOf inputValue with
                                 | (slice, Done) => (back (reflect.VSlice slice), Done)
                                 | (_, err) => (fv, err)
                                 end
                             | Some (ft', fv', back) =>
                                 let (fv'', err) := setWithProperType ft' first fv' in
                                 (back fv'', err)
                             end
                         end
                     end) <> Panic why).
  { destruct inputValue as [|first rest]; [contradiction|].
    destruct (unmarshalInputToField_shaped t first v1 Hok1)
      as (v2 & ok2 & err2 & Hu2 & Herr2 & Hok2).
    rewrite Hu2. destruct ok2; [apply Herr2|].
    destruct (Hok2 eq_refl) as (Hs2 & Hptr & _).
    assert (Hfin : forall ft' fv' (back : reflect.Value -> reflect.Value),
      shaped ft' fv' = true ->
      snd (match ft' with
           | reflect.SliceOf d sliceOf =>
               match bindSlice sliceOf (first :: rest) with
               | (slice, Done) => (back (reflect.VSlice slice), Done)
               | (_, err) => (v2, err)
               end
           | _ => let (fv'', err) := setWithProperType ft' first fv' in
                  (back fv'', err)
           end) <> Panic why).
    { intros ft' fv' back Hs'.
      pose proof (setWithProperType_never_panics ft' first fv' why Hs') as Hset.
      destruct ft' as [d0 k0|e|d0 e|d0 key e| |d0 fs|];
        try (destruct (setWithProperType _ first fv'); exact Hset).
      pose proof (bindSlice_never_panics e (first :: rest) why Hs') as Hsl.
      destruct (bindSlice e (first :: rest)) as [sl []]; simpl in *;
        try assumption; discriminate. }
    destruct (reflect.Kind_eqb (reflect.KindOf t) reflect.Pointer) eqn:Hk.
    - destruct (shaped_Pointer_kind _ _ Hs Hk) as [e ->].
      destruct (Hptr e eq_refl) as (x & -> & Hsx).
      specialize (Hfin e x (fun x => reflect.VPtr (Some x)) Hsx).
      destruct err2; try (exfalso; eapply Herr2; reflexivity);
        cbv zeta; destruct e; exact Hfin.
    - specialize (Hfin t v2 (fun x => x) Hs2).
      destruct err2; try (exfalso; eapply Herr2; reflexivity);
        cbv zeta; destruct t; exact Hfin. }
  destruct err1; try (exfalso; eapply Herr1; reflexivity); exact Hgo.
Qed.

Lemma bindStructField_never_panics data tag dataFiles nested typeField ft fv why :
  valued data ->
  shaped ft fv = true ->
  (forall why0, snd (nested fv) <> Panic why0) ->
  reflect.KindOf (reflect.Type_ typeField) = reflect.KindOf ft
  \/ (reflect.Anonymous typeField = true
      /\ reflect.Kind_eqb (reflect.KindOf ft) reflect.Struct = true) ->
  snd (bindStructField data tag dataFiles nested typeField ft fv) <> Panic why.
Proof.
  intros Hval Hs Hnested Hkind. unfold bindStructField.
  destruct (negb (reflect.exported typeField)); [discriminate|].
  destruct (reflect.Anonymous typeField
            && reflect.Kind_eqb (reflect.KindOf ft) reflect.Struct
            && negb (String.eqb (reflect.Get (reflect.Tag typeField) tag) ""))%bool
    eqn:Eanon; [discriminate|].
  destruct (String.eqb (reflect.Get (reflect.Tag typeField) tag) "") eqn:Etag.
  { match goal with |- snd (if ?c then _ else _) <> _ => destruct c end;
      [apply Hnested|discriminate]. }
  assert (Hk : reflect.KindOf (reflect.Type_ typeField) = reflect.KindOf ft).
  { destruct Hkind as [H|[Ha Hst]]; [assumption|].
    rewrite Ha, Hst in Eanon. discriminate Eanon. }
  rewrite Hk.
  pose proof (bindNamed_never_panics data (reflect.Get (reflect.Tag typeField) tag)
                                     ft fv why Hval Hs) as Hnamed.
  destruct dataFiles as [|df dfs]; [exact Hnamed|].
  destruct (isFieldMultipartFile ft) as [[|] [e|]]; try discriminate;
    try exact Hnamed.
  destruct (setMultipartFileHeaderTypes ft fv _ _) as [x []];
    [discriminate|exact Hnamed].
Qed.

Lemma bindField_never_panics data tag dataFiles self typeField field why :
  valued data ->
  shapedField typeField field = true ->
  (forall v why0, shaped (reflect.Type_ typeField) v = true ->
                  snd (self (reflect.Type_ typeField) v) <> Panic why0) ->
  (forall e v why0, reflect.Type_ typeField = reflect.PtrTo e ->
                    shaped e v = true -> snd (self e v) <> Panic why0) ->
  snd (bindField data tag dataFiles self typeField field) <> Panic why.
Proof.
  intros Hval Hsf Hself Hselfp. unfold shapedField in Hsf.
  apply Bool.andb_true_iff in Hsf. destruct Hsf as [Hanon Hs].
  unfold bindField.
  destruct (reflect.Anonymous typeField) eqn:Ea.
  - destruct (reflect.Type_ typeField) as [d k|e|d e|d key e| |d fs|] eqn:Et.
    2: { simpl in Hs. destruct field as [| | | | |[p|]| | | | | |];
           try discriminate.
         pose proof (bindStructField_never_panics data tag dataFiles (self e)
                       typeField e p why Hval Hs
                       (fun why0 => Hselfp e p why0 eq_refl Hs)
                       (or_intror (conj Ea Hanon))) as H.
         destruct (bindStructField _ _ _ _ _ _ _). exact H. }
    all: apply bindStructField_never_panics; try assumption;
      [intros why0; apply Hself; assumption|left; rewrite Et; reflexivity].
  - apply bindStructField_never_panics; try assumption;
      [intros why0; apply Hself; assumption|left; reflexivity].
Qed.

Lemma bindFields_never_panics data tag dataFiles self d typeFields :
  forall fields why,
    valued data ->
    shaped (reflect.StructOf d typeFields) (reflect.VStruct fields) = true ->
    Forall (fun f =>
              (forall v why0, shaped (reflect.Type_ f) v = true ->
                              snd (self (reflect.Type_ f) v) <> Panic why0)
              /\ (forall e v why0, reflect.Type_ f = reflect.PtrTo e ->
                                   shaped e v = true ->
                                   snd (self e v) <> Panic why0)) typeFields ->
    snd (bindFields data tag dataFiles self typeFields fields) <> Panic why.
Proof.
  induction typeFields as [|tf tfs IH]; intros fields why Hval Hs Hall.
  - destruct fields; discriminate.
  - destruct fields as [|x xs]; [discriminate Hs|].
    assert (Hsplit : shapedField tf x = true
                     /\ shaped (reflect.StructOf d tfs) (reflect.VStruct xs) = true).
    { simpl in Hs. destruct tf as [n ft g anon ex].
      apply Bool.andb_true_iff in Hs. destruct Hs as [H1 H2]. split; assumption. }
    destruct Hsplit as [Hsf Hrest].
    inversion Hall as [|? ? [Hself Hselfp] Hall']; subst.
    pose proof (bindField_never_panics data tag dataFiles self tf x why
                  Hval Hsf Hself Hselfp) as Hturn.
    simpl. destruct (bindField data tag dataFiles self tf x) as [x' []];
      simpl in *; try assumption.
    specialize (IH xs why Hval Hrest Hall').
    destruct (bindFields data tag dataFiles self tfs xs). exact IH.
Qed.

Lemma bindMapEntries_never_panics key elem m : forall entries why,
  settable key elem = true ->
  valued m -> snd (bindMapEntries key elem m entries) <> Panic why.
Proof.
  induction m as [|[k v] rest IH]; intros entries why Hset Hval; [discriminate|].
  rewrite bindMapEntries_cons, Hset.
  assert (Hv : v <> []) by (apply (Hval k); left; reflexivity).
  assert (Hm : exists x, mapEntry (reflect.KindOf elem) v = Some x).
  { unfold mapEntry.
    destruct (reflect.Kind_eqb (reflect.KindOf elem) reflect.String);
      [destruct v; [contradiction|eauto]|].
    destruct (reflect.Kind_eqb (reflect.KindOf elem) reflect.Interface);
      [destruct v; [contradiction|eauto]|eauto]. }
  destruct Hm as [x ->]. apply IH; [assumption|].
  intros k' v' Hin. apply (Hval k'). right. assumption.
Qed.

(** A fillable map that the map branch fills takes what the loop hands
    to it. *)
Lemma fillable_settable key elem :
  fillable key elem = true ->
  negb (match elem with
        | reflect.SliceOf _ e => reflect.Kind_eqb (reflect.KindOf e) reflect.String
        | _ => false
        end
        || reflect.Kind_eqb (reflect.KindOf elem) reflect.String
        || reflect.Kind_eqb (reflect.KindOf elem) reflect.Interface) = false ->
  settable key elem = true.
Proof.
  unfold fillable, settable. intros Hf Hsup.
  destruct elem as [[?|] k|e|d e|d ke e|[|n]|d fs|]; simpl in *;
    try discriminate Hsup; try discriminate Hf.
  all: try (destruct k; simpl in *; try discriminate Hsup; try discriminate Hf).
  all: try (destruct e as [[?|] []| | | | | |]; simpl in *;
            try discriminate Hsup; try discriminate Hf).
  all: destruct key as [[?|] []| | | | | |]; try discriminate Hf; reflexivity.
Qed.

Lemma bindValue_never_panics data tag dataFiles :
  valued data ->
  forall typ,
    (forall val why, shaped typ val = true ->
                     snd (bindValue data tag dataFiles typ val) <> Panic why)
    /\ (forall e, typ = reflect.PtrTo e ->
                  forall val why, shaped e val = true ->
                                  snd (bindValue data tag dataFiles e val) <> Panic why).
Proof.
  intros Hval typ.
  induction typ as [d k|e [IH _]|d e _|d key e _ _| |d fs IH|] using Typ_fields_ind.
  - split; [|discriminate]. intros val why Hs.
    destruct (shaped_Basic_kind _ _ _ Hs) as [_ Hst].
    simpl. rewrite Hst. simpl.
    destruct (noData data dataFiles); [discriminate|].
    destruct (_ || _)%bool; discriminate.
  - split.
    + intros val why Hs. simpl.
      destruct (noData data dataFiles); [discriminate|].
      destruct (_ || _)%bool; discriminate.
    + intros e0 E. inversion E; subst. exact IH.
  - split; [|discriminate]. intros val why Hs. simpl.
    destruct (noData data dataFiles); [discriminate|].
    destruct (_ || _)%bool; discriminate.
  - split; [|discriminate]. intros val why Hs. simpl in *.
    destruct (noData data dataFiles); [discriminate|].
    destruct (reflect.Kind_eqb (reflect.KindOf key) reflect.String).
    + apply Bool.andb_true_iff in Hs. destruct Hs as [Hfill Hv].
      destruct (negb _) eqn:Hsup; [discriminate|].
      destruct val; try discriminate Hv.
      pose proof (bindMapEntries_never_panics key e data
                    (match entries with None => [] | Some es => es end) why
                    (fillable_settable key e Hfill Hsup) Hval) as H.
      destruct (bindMapEntries _ _ _ _). exact H.
    + destruct (_ || _)%bool; discriminate.
  - split; [|discriminate]. intros val why Hs. simpl.
    destruct (noData data dataFiles); [discriminate|].
    destruct (_ || _)%bool; discriminate.
  - split; [|discriminate]. intros val why Hs.
    destruct val; try discriminate Hs.
    destruct (noData data dataFiles) eqn:Hno.
    + simpl. rewrite Hno. discriminate.
    + rewrite bindValue_struct by assumption.
      pose proof (bindFields_never_panics data tag dataFiles
                    (bindValue data tag dataFiles) d fs fields why Hval Hs) as H.
      destruct (bindFields _ _ _ _ _ _) as [xs o]. apply H.
      eapply Forall_impl; [|exact IH].
      intros f [H1 H2]. split.
      * exact H1.
      * intros e v why0 E. apply H2. assumption.
  - split; [|discriminate]. intros val why Hs. simpl.
    destruct (noData data dataFiles); discriminate.
Qed.

Lemma store_valued (m : Data) k v : valued m -> v <> [] -> valued (store m k v).
Proof.
  intros Hm Hv. induction m as [|[k0 v0] m IH]; simpl.
  - intros k' v' [E|[]]. inversion E; subst. assumption.
  - destruct (String.eqb k0 k).
    + intros k' v' [E|Hin]; [inversion E; subst; assumption|].
      apply (Hm k'). right. assumption.
    + intros k' v' [E|Hin]; [apply (Hm k'); left; assumption|].
      apply (IH (fun k1 v1 H => Hm k1 v1 (or_intror H)) k' v'). assumption.
Qed.

Lemma pathParams_valued names : forall values params params',
  valued params -> pathParams names values params = Some params' -> valued params'.
Proof.
  induction names as [|n ns IH]; intros values params params' Hp; simpl.
  - intros H; inversion H; subst. assumption.
  - destruct values as [|v vs]; [discriminate|].
    apply IH. apply store_valued; [assumption|discriminate].
Qed.

(** X15.  On a destination that has the shape of its type, [bindData]
    does not panic as long as every key of the value map has a value
    (the decoding hooks being taken not to panic themselves).  So neither
    the query phase nor the header phase panics on the maps that
    [net/url] and [net/http] build, and the path phase does not panic
    when there is a value for every parameter name. *)
Theorem bindData_never_panics typ val :
  shaped typ val = true ->
  (forall data tag dataFiles why,
      valued data ->
      snd (bindData data tag dataFiles (DPtr typ val)) <> Panic why)
  /\ (forall c why,
         valued (QueryParams c) ->
         snd (BindQueryParams c (DPtr typ val)) <> Panic why)
  /\ (forall c why,
         valued (Header c) ->
         snd (BindHeaders c (DPtr typ val)) <> Panic why)
  /\ (forall c why,
         (List.length (ParamNames c) <= List.length (ParamValues c))%nat ->
         snd (BindPathParams c (DPtr typ val)) <> Panic why).
Proof.
  intros Hs.
  assert (Hbind : forall data tag dataFiles why,
    valued data ->
    snd (bindData data tag dataFiles (DPtr typ val)) <> Panic why).
  { intros data tag dataFiles why Hval. unfold bindData.
    pose proof (proj1 (bindValue_never_panics data tag dataFiles Hval typ)
                      val why Hs) as H.
    destruct (bindValue data tag dataFiles typ val). exact H. }
  assert (Hwrap : forall data tag why,
    valued data ->
    snd (let (i', err) := bindData data tag [] (DPtr typ val) in
         (i', wrapBadRequest err)) <> Panic why).
  { intros data tag why Hval. specialize (Hbind data tag [] why Hval).
    destruct (bindData data tag [] (DPtr typ val)) as [i' []]; simpl in *;
      try assumption; discriminate. }
  split; [exact Hbind|split; [|split]].
  - intros c why Hval. apply Hwrap. assumption.
  - intros c why Hval. apply Hwrap. assumption.
  - intros c why Hlen. unfold BindPathParams.
    destruct (pathParams (ParamNames c) (ParamValues c) []) as [params|] eqn:E.
    + apply Hwrap. eapply pathParams_valued; [|exact E]. intros k v [].
    + apply pathParams_None in E. lia.
Qed.


(** ** Embedded pointers and nested structs *)

(** X16.  An exported embedded pointer that is not nil, points to a
    type that is no struct and carries a tag for the active tag key makes
    [bindData] panic as soon as the data has a value under that name
    (also under another case) and the fields declared before it have been
    bound: the hooks are looked up with the kind of the declared type, a
    pointer, on the value the pointer has already been followed to. *)
Theorem tagged_embedded_pointer_panics
        data tag dataFiles d pre typeField post vpre e p vpost vpre' inputValue :
  List.length pre = List.length vpre ->
  bindFields data tag dataFiles (bindValue data tag dataFiles) pre vpre
  = (vpre', Done) ->
  reflect.Anonymous typeField = true ->
  reflect.exported typeField = true ->
  reflect.Type_ typeField = reflect.PtrTo e ->
  reflect.KindOf e <> reflect.Struct ->
  reflect.KindOf e <> reflect.Pointer ->
  reflect.Get (reflect.Tag typeField) tag <> "" ->
  usesFiles dataFiles e = false ->
  resolve data (reflect.Get (reflect.Tag typeField) tag) = Some inputValue ->
  exists why,
    bindData data tag dataFiles
             (DPtr (reflect.StructOf d (pre ++ typeField :: post))
                   (reflect.VStruct (vpre ++ reflect.VPtr (Some p) :: vpost)))
    = (DPtr (reflect.StructOf d (pre ++ typeField :: post))
            (reflect.VStruct (vpre' ++ reflect.VPtr (Some p) :: vpost)),
       Panic why).
Proof.
  intros Hlen Hpre Hanon Hexp Ht Hstruct Hptr Htag Hfiles Hres.
  assert (Hturn : exists why,
    bindField data tag dataFiles (bindValue data tag dataFiles) typeField
              (reflect.VPtr (Some p))
    = (reflect.VPtr (Some p), Panic why)).
  { unfold bindField, bindStructField. rewrite Hanon, Ht, Hexp.
    apply String.eqb_neq in Htag. rewrite Htag.
    assert (Hk : reflect.Kind_eqb (reflect.KindOf e) reflect.Struct = false).
    { destruct (reflect.KindOf e); try reflexivity. contradiction Hstruct; reflexivity. }
    rewrite Hk. cbn [negb andb reflect.KindOf].
    assert (Hfile : match dataFiles with
                    | [] => True
                    | _ => isFieldMultipartFile e = (false, None)
                    end).
    { unfold usesFiles in Hfiles. destruct dataFiles; [exact I|].
      apply isFieldMultipartFile_false. assumption. }
    assert (Hnamed : exists why,
      bindNamed data reflect.Pointer (reflect.Get (reflect.Tag typeField) tag) e p
      = (p, Panic why)).
    { unfold bindNamed, unmarshalInputsToField, receiver. rewrite Hres.
      cbn [reflect.Kind_eqb].
      destruct e; try (eexists; reflexivity).
      contradiction Hptr; reflexivity. }
    destruct Hnamed as [why Hnamed]. exists why.
    destruct dataFiles as [|df dfs]; [|rewrite Hfile]; rewrite Hnamed; reflexivity. }
  destruct Hturn as [why Hturn]. exists why.
  erewrite bindData_at;
    [|eapply resolve_Some_noData; eassumption|assumption|eassumption|eassumption].
  reflexivity.
Qed.

(** X17.  An exported field of kind struct without a tag for the
    active tag key, embedded or not, whose type has no [UnmarshalParam]
    hook, is bound in place from the same data under the same tag key:
    the field ends as [bindData] leaves a destination of its type, and
    an error of the nested binding is the error of the whole. *)
Theorem untagged_struct_field_is_bound_in_place
        data tag dataFiles d pre typeField post vpre field vpost vpre' :
  noData data dataFiles = false ->
  List.length pre = List.length vpre ->
  bindFields data tag dataFiles (bindValue data tag dataFiles) pre vpre
  = (vpre', Done) ->
  reflect.exported typeField = true ->
  reflect.Get (reflect.Tag typeField) tag = "" ->
  reflect.KindOf (reflect.Type_ typeField) = reflect.Struct ->
  (forall ms, reflect.methods (reflect.Type_ typeField) = Some ms ->
              reflect.UnmarshalParam ms = None) ->
  exists field' err,
    bindData data tag dataFiles (DPtr (reflect.Type_ typeField) field)
    = (DPtr (reflect.Type_ typeField) field', err)
    /\ bindData data tag dataFiles
                (DPtr (reflect.StructOf d (pre ++ typeField :: post))
                      (reflect.VStruct (vpre ++ field :: vpost)))
       = if isDone err then
           let (vpost', err') :=
             bindFields data tag dataFiles (bindValue data tag dataFiles)
                        post vpost in
           (DPtr (reflect.StructOf d (pre ++ typeField :: post))
                 (reflect.VStruct (vpre' ++ field' :: vpost')), err')
         else
           (DPtr (reflect.StructOf d (pre ++ typeField :: post))
                 (reflect.VStruct (vpre' ++ field' :: vpost)), err).
Proof.
  intros Hno Hlen Hpre Hexp Htag Hk Hhook.
  destruct (bindValue data tag dataFiles (reflect.Type_ typeField) field)
    as [field' err] eqn:Enested.
  exists field', err. split.
  - unfold bindData. rewrite Enested. reflexivity.
  - apply bindData_at; try assumption.
    unfold bindField, bindStructField. rewrite Hexp, Htag, Hk.
    assert (Hno_hook : match reflect.methods (reflect.Type_ typeField) with
                       | Some {| reflect.UnmarshalParam := Some _ |} => true
                       | _ => false
                       end = false).
    { destruct (reflect.methods (reflect.Type_ typeField)) as [[[h|] ? ?]|] eqn:Em;
        try reflexivity.
      specialize (Hhook _ eq_refl). discriminate Hhook. }
    rewrite Hno_hook. cbn [negb andb orb reflect.Kind_eqb String.eqb].
    rewrite Bool.andb_false_r. cbn [negb andb].
    destruct (reflect.Anonymous typeField); [|exact Enested].
    destruct (reflect.Type_ typeField); try discriminate Hk; exact Enested.
Qed.

End Binder.

(** * The properties at work *)

(** The path phase binds 5; the body phase, which comes last, binds 1. *)
Example path_then_body :
  BindPathParams sampleFold sampleParseFloat samplePost (DPtr tUser (reflect.Zero tUser))
  = (DPtr tUser (reflect.VStruct [reflect.VInt 5]), Done)
  /\ Bind sampleFold sampleParseFloat sampleDecode sampleDecode
          (DPtr tUser (reflect.Zero tUser)) samplePost
     = (DPtr tUser (reflect.VStruct [reflect.VInt 1]), Done).
Proof. split; reflexivity. Qed.

Lemma Bind_phases_in_order_last_wins_witness :
  (exists bound,
      (forall old,
          setWithProperType sampleParseFloat tInt "1" old = (bound, Done))
      /\ nth_error [reflect.VInt 1] 0 = Some bound)
  /\ (exists bound,
         (forall old,
             setWithProperType sampleParseFloat tInt "7" old = (bound, Done))
         /\ nth_error [reflect.VInt 7] 0 = Some bound).
Proof.
  split.
  - apply (proj1 (proj2 (Bind_phases_in_order_last_wins
                           sampleFold sampleParseFloat sampleDecode sampleDecode
                           (DPtr tUser (reflect.Zero tUser)) samplePost))
                 None [fID] [reflect.VInt 0] [reflect.VInt 1] 0%nat fID
                 None reflect.Int "id" [("id", ["1"; "7"])] "1" ["7"]).
    all: try reflexivity.
    all: discriminate.
  - apply (proj2 (proj2 (Bind_phases_in_order_last_wins
                           sampleFold sampleParseFloat sampleDecode sampleDecode
                           (DPtr tUser (reflect.Zero tUser)) sampleGet))
                 None [fID] [reflect.VInt 0] [reflect.VInt 7] 0%nat fID
                 None reflect.Int "id" "7" []).
    all: try reflexivity.
    all: discriminate.
Defined.

(** Under GET the query phase overrides the path phase; under POST, with
    no body, the query is not looked at although its key is the name of
    the field. *)
Example query_only_without_body :
  Bind sampleFold sampleParseFloat sampleDecode sampleDecode
       (DPtr tUser (reflect.Zero tUser)) sampleGet
  = (DPtr tUser (reflect.VStruct [reflect.VInt 7]), Done)
  /\ Bind sampleFold sampleParseFloat sampleDecode sampleDecode
          (DPtr tUser (reflect.Zero tUser))
          {| ParamNames := ["id"]; ParamValues := ["5"];
             QueryParams := [("id", ["7"])]; Method := "POST";
             ContentLength := 0; ContentType := "";
             FormParams := ([("id", ["7"])], None);
             MultipartForm := (([], []), None); Header := [] |}
     = (DPtr tUser (reflect.VStruct [reflect.VInt 5]), Done).
Proof. split; reflexivity. Qed.

Lemma Bind_query_phase_only_for_get_delete_head_witness :
  (Bind sampleFold sampleParseFloat sampleDecode sampleDecode
        (DPtr tUser (reflect.Zero tUser)) samplePost
   = match BindPathParams sampleFold sampleParseFloat samplePost
                          (DPtr tUser (reflect.Zero tUser)) with
     | (i1, Done) => BindBody sampleFold sampleParseFloat sampleDecode sampleDecode samplePost i1
     | r => r
     end)
  /\ Bind sampleFold sampleParseFloat sampleDecode sampleDecode
          (DPtr tUser (reflect.Zero tUser))
          (withQueryParams samplePost [("id", ["9"])])
     = Bind sampleFold sampleParseFloat sampleDecode sampleDecode
            (DPtr tUser (reflect.Zero tUser)) samplePost
  /\ Bind sampleFold sampleParseFloat sampleDecode sampleDecode
          (DPtr tUser (reflect.Zero tUser)) sampleGet
     = match BindPathParams sampleFold sampleParseFloat sampleGet
                            (DPtr tUser (reflect.Zero tUser)) with
       | (i1, Done) =>
           match BindQueryParams sampleFold sampleParseFloat sampleGet i1 with
           | (i2, Done) =>
               BindBody sampleFold sampleParseFloat sampleDecode sampleDecode sampleGet i2
           | r => r
           end
       | r => r
       end.
Proof.
  pose proof (proj1 (Bind_query_phase_only_for_get_delete_head
                       sampleFold sampleParseFloat sampleDecode sampleDecode
                       (DPtr tUser (reflect.Zero tUser)) samplePost)) as Hpost.
  pose proof (proj2 (Bind_query_phase_only_for_get_delete_head
                       sampleFold sampleParseFloat sampleDecode sampleDecode
                       (DPtr tUser (reflect.Zero tUser)) sampleGet)) as Hget.
  assert (Hg : Method samplePost <> http.MethodGet) by discriminate.
  assert (Hd : Method samplePost <> http.MethodDelete) by discriminate.
  assert (Hh : Method samplePost <> http.MethodHead) by discriminate.
  destruct (Hpost Hg Hd Hh) as [Horder Hquery].
  split; [|split].
  - exact Horder.
  - apply Hquery; reflexivity.
  - apply Hget. left. reflexivity.
Defined.

(** With no data at all the embedded field with a tag goes unnoticed. *)
Lemma embedded_tag_unnoticed_without_data :
  ~ (forall data tag dataFiles d typeFields fields typeField,
        In typeField typeFields ->
        reflect.Anonymous typeField = true ->
        reflect.KindOf (reflect.Type_ typeField) = reflect.Struct ->
        reflect.Get (reflect.Tag typeField) tag <> "" ->
        bindData sampleFold sampleParseFloat data tag dataFiles
                 (DPtr (reflect.StructOf d typeFields) (reflect.VStruct fields))
        = (DPtr (reflect.StructOf d typeFields) (reflect.VStruct fields),
           Fail errAnonymousTag)).
Proof.
  intros H.
  specialize (H [] "query" [] None
                [reflect.mkStructField "B" tString [("query", "b")] false true;
                 reflect.mkStructField "Inner" tInner [("query", "inner")] true true]
                [reflect.VString ""; reflect.VStruct [reflect.VString ""]]
                (reflect.mkStructField "Inner" tInner [("query", "inner")] true true)).
  assert (Hin : In (reflect.mkStructField "Inner" tInner [("query", "inner")] true true)
                   [reflect.mkStructField "B" tString [("query", "b")] false true;
                    reflect.mkStructField "Inner" tInner [("query", "inner")] true true])
    by (right; left; reflexivity).
  specialize (H Hin eq_refl eq_refl ltac:(discriminate)).
  discriminate H.
Qed.

(** With data, the field declared before the embedded one is bound
    before the walk fails, and stays bound. *)
Example embedded_tag_after_bound_field :
  bindData sampleFold sampleParseFloat [("b", ["x"])] "query" []
           (DPtr tOuter (reflect.Zero tOuter))
  = (DPtr tOuter (reflect.VStruct [reflect.VString "x";
                                   reflect.VStruct [reflect.VString ""]]),
     Fail errAnonymousTag).
Proof. reflexivity. Qed.

(** An embedded field the binder cannot set is passed over, tag or not:
    one whose type is not exported, and a pointer that is nil. *)
Example embedded_tag_passed_over :
  bindData sampleFold sampleParseFloat [("b", ["x"])] "query" []
           (DPtr (reflect.StructOf None
                    [reflect.mkStructField "inner" tInner [("query", "inner")] true false])
                 (reflect.VStruct [reflect.VStruct [reflect.VString ""]]))
  = (DPtr (reflect.StructOf None
             [reflect.mkStructField "inner" tInner [("query", "inner")] true false])
          (reflect.VStruct [reflect.VStruct [reflect.VString ""]]), Done)
  /\ bindData sampleFold sampleParseFloat [("b", ["x"])] "query" []
              (DPtr (reflect.StructOf None
                       [reflect.mkStructField "Inner" (reflect.PtrTo tInner)
                                              [("query", "inner")] true true])
                    (reflect.VStruct [reflect.VPtr None]))
     = (DPtr (reflect.StructOf None
                [reflect.mkStructField "Inner" (reflect.PtrTo tInner)
                                       [("query", "inner")] true true])
             (reflect.VStruct [reflect.VPtr None]), Done).
Proof. split; reflexivity. Qed.

Lemma bindData_embedded_tag_fails_witness :
  exists vpre' err,
    bindFields sampleFold sampleParseFloat [("zzz", ["x"])] "query" []
               (bindValue sampleFold sampleParseFloat [("zzz", ["x"])] "query" [])
               [reflect.mkStructField "B" tString [("query", "b")] false true]
               [reflect.VString "old"]
    = (vpre', err)
    /\ bindData sampleFold sampleParseFloat [("zzz", ["x"])] "query" []
                (DPtr tOuter (reflect.VStruct [reflect.VString "old";
                                               reflect.VStruct [reflect.VString ""]]))
       = (DPtr tOuter (reflect.VStruct (vpre' ++ [reflect.VStruct [reflect.VString ""]])),
          if isDone err then Fail errAnonymousTag else err).
Proof.
  apply (bindData_embedded_tag_fails
           sampleFold sampleParseFloat [("zzz", ["x"])] "query" [] None
           [reflect.mkStructField "B" tString [("query", "b")] false true]
           (reflect.mkStructField "Inner" tInner [("query", "inner")] true true)
           []
           [reflect.VString "old"] (reflect.VStruct [reflect.VString ""]) []).
  all: try reflexivity.
  all: discriminate.
Defined.

Lemma empty_value_binds_zero_witness :
  setWithProperType sampleParseFloat (reflect.Basic None reflect.Float64) ""
                    (reflect.VFloat 7)
  = (reflect.VFloat 0, Done)
  /\ bindField sampleFold sampleParseFloat [("count", [""])] "query" []
               (bindValue sampleFold sampleParseFloat [("count", [""])] "query" [])
               fCount (reflect.VInt 7)
     = (reflect.VInt 0, Done)
  /\ bindField sampleFold sampleParseFloat [("other", [""])] "query" []
               (bindValue sampleFold sampleParseFloat [("other", [""])] "query" [])
               fCount (reflect.VInt 7)
     = (reflect.VInt 7, Done).
Proof.
  split; [|split].
  - apply (proj1 (empty_value_binds_zero sampleFold sampleParseFloat None reflect.Float64
                    eq_refl eq_refl eq_refl eq_refl)).
  - apply (proj1 (proj1 (proj2 (empty_value_binds_zero sampleFold sampleParseFloat None reflect.Int
                                  eq_refl eq_refl eq_refl eq_refl))
                        [("count", [""])] "query" [] _ fCount (reflect.VInt 7) "count"
                        eq_refl eq_refl eq_refl eq_refl ltac:(discriminate))
                 []).
    reflexivity.
  - apply (proj2 (proj1 (proj2 (empty_value_binds_zero sampleFold sampleParseFloat None reflect.Int
                                  eq_refl eq_refl eq_refl eq_refl))
                        [("other", [""])] "query" [] _ fCount (reflect.VInt 7) "count"
                        eq_refl eq_refl eq_refl eq_refl ltac:(discriminate))).
    reflexivity.
Defined.

Lemma slice_field_binds_every_value_witness :
  (exists slice,
      bindField sampleFold sampleParseFloat [("n", ["1"; "2"; "3"])] "query" []
                (bindValue sampleFold sampleParseFloat [("n", ["1"; "2"; "3"])] "query" [])
                fN (reflect.VSlice [])
      = (reflect.VSlice slice, Done)
      /\ List.length slice = 3%nat
      /\ forall j val,
          nth_error ["1"; "2"; "3"] j = Some val ->
          nth_error slice j
          = Some (fst (setWithProperType sampleParseFloat tInt val (reflect.Zero tInt))))
  /\ bindField sampleFold sampleParseFloat [("n", ["1"; "x"; "3"])] "query" []
               (bindValue sampleFold sampleParseFloat [("n", ["1"; "x"; "3"])] "query" [])
               fN (reflect.VSlice [reflect.VInt 9])
     = (reflect.VSlice [reflect.VInt 9],
        Fail (NumError "ParseInt" "x" strconv.ErrSyntax)).
Proof.
  split.
  - apply (proj1 (slice_field_binds_every_value
                    sampleFold sampleParseFloat [("n", ["1"; "2"; "3"])] "query" [] fN
                    (reflect.VSlice []) "n" None tInt ["1"; "2"; "3"]
                    eq_refl eq_refl eq_refl eq_refl eq_refl
                    ltac:(discriminate) eq_refl eq_refl ltac:(discriminate))).
    intros val [<-|[<-|[<-|[]]]]; reflexivity.
  - apply (proj1 (proj2 (slice_field_binds_every_value
                    sampleFold sampleParseFloat [("n", ["1"; "x"; "3"])] "query" [] fN
                    (reflect.VSlice [reflect.VInt 9]) "n" None tInt ["1"; "x"; "3"]
                    eq_refl eq_refl eq_refl eq_refl eq_refl
                    ltac:(discriminate) eq_refl eq_refl ltac:(discriminate)))
                 _ ["1"] "x" ["3"]).
    + reflexivity.
    + intros x [<-|[]]. reflexivity.
    + reflexivity.
    + discriminate.
Defined.

Lemma field_name_resolution_witness :
  resolve sampleFold [("Accept", ["*/*"]); ("X-Name", ["v"])] "x-name" = Some ["v"]
  /\ bindField sampleFold sampleParseFloat [("Accept", ["*/*"]); ("X-Name", ["v"])] "header" []
               (bindValue sampleFold sampleParseFloat
                          [("Accept", ["*/*"]); ("X-Name", ["v"])] "header" [])
               fName (reflect.VString "")
     = (reflect.VString "v", Done)
  /\ bindField sampleFold sampleParseFloat [("Accept", ["*/*"])] "header" []
               (bindValue sampleFold sampleParseFloat [("Accept", ["*/*"])] "header" [])
               fName (reflect.VString "old")
     = (reflect.VString "old", Done).
Proof.
  pose proof (field_name_resolution
                sampleFold sampleParseFloat [("Accept", ["*/*"]); ("X-Name", ["v"])] "x-name")
    as (_ & Hscan & _ & _ & Hturn).
  pose proof (field_name_resolution sampleFold sampleParseFloat [("Accept", ["*/*"])] "x-name")
    as (_ & _ & Hnone & _ & Hskip).
  split; [|split].
  - apply (Hscan [("Accept", ["*/*"])] "X-Name" ["v"] []).
    + reflexivity.
    + reflexivity.
    + intros k' v' [E|[]]. inversion E. reflexivity.
    + reflexivity.
  - apply (proj2 (Hturn "header" [] _ fName (reflect.VString "")
                        eq_refl eq_refl eq_refl ltac:(discriminate) eq_refl)
                 None "v" []); reflexivity.
  - apply (proj1 (Hskip "header" [] _ fName (reflect.VString "old")
                        eq_refl eq_refl eq_refl ltac:(discriminate) eq_refl)).
    apply Hnone; [reflexivity|]. intros k v [E|[]]. inversion E. reflexivity.
Defined.

(** An exact key goes before a key that matches up to case, wherever the
    two stand in the map. *)
Example exact_key_first :
  resolve sampleFold [("ID", ["1"]); ("id", ["2"])] "id" = Some ["2"]
  /\ resolve sampleFold [("id", ["2"]); ("ID", ["1"])] "id" = Some ["2"].
Proof. split; reflexivity. Qed.

Lemma multipart_file_fields_witness :
  bindField sampleFold sampleParseFloat [("title", ["x"])] "form" [("avatar", [sampleUpload])]
            (bindValue sampleFold sampleParseFloat [("title", ["x"])] "form"
                       [("avatar", [sampleUpload])])
            fFiles (reflect.VSlice [])
  = (reflect.VSlice [], Done)
  /\ bindField sampleFold sampleParseFloat [("title", ["x"])] "form" [("avatar", [sampleUpload])]
               (bindValue sampleFold sampleParseFloat [("title", ["x"])] "form"
                          [("avatar", [sampleUpload])])
               fAvatar (reflect.Zero reflect.FileHeaderType)
     = (reflect.Zero reflect.FileHeaderType, Fail errFileHeaderStruct).
Proof.
  split.
  - apply (proj1 (multipart_file_fields
                    sampleFold sampleParseFloat [("title", ["x"])] [("avatar", [sampleUpload])]
                    _ fFiles (reflect.VSlice []) "files"
                    ltac:(discriminate) eq_refl eq_refl eq_refl ltac:(discriminate))
                 eq_refl (or_introl eq_refl) eq_refl).
    all: reflexivity.
  - apply (proj2 (multipart_file_fields
                    sampleFold sampleParseFloat [("title", ["x"])] [("avatar", [sampleUpload])]
                    _ fAvatar (reflect.Zero reflect.FileHeaderType) "avatar"
                    ltac:(discriminate) eq_refl eq_refl eq_refl ltac:(discriminate))).
    reflexivity.
Defined.

(** A text part under the name of the field, and no file: the slice of
    handles is not left empty without error. *)
Lemma file_slice_with_form_value_fails :
  ~ (forall data dataFiles self typeField field name,
        dataFiles <> [] ->
        reflect.Anonymous typeField = false ->
        reflect.exported typeField = true ->
        reflect.Get (reflect.Tag typeField) "form" = name ->
        name <> "" ->
        reflect.Type_ typeField
        = reflect.SliceOf None (reflect.PtrTo reflect.FileHeaderType) ->
        lookup dataFiles name = None ->
        field = reflect.Zero (reflect.Type_ typeField) ->
        bindField sampleFold sampleParseFloat data "form" dataFiles self
                  typeField field
        = (reflect.VSlice [], Done)).
Proof.
  intros H.
  specialize (H [("files", ["x"])] [("avatar", [sampleUpload])]
                (bindValue sampleFold sampleParseFloat [("files", ["x"])] "form"
                           [("avatar", [sampleUpload])])
                fFiles (reflect.VSlice []) "files").
  assert (Hfiles : [("avatar", [sampleUpload])] <> ([] : Files)) by discriminate.
  assert (Hname : "files" <> "") by discriminate.
  specialize (H Hfiles eq_refl eq_refl eq_refl Hname eq_refl eq_refl eq_refl).
  discriminate H.
Qed.

(** An uploaded file under the field's name is what the slice of handles
    takes; a form value under that name, with no such file, is not
    something a file handle can be coerced from. *)
Example file_handles_bound_from_files :
  bindField sampleFold sampleParseFloat [] "form" [("files", [sampleUpload])]
            (bindValue sampleFold sampleParseFloat [] "form" [("files", [sampleUpload])])
            fFiles (reflect.VSlice [])
  = (reflect.VSlice [reflect.VPtr (Some (reflect.VFileHeader sampleUpload))], Done)
  /\ bindField sampleFold sampleParseFloat [("files", ["x"])] "form" [("avatar", [sampleUpload])]
               (bindValue sampleFold sampleParseFloat [("files", ["x"])] "form"
                          [("avatar", [sampleUpload])])
               fFiles (reflect.VSlice [])
     = (reflect.VSlice [], Fail errUnknownType).
Proof. split; reflexivity. Qed.

Lemma BindBody_empty_body_witness :
  BindBody sampleFold sampleParseFloat sampleDecode sampleDecode (sampleOctets 0)
           (DPtr tUser (reflect.VStruct [reflect.VInt 3]))
  = (DPtr tUser (reflect.VStruct [reflect.VInt 3]), Done).
Proof.
  apply (BindBody_empty_body sampleFold sampleParseFloat sampleDecode sampleDecode
                             (sampleOctets 0)).
  reflexivity.
Defined.

(** The same content type with a body of five bytes is turned down. *)
Example unknown_media_type_with_body :
  BindBody sampleFold sampleParseFloat sampleDecode sampleDecode (sampleOctets 5)
           (DPtr tUser (reflect.VStruct [reflect.VInt 3]))
  = (DPtr tUser (reflect.VStruct [reflect.VInt 3]), Fail ErrUnsupportedMediaType).
Proof. reflexivity. Qed.

(** With no data at all a root that is no struct goes unnoticed. *)
Lemma non_struct_root_unnoticed_without_data :
  ~ (forall data dataFiles typ val,
        isStringMap typ = false ->
        reflect.KindOf typ <> reflect.Struct ->
        snd (bindData sampleFold sampleParseFloat data "form" dataFiles (DPtr typ val))
        = Fail errNotStruct).
Proof.
  intros H.
  specialize (H [] [] tInt (reflect.VInt 0) eq_refl ltac:(discriminate)).
  discriminate H.
Qed.

Lemma bindData_non_struct_root_witness :
  bindData sampleFold sampleParseFloat [("id", ["1"])] "form" [] (DPtr tInt (reflect.VInt 0))
  = (DPtr tInt (reflect.VInt 0), Fail errNotStruct)
  /\ (forall tag, In tag ["param"; "query"; "header"] ->
                  bindData sampleFold sampleParseFloat [("id", ["1"])] tag []
                           (DPtr tInt (reflect.VInt 0))
                  = (DPtr tInt (reflect.VInt 0), Done)).
Proof.
  apply (bindData_non_struct_root sampleFold sampleParseFloat [("id", ["1"])] []
                                  tInt (reflect.VInt 0)).
  - reflexivity.
  - reflexivity.
  - discriminate.
Defined.

(** The guard at work: the two destinations that are turned down as soon
    as there is data pass when there is none. *)
Example guard_skips_the_checks :
  bindData sampleFold sampleParseFloat [] "query" [] (DPtr tOuter (reflect.Zero tOuter))
  = (DPtr tOuter (reflect.Zero tOuter), Done)
  /\ bindData sampleFold sampleParseFloat [] "form" []
              (DPtr (reflect.StructOf None [fAvatar])
                    (reflect.Zero (reflect.StructOf None [fAvatar])))
     = (DPtr (reflect.StructOf None [fAvatar])
             (reflect.Zero (reflect.StructOf None [fAvatar])), Done)
  /\ snd (bindData sampleFold sampleParseFloat [] "form" [("avatar", [sampleUpload])]
                   (DPtr (reflect.StructOf None [fAvatar])
                         (reflect.Zero (reflect.StructOf None [fAvatar]))))
     = Fail errFileHeaderStruct.
Proof. repeat split. Qed.

(** * The further properties at work *)

Lemma map_destination_takes_every_key_witness :
  exists entries',
    bindData sampleFold sampleParseFloat [("id", ["1"; "2"]); ("q", ["x"])] "query" []
             (DPtr tStringMap (reflect.VMap (Some sampleEntries)))
    = (DPtr tStringMap (reflect.VMap (Some entries')), Done)
    /\ (forall k v0 rest,
           In (k, v0 :: rest) [("id", ["1"; "2"]); ("q", ["x"])] ->
           lookup entries' k = Some (reflect.VString v0))
    /\ (forall k,
           lookup [("id", ["1"; "2"]); ("q", ["x"])] k = None ->
           lookup entries' k = lookup sampleEntries k).
Proof.
  apply (proj1 (map_destination_takes_every_key
                  sampleFold sampleParseFloat [("id", ["1"; "2"]); ("q", ["x"])] "query" []
                  None (Some sampleEntries)
                  ltac:(discriminate)
                  ltac:(repeat constructor; simpl; intuition discriminate))).
  intros k v [E|[E|[]]]; inversion E; discriminate.
Defined.

Lemma map_destination_never_fails_witness :
  bindData sampleFold sampleParseFloat [("id", ["1"])] "form" []
           (DPtr tIntMap (reflect.VMap None))
  = (DPtr tIntMap (reflect.VMap None), Done).
Proof.
  apply (proj2 (map_destination_never_fails
                  sampleFold sampleParseFloat [("id", ["1"])] "form" []
                  tIntMap (reflect.VMap None) eq_refl)
               None tString tInt eq_refl).
  - discriminate.
  - discriminate.
  - discriminate.
Defined.

Lemma path_params_one_value_per_name_witness :
  lookup [("id", ["5"]); ("tab", ["posts"])] "tab" = Some ["posts"]
  /\ exists why,
      BindPathParams sampleFold sampleParseFloat
        {| ParamNames := ["id"; "tab"]; ParamValues := ["5"];
           QueryParams := []; Method := "GET"; ContentLength := 0;
           ContentType := ""; FormParams := ([], None);
           MultipartForm := (([], []), None); Header := [] |}
        (DPtr tUser (reflect.Zero tUser))
      = (DPtr tUser (reflect.Zero tUser), Panic why).
Proof.
  split.
  - apply (proj2 (proj2 (proj2 (proj2 (path_params_one_value_per_name
                                         sampleFold sampleParseFloat ["id"; "tab"] ["5"; "posts"]))
                               [("id", ["5"]); ("tab", ["posts"])] eq_refl))
                 ltac:(repeat constructor; simpl; intuition discriminate)
                 1%nat "tab" "posts" eq_refl eq_refl).
  - apply (proj1 (proj2 (path_params_one_value_per_name
                           sampleFold sampleParseFloat ["id"; "tab"] ["5"]))
                 {| ParamNames := ["id"; "tab"]; ParamValues := ["5"];
                    QueryParams := []; Method := "GET"; ContentLength := 0;
                    ContentType := ""; FormParams := ([], None);
                    MultipartForm := (([], []), None); Header := [] |}
                 (DPtr tUser (reflect.Zero tUser)) eq_refl eq_refl).
    simpl. lia.
Defined.

Lemma Bind_errors_are_HTTP_errors_witness :
  ErrUnsupportedMediaType = ErrUnsupportedMediaType
  \/ (exists cause msg,
         ErrUnsupportedMediaType = HTTPError http.StatusBadRequest msg (Some cause))
  \/ (exists i0,
         sampleDecode (sampleOctets 5) i0
         = (DPtr tUser (reflect.VStruct [reflect.VInt 3]),
            Fail ErrUnsupportedMediaType)
         /\ isHTTPError ErrUnsupportedMediaType = true).
Proof.
  apply (proj1 (Bind_errors_are_HTTP_errors
                  sampleFold sampleParseFloat sampleDecode sampleDecode (sampleOctets 5))
               (DPtr tUser (reflect.VStruct [reflect.VInt 3]))
               (DPtr tUser (reflect.VStruct [reflect.VInt 3]))
               ErrUnsupportedMediaType).
  reflexivity.
Defined.

Lemma bindData_leaves_alone_witness :
  nth_error [reflect.VInt 7; reflect.VString "keep"] 1
  = nth_error [reflect.VInt 0; reflect.VString "keep"] 1.
Proof.
  apply (bindData_leaves_alone
           sampleFold sampleParseFloat [("id", ["7"])] "query" [] None
           [fID; reflect.mkStructField "Note" tString [("form", "note")] false true]
           [reflect.VInt 0; reflect.VString "keep"]
           [reflect.VInt 7; reflect.VString "keep"] Done 1%nat
           (reflect.mkStructField "Note" tString [("form", "note")] false true)).
  - reflexivity.
  - reflexivity.
  - right. right. left. repeat split. discriminate.
Defined.

Lemma failed_conversion_writes_nothing_witness :
  setWithProperType sampleParseFloat tInt "x" (reflect.VInt 7)
  = (reflect.VInt 7, Fail (NumError "ParseInt" "x" strconv.ErrSyntax))
  /\ reflect.VInt 7 = reflect.VInt 7.
Proof.
  split; [reflexivity|].
  apply (proj1 (failed_conversion_writes_nothing
                  sampleFold sampleParseFloat tInt "x" (reflect.VInt 7) (reflect.VInt 7)
                  (NumError "ParseInt" "x" strconv.ErrSyntax)
                  ltac:(discriminate) eq_refl)).
  reflexivity.
Defined.

Lemma bound_integers_fit_their_width_witness :
  (exists n, reflect.VInt (-128) = reflect.VInt n /\ - 2 ^ (8 - 1) <= n <= 2 ^ (8 - 1) - 1)
  /\ snd (setWithProperType sampleParseFloat (reflect.Basic None reflect.Int8) "128"
                            (reflect.VInt 0))
     = Fail (NumError "ParseInt" "128" strconv.ErrRange).
Proof.
  split; [|reflexivity].
  apply (bound_integers_fit_their_width
           sampleParseFloat None reflect.Int8 "-128" (reflect.VInt 0)
           (reflect.VInt (-128)) true 8 eq_refl eq_refl).
  reflexivity.
Defined.

Lemma unsupported_kinds_are_unknown_types_witness :
  bindField sampleFold sampleParseFloat [("inner", ["x"])] "query" []
            (bindValue sampleFold sampleParseFloat [("inner", ["x"])] "query" [])
            (reflect.mkStructField "Inner" tInner [("query", "inner")] false true)
            (reflect.Zero tInner)
  = (reflect.Zero tInner, Fail errUnknownType).
Proof.
  apply (proj1 (unsupported_kinds_are_unknown_types
                  sampleFold sampleParseFloat [("inner", ["x"])] "query" [] _
                  (reflect.mkStructField "Inner" tInner [("query", "inner")] false true)
                  (reflect.Zero tInner) "inner" "x" [] tInner
                  eq_refl eq_refl eq_refl eq_refl ltac:(discriminate) eq_refl)).
  - reflexivity.
  - reflexivity.
Defined.

Lemma hooks_in_order_witness :
  bindField sampleFold sampleParseFloat [("ids", ["a"; "b"])] "query" []
            (bindValue sampleFold sampleParseFloat [("ids", ["a"; "b"])] "query" [])
            fIDs (reflect.VSlice [])
  = (reflect.VSlice [reflect.VString "a"; reflect.VString "b"], Done).
Proof.
  apply (proj1 (hooks_in_order
                  sampleFold sampleParseFloat [("ids", ["a"; "b"])] "query" [] _
                  fIDs (reflect.VSlice []) "ids" tIDs sampleHooks ["a"; "b"]
                  eq_refl ltac:(discriminate) eq_refl eq_refl eq_refl eq_refl
                  ltac:(discriminate) eq_refl)
               _ eq_refl).
Defined.

Lemma pointer_fields_get_storage_witness :
  bindField sampleFold sampleParseFloat [("age", ["41"])] "query" []
            (bindValue sampleFold sampleParseFloat [("age", ["41"])] "query" [])
            fAge (reflect.VPtr None)
  = (reflect.VPtr (Some (reflect.VInt 41)), Done)
  /\ bindField sampleFold sampleParseFloat [("age", ["old"])] "query" []
               (bindValue sampleFold sampleParseFloat [("age", ["old"])] "query" [])
               fAge (reflect.VPtr None)
     = (reflect.VPtr (Some (reflect.VInt 0)),
        Fail (NumError "ParseInt" "old" strconv.ErrSyntax)).
Proof.
  split.
  - apply (proj1 (proj2 (pointer_fields_get_storage
                           sampleFold sampleParseFloat [("age", ["41"])] "query" [] _
                           fAge None "age" tInt ["41"]
                           eq_refl eq_refl eq_refl eq_refl ltac:(discriminate) eq_refl))
                 None reflect.Int "41" [] eq_refl eq_refl eq_refl eq_refl).
  - apply (proj1 (proj2 (pointer_fields_get_storage
                           sampleFold sampleParseFloat [("age", ["old"])] "query" [] _
                           fAge None "age" tInt ["old"]
                           eq_refl eq_refl eq_refl eq_refl ltac:(discriminate) eq_refl))
                 None reflect.Int "old" [] eq_refl eq_refl eq_refl eq_refl).
Defined.

Lemma uploaded_files_go_first_witness :
  bindField sampleFold sampleParseFloat [("portrait", ["text"])] "form"
            [("portrait", [sampleUpload])]
            (bindValue sampleFold sampleParseFloat [("portrait", ["text"])] "form"
                       [("portrait", [sampleUpload])])
            fPortrait (reflect.VPtr None)
  = (reflect.VPtr (Some (reflect.VFileHeader sampleUpload)), Done).
Proof.
  apply (proj2 (proj2 (uploaded_files_go_first
                         sampleFold sampleParseFloat [("portrait", ["text"])] "form"
                         [("portrait", [sampleUpload])] _ fPortrait (reflect.VPtr None)
                         "portrait" sampleUpload []
                         eq_refl eq_refl eq_refl eq_refl ltac:(discriminate)))).
  reflexivity.
Defined.

Lemma file_fields_reject_form_values_witness :
  bindField sampleFold sampleParseFloat [("portrait", ["text"])] "form"
            [("avatar", [sampleUpload])]
            (bindValue sampleFold sampleParseFloat [("portrait", ["text"])] "form"
                       [("avatar", [sampleUpload])])
            fPortrait (reflect.VPtr None)
  = (reflect.VPtr (Some (reflect.Zero reflect.FileHeaderType)), Fail errUnknownType).
Proof.
  apply (proj2 (proj2 (file_fields_reject_form_values
                         sampleFold sampleParseFloat [("portrait", ["text"])] "form"
                         [("avatar", [sampleUpload])] _ fPortrait
                         "portrait" "text" []
                         (or_introl eq_refl) eq_refl eq_refl eq_refl
                         ltac:(discriminate) eq_refl))
               None).
  reflexivity.
Defined.

Lemma key_without_values_panics_witness :
  exists why,
    bindField sampleFold sampleParseFloat [("count", [])] "query" []
              (bindValue sampleFold sampleParseFloat [("count", [])] "query" [])
              fCount (reflect.VInt 3)
    = (reflect.VInt 3, Panic why).
Proof.
  apply (proj1 (key_without_values_panics sampleFold sampleParseFloat [("count", [])] "query" [])
               _ fCount (reflect.VInt 3) "count" tInt).
  - reflexivity.
  - discriminate.
  - left. reflexivity.
  - reflexivity.
  - reflexivity.
  - reflexivity.
  - discriminate.
  - reflexivity.
  - reflexivity.
Defined.

Lemma media_type_parameters_are_dropped_witness :
  mediatype samplePadded = strings.TrimSpace "application/x-www-form-urlencoded"
  /\ mediatype samplePadded = MIMEApplicationForm.
Proof.
  split; [|reflexivity].
  apply (proj1 (media_type_parameters_are_dropped
                  sampleFold sampleParseFloat sampleDecode sampleDecode samplePadded
                  [" "] "application/x-www-form-urlencoded" [tab; nbsp]
                  " charset=utf-8"
                  eq_refl eq_refl eq_refl eq_refl)).
Defined.


Lemma bindData_never_panics_witness :
  snd (bindData sampleFold sampleParseFloat [("age", ["x"]); ("ids", ["1"; "2"])] "query" []
                (DPtr (reflect.StructOf None [fAge; fIDs; fMeta])
                      (reflect.VStruct [reflect.VPtr None; reflect.VSlice [];
                                        reflect.VMap None])))
  <> Panic "reflect: Elem of a nil pointer".
Proof.
  apply (proj1 (bindData_never_panics
                  sampleFold sampleParseFloat
                  (reflect.StructOf None [fAge; fIDs; fMeta])
                  (reflect.VStruct [reflect.VPtr None; reflect.VSlice [];
                                    reflect.VMap None])
                  eq_refl)).
  intros k v [E|[E|[]]]; inversion E; discriminate.
Defined.

(** [type MyInt int] embedded by pointer:
    [struct { *MyInt `query:"n"` }]. *)
Lemma tagged_embedded_pointer_panics_witness :
  exists why,
    bindData sampleFold sampleParseFloat [("N", ["1"])] "query" []
             (DPtr (reflect.StructOf None
                      [reflect.mkStructField "MyInt"
                         (reflect.PtrTo
                            (reflect.Basic
                               (Some {| reflect.UnmarshalParam := None;
                                        reflect.UnmarshalText := None;
                                        reflect.UnmarshalParams := None |})
                               reflect.Int))
                         [("query", "n")] true true])
                   (reflect.VStruct [reflect.VPtr (Some (reflect.VInt 5))]))
    = (DPtr (reflect.StructOf None
               [reflect.mkStructField "MyInt"
                  (reflect.PtrTo
                     (reflect.Basic
                        (Some {| reflect.UnmarshalParam := None;
                                 reflect.UnmarshalText := None;
                                 reflect.UnmarshalParams := None |})
                        reflect.Int))
                  [("query", "n")] true true])
            (reflect.VStruct [reflect.VPtr (Some (reflect.VInt 5))]),
       Panic why).
Proof.
  apply (tagged_embedded_pointer_panics
           sampleFold sampleParseFloat [("N", ["1"])] "query" [] None []
           (reflect.mkStructField "MyInt"
              (reflect.PtrTo
                 (reflect.Basic
                    (Some {| reflect.UnmarshalParam := None;
                             reflect.UnmarshalText := None;
                             reflect.UnmarshalParams := None |})
                    reflect.Int))
              [("query", "n")] true true)
           [] [] _ (reflect.VInt 5) [] [] ["1"]
           eq_refl eq_refl eq_refl eq_refl eq_refl).
  - discriminate.
  - discriminate.
  - discriminate.
  - reflexivity.
  - reflexivity.
Defined.

(** [struct { Inner }] with [Inner] as above, from [?a=x]. *)
Lemma untagged_struct_field_is_bound_in_place_witness :
  exists field' err,
    bindData sampleFold sampleParseFloat [("a", ["x"])] "query" []
             (DPtr tInner (reflect.VStruct [reflect.VString ""]))
    = (DPtr tInner field', err)
    /\ bindData sampleFold sampleParseFloat [("a", ["x"])] "query" []
                (DPtr (reflect.StructOf None
                         [reflect.mkStructField "Inner" tInner [] true true])
                      (reflect.VStruct [reflect.VStruct [reflect.VString ""]]))
       = if isDone err then
           (DPtr (reflect.StructOf None
                    [reflect.mkStructField "Inner" tInner [] true true])
                 (reflect.VStruct [field']), Done)
         else
           (DPtr (reflect.StructOf None
                    [reflect.mkStructField "Inner" tInner [] true true])
                 (reflect.VStruct [field']), err).
Proof.
  apply (untagged_struct_field_is_bound_in_place
           sampleFold sampleParseFloat [("a", ["x"])] "query" [] None []
           (reflect.mkStructField "Inner" tInner [] true true)
           [] [] (reflect.VStruct [reflect.VString ""]) [] []
           eq_refl eq_refl eq_refl eq_refl eq_refl eq_refl).
  intros ms H. discriminate H.
Defined.

(** [type Lang string] as the element type: [map[string]Lang]. *)
Lemma unassignable_map_panics_witness :
  exists why,
    bindData sampleFold sampleParseFloat [("lang", ["en"])] "query" []
             (DPtr (reflect.MapOf None tString
                      (reflect.Basic
                         (Some {| reflect.UnmarshalParam := None;
                                  reflect.UnmarshalText := None;
                                  reflect.UnmarshalParams := None |})
                         reflect.String))
                   (reflect.VMap None))
    = (DPtr (reflect.MapOf None tString
               (reflect.Basic
                  (Some {| reflect.UnmarshalParam := None;
                           reflect.UnmarshalText := None;
                           reflect.UnmarshalParams := None |})
                  reflect.String))
            (reflect.VMap (Some [])),
       Panic why).
Proof.
  apply (unassignable_map_panics
           sampleFold sampleParseFloat [("lang", ["en"])] "query" [] None tString
           (reflect.Basic
              (Some {| reflect.UnmarshalParam := None;
                       reflect.UnmarshalText := None;
                       reflect.UnmarshalParams := None |})
              reflect.String)
           None).
  - discriminate.
  - reflexivity.
  - left. reflexivity.
  - reflexivity.
Defined.
